(** * Scrapers: a shallow embedding of [toi_scraper.py] and
      [reddit_scraper_ready.py], and the properties of their
      fetch / normalize / deduplicate / persist pipelines.

    Conventions of the embedding.
    - A Python [str] is a [string]; one [ascii] stands for one character.
    - A Python exception is a value of [exn]; code that may raise returns an
      [outcome].  [try ... except Exception] catches exactly the exceptions
      for which [is_Exception] holds.
    - Third-party calls (requests, BeautifulSoup, praw, datetime, the file
      system) are fields of an environment record or primitives on [World];
      what they return is not interpreted, only how the scripts use it.
    - [print] and [time.sleep] only write progress lines and pace the loop;
      they do not influence any returned value or file and are left out. *)

From Stdlib Require Import ZArith String Ascii List Lia.
From stdpp Require Import base decidable option list gmap sets strings pretty.
From stdpp Require Import sorting list_numbers.

Local Open Scope string_scope.
Local Open Scope Z_scope.
Local Open Scope list_scope.

(* ===================================================================== *)
(** ** Python values, strings and exceptions                              *)
(* ===================================================================== *)

Module Py.

(** Exceptions the scripts can meet.  The first two derive from
    [BaseException] only; all others derive from [Exception].  The three
    [requests] errors derive from [requests.RequestException]. *)
Inductive exn : Type :=
| KeyboardInterrupt
| SystemExit
| OSError
| ValueError
| KeyError (key : string)
| TypeError
| OverflowError
| RequestsConnectionError
| RequestsTimeout
| HTTPError
| PrawcoreException.

Definition is_Exception (e : exn) : bool :=
  match e with
  | KeyboardInterrupt | SystemExit => false
  | _ => true
  end.

Definition is_RequestException (e : exn) : bool :=
  match e with
  | RequestsConnectionError | RequestsTimeout | HTTPError => true
  | _ => false
  end.

(** The result of running a piece of Python: a value, or a raised
    exception travelling up the stack. *)
Inductive outcome (A : Type) : Type :=
| Ret (a : A)
| Raise (e : exn).
Arguments Ret {A} a.
Arguments Raise {A} e.

#[global] Instance outcome_ret : MRet outcome := @Ret.
#[global] Instance outcome_bind : MBind outcome := fun A B f m =>
  match m with
  | Ret a => f a
  | Raise e => Raise e
  end.

(** [try: body except Exception: handler] *)
Definition try_except_Exception {A} (body : outcome A) (handler : exn -> outcome A)
  : outcome A :=
  match body with
  | Ret a => Ret a
  | Raise e => if is_Exception e then handler e else Raise e
  end.

(** A Python float.  The scripts only carry floats from the source into
    a record and print them, so a float is named by its [repr]. *)
Inductive pyfloat : Type := PyF (repr : string).

Inductive pyval : Type :=
| PyNone
| PyBool (b : bool)
| PyInt (z : Z)
| PyFloat (f : pyfloat)
| PyStr (s : string).

(** A [dict] with string keys, in insertion order. *)
Definition pydict : Type := list (string * pyval).

Definition keys (d : pydict) : list string := fst <$> d.

(** [d.get(key, default)] *)
Fixpoint dict_get (key : string) (default : pyval) (d : pydict) : pyval :=
  match d with
  | [] => default
  | (k, v) :: rest => if String.eqb k key then v else dict_get key default rest
  end.

(** *** Strings *)

Definition nonempty (s : string) : bool :=
  match s with
  | EmptyString => false
  | String _ _ => true
  end.

(** [s.startswith(p)] *)
Fixpoint startswith (s p : string) {struct p} : bool :=
  match p, s with
  | EmptyString, _ => true
  | String _ _, EmptyString => false
  | String b p', String a s' => Ascii.eqb a b && startswith s' p'
  end.

(** [sub in s] *)
Fixpoint str_in (sub s : string) : bool :=
  startswith s sub ||
  match s with
  | EmptyString => false
  | String _ s' => str_in sub s'
  end.

(** [s[:n]] for a non-negative literal [n] *)
Fixpoint str_take (n : nat) (s : string) : string :=
  match n, s with
  | O, _ => EmptyString
  | S _, EmptyString => EmptyString
  | S n', String a s' => String a (str_take n' s')
  end.

(** Characters [str.isspace] accepts, among the first 256 code points. *)
Definition isspace (a : ascii) : bool :=
  let n := nat_of_ascii a in
  ((9 <=? n) && (n <=? 13) || (28 <=? n) && (n <=? 32)
   || (n =? 133) || (n =? 160))%nat.

Fixpoint lstrip (s : string) : string :=
  match s with
  | EmptyString => EmptyString
  | String a s' => if isspace a then lstrip s' else s
  end.

(** [s.strip()] *)
Definition strip (s : string) : string :=
  String.rev (lstrip (String.rev (lstrip s))).

(** [l[:limit]] on a list, for any integer [limit]. *)
Definition slice_to {A} (limit : Z) (l : list A) : list A :=
  if 0 <=? limit then take (Z.to_nat limit) l
  else take (length l - Z.to_nat (- limit)) l.

End Py.
Import Py.

(* ===================================================================== *)
(** ** toi_scraper.py                                                     *)
(* ===================================================================== *)

Module Toi.

(** One [<a href=...>] element as BeautifulSoup presents it:
    [link['href']], [link.get_text()] and [link.find('img')], the latter
    with its [src] attribute when it has one. *)
Record anchor : Type := {
  href : string;
  get_text : string;
  img : option (option string)
}.

Record response : Type := {
  status_code : Z;
  text : string
}.

(** What the script sees of the outside world. *)
Record Web : Type := {
  (** [requests.get(url, headers=headers, timeout=10)] *)
  requests_get : outcome response;
  (** [BeautifulSoup(text, 'html.parser').find_all('a', href=True)] *)
  find_all_a : string -> outcome (list anchor);
  (** [datetime.now().strftime('%Y-%m-%d %H:%M:%S')] at the i-th reading *)
  now : nat -> string
}.

(** The dictionary appended to [news_articles]; the fields are its keys
    in the order of the literal. *)
Record article : Type := {
  title : string;
  url : string;
  image : string;
  category : string;
  source : string;
  scraped_at : string
}.

Definition article_keys : list string :=
  ["title"; "url"; "image"; "category"; "source"; "scraped_at"].

(** [response.raise_for_status()] *)
Definition raise_for_status (r : response) : outcome unit :=
  if (400 <=? status_code r) && (status_code r <? 600)
  then Raise HTTPError else Ret tt.

(** line 46 *)
Definition full_url_of (href : string) : string :=
  if startswith href "http" then href
  else "https://timesofindia.indiatimes.com" +:+ href.

(** lines 49-54 *)
Definition img_url_of (link : anchor) : string :=
  match img link with
  | None => ""
  | Some img_element =>
      let img_url := default "" img_element in
      if nonempty img_url && negb (startswith img_url "http")
      then "https:" +:+ img_url
      else img_url
  end.

(** lines 57-67 *)
Definition category_of (full_url : string) : string :=
  if str_in "/india/" full_url then "India News"
  else if str_in "/world/" full_url then "World News"
  else if str_in "/sports/" full_url then "Sports"
  else if str_in "/business/" full_url then "Business"
  else if str_in "/entertainment/" full_url then "Entertainment"
  else "Other".

(** lines 69-76 *)
Definition make_article (link : anchor) (title : string) (stamp : string)
  : article :=
  let full_url := full_url_of (href link) in
  {| title := title;
     url := full_url;
     image := img_url_of link;
     category := category_of full_url;
     source := "Times of India";
     scraped_at := stamp |}.

(** lines 40-44: the two filters an anchor has to pass *)
Definition accepted (link : anchor) : bool :=
  str_in "articleshow" (href link) &&
  let title := strip (get_text link) in
  nonempty title && (15 <? String.length title)%nat.

(** lines 36-76: the loop over the anchors; the clock is read once for
    every article appended. *)
Fixpoint collect_articles (now : nat -> string) (links : list anchor)
    (news_articles : list article) : list article :=
  match links with
  | [] => news_articles
  | link :: rest =>
      if accepted link then
        collect_articles now rest
          (news_articles ++
             [make_article link (strip (get_text link))
                (now (length news_articles))])
      else collect_articles now rest news_articles
  end.

(** lines 79-84: the loop removing duplicates *)
Fixpoint dedupe_loop (news_articles : list article)
    (seen_urls : gset string) (unique_articles : list article)
  : list article :=
  match news_articles with
  | [] => unique_articles
  | article :: rest =>
      if decide (url article ∈ seen_urls)
      then dedupe_loop rest seen_urls unique_articles
      else dedupe_loop rest ({[url article]} ∪ seen_urls)
             (unique_articles ++ [article])
  end.

Definition dedupe (news_articles : list article) : list article :=
  dedupe_loop news_articles ∅ [].

(** lines 24-86, the body of the [try] *)
Definition scrape_body (w : Web) : outcome (list article) :=
  response ← requests_get w;
  _ ← raise_for_status response;
  links ← find_all_a w (text response);
  mret (dedupe (collect_articles (now w) links [])).

(** [except requests.RequestException] comes first, [except Exception]
    second; both return the empty list. *)
Definition scrape_times_of_india (w : Web) : outcome (list article) :=
  match scrape_body w with
  | Ret unique_articles => Ret unique_articles
  | Raise e =>
      if is_RequestException e then Ret []
      else if is_Exception e then Ret []
      else Raise e
  end.

End Toi.

(* ===================================================================== *)
(** ** Files                                                              *)
(* ===================================================================== *)

Module IO.

(** What the scripts put into a file: rows handed to a [csv] writer, or
    the one document handed to [json.dump]. *)
Inductive line : Type :=
| CsvRow (cells : list string)
| JsonDoc (data : list pydict).

(** The file system, and the I/O failures still to come: every
    operation on a file takes the next entry of [pending] and raises it
    when it is an exception ([None], or no entry, lets the operation
    succeed). *)
Record World : Type := {
  files : gmap string (list line);
  pending : list (option exn)
}.

Definition IO (A : Type) : Type := World -> outcome A * World.

#[global] Instance io_ret : MRet IO := fun A a w => (Ret a, w).
#[global] Instance io_bind : MBind IO := fun A B f m w =>
  match m w with
  | (Ret a, w') => f a w'
  | (Raise e, w') => (Raise e, w')
  end.

Definition io_raise {A} (e : exn) : IO A := fun w => (Raise e, w).

Definition lift {A} (o : outcome A) : IO A := fun w => (o, w).

(** The next I/O operation: may fail. *)
Definition attempt : IO unit := fun w =>
  match pending w with
  | [] => (Ret tt, w)
  | None :: rest => (Ret tt, {| files := files w; pending := rest |})
  | Some e :: rest => (Raise e, {| files := files w; pending := rest |})
  end.

Definition set_file (filename : string) (content : list line) : IO unit :=
  fun w => (Ret tt, {| files := <[filename := content]> (files w);
                       pending := pending w |}).

(** [open(filename, 'w', ...)]: creates the file, or empties it. *)
Definition open_w (filename : string) : IO unit :=
  _ ← attempt; set_file filename [].

Definition append_line (filename : string) (l : line) : IO unit :=
  fun w => set_file filename (default [] (files w !! filename) ++ [l]) w.

(** A write through the handle of [filename]. *)
Definition write (filename : string) (l : line) : IO unit :=
  _ ← attempt; append_line filename l.

Definition close : IO unit := attempt.

(** [with open(filename, 'w', ...) as file: body]: the file is closed
    when the body is left, also by an exception. *)
Definition with_open {A} (filename : string) (body : IO A) : IO A :=
  fun w =>
    match open_w filename w with
    | (Raise e, w1) => (Raise e, w1)
    | (Ret _, w1) =>
        match body w1 with
        | (Ret a, w2) =>
            match close w2 with
            | (Ret _, w3) => (Ret a, w3)
            | (Raise e, w3) => (Raise e, w3)
            end
        | (Raise e, w2) =>
            match close w2 with
            | (Ret _, w3) => (Raise e, w3)
            | (Raise e', w3) => (Raise e', w3)
            end
        end
    end.

(** [try: body except Exception as e: handler] *)
Definition try_except {A} (body : IO A) (handler : exn -> IO A) : IO A :=
  fun w =>
    match body w with
    | (Ret a, w') => (Ret a, w')
    | (Raise e, w') => if is_Exception e then handler e w' else (Raise e, w')
    end.

(** [for x in xs: body x] *)
Fixpoint for_each {A} (xs : list A) (body : A -> IO unit) : IO unit :=
  match xs with
  | [] => mret tt
  | x :: rest => _ ← body x; for_each rest body
  end.

End IO.
Import IO.

Module ToiWriter.
Import Toi.

Definition header : list string :=
  ["Title"; "URL"; "Image_URL"; "Category"; "Source"; "Scraped_At"].

(** lines 106-113 *)
Definition row_of (a : article) : list string :=
  [title a; url a; image a; category a; source a; scraped_at a].

(** [save_to_csv] of toi_scraper.py *)
Definition save_to_csv (articles : list article) (filename : string)
  : IO bool :=
  try_except
    (_ ← with_open filename
           (_ ← write filename (CsvRow header);
            for_each articles (fun article =>
              write filename (CsvRow (row_of article))));
     mret true)
    (fun e => mret false).

End ToiWriter.

(* ===================================================================== *)
(** ** reddit_scraper_ready.py                                            *)
(* ===================================================================== *)

Module Reddit.

(** A lazy praw listing as the [for] loop consumes it: it yields items
    one by one and either ends or raises while the next one is fetched. *)
Inductive gen (A : Type) : Type :=
| Stop
| Yield (a : A) (rest : gen A)
| Fail (e : exn).
Arguments Stop {A}.
Arguments Yield {A} a rest.
Arguments Fail {A} e.

(** The attributes of a praw [Submission] the script reads.  [author] is
    [None] for a deleted account; [selftext], [link_flair_text] and
    [distinguished] may be absent ([None]). *)
Record submission : Type := {
  id_ : string;
  title : string;
  author : option string;
  subreddit_display_name : string;
  score : Z;
  upvote_ratio : pyfloat;
  num_comments : Z;
  created_utc : pyfloat;
  url : string;
  permalink : string;
  is_self : bool;
  selftext : option string;
  link_flair_text : option string;
  distinguished : option string;
  stickied : bool;
  spoiler : bool;
  over_18 : bool;
  gilded : Z;
  domain : string
}.

Record comment : Type := {
  c_id : string;
  c_author : option string;
  c_body : string;
  c_score : Z;
  c_created_utc : pyfloat;
  c_is_submitter : bool;
  c_distinguished : option string;
  c_gilded : Z;
  c_permalink : string
}.

(** An element of [submission.comments]: a comment, or a [MoreComments]
    placeholder, which has no [body]. *)
Inductive forest_item : Type :=
| IsComment (c : comment)
| MoreComments.

(** The praw client and the clock, as the methods use them. *)
Record Api : Type := {
  subreddit_hot : string -> Z -> gen submission;
  subreddit_new : string -> Z -> gen submission;
  subreddit_rising : string -> Z -> gen submission;
  subreddit_top : string -> Z -> string -> gen submission;
  subreddit_controversial : string -> Z -> string -> gen submission;
  (** [reddit.subreddit(name).search(query, sort=, time_filter=, limit=)] *)
  subreddit_search : string -> string -> string -> string -> Z -> gen submission;
  (** [reddit.submission(id=post_id).comments] after [replace_more(limit=0)] *)
  submission_comments : string -> outcome (list forest_item);
  redditor_hot : string -> Z -> gen submission;
  redditor_new : string -> Z -> gen submission;
  redditor_top : string -> Z -> gen submission;
  redditor_controversial : string -> Z -> gen submission;
  (** [datetime.fromtimestamp(t, timezone.utc).strftime('%Y-%m-%d %H:%M:%S')],
      or [None] when [t] is outside the range [fromtimestamp] accepts *)
  utc_datetime : pyfloat -> option string;
  (** [datetime.now().strftime('%Y-%m-%d %H:%M:%S')] at the i-th reading *)
  now : nat -> string
}.

(** [fromtimestamp] raises [OverflowError] for a timestamp out of range
    ([OSError] or [ValueError] on some platforms: [Exception]s alike). *)
Definition created_time (api : Api) (t : pyfloat) : outcome string :=
  match utc_datetime api t with
  | Some formatted => Ret formatted
  | None => Raise OverflowError
  end.

(** [str(x.author) if x.author else '[deleted]'] *)
Definition author_or_deleted (a : option string) : string :=
  match a with
  | Some name => name
  | None => "[deleted]"
  end.

(** [x or ''] for an optional string *)
Definition or_empty (x : option string) : string :=
  match x with
  | Some s => if nonempty s then s else ""
  | None => ""
  end.

(** [submission.selftext[:cap] if submission.selftext else ''] *)
Definition truncate_selftext (cap : nat) (selftext : option string) : string :=
  match selftext with
  | Some s => if nonempty s then str_take cap s else ""
  | None => ""
  end.

(** lines 71-95 *)
Definition post_data (api : Api) (i : nat) (s : submission) : outcome pydict :=
  created_datetime ← created_time api (created_utc s);
  mret [ ("id", PyStr (id_ s));
         ("title", PyStr (title s));
         ("author", PyStr (author_or_deleted (author s)));
         ("subreddit", PyStr (subreddit_display_name s));
         ("score", PyInt (score s));
         ("upvote_ratio", PyFloat (upvote_ratio s));
         ("num_comments", PyInt (num_comments s));
         ("created_utc", PyFloat (created_utc s));
         ("created_datetime", PyStr created_datetime);
         ("url", PyStr (url s));
         ("permalink", PyStr ("https://reddit.com" +:+ permalink s));
         ("is_self", PyBool (is_self s));
         ("selftext", PyStr (truncate_selftext 500 (selftext s)));
         ("flair", PyStr (or_empty (link_flair_text s)));
         ("distinguished", PyStr (or_empty (distinguished s)));
         ("stickied", PyBool (stickied s));
         ("spoiler", PyBool (spoiler s));
         ("nsfw", PyBool (over_18 s));
         ("gilded", PyInt (gilded s));
         ("domain", PyStr (domain s));
         ("scraped_at", PyStr (now api i)) ].

(** lines 187-202 *)
Definition search_post_data (api : Api) (query : string) (i : nat)
    (s : submission) : outcome pydict :=
  created_datetime ← created_time api (created_utc s);
  mret [ ("id", PyStr (id_ s));
         ("title", PyStr (title s));
         ("author", PyStr (author_or_deleted (author s)));
         ("subreddit", PyStr (subreddit_display_name s));
         ("score", PyInt (score s));
         ("num_comments", PyInt (num_comments s));
         ("created_datetime", PyStr created_datetime);
         ("url", PyStr (url s));
         ("permalink", PyStr ("https://reddit.com" +:+ permalink s));
         ("selftext", PyStr (truncate_selftext 300 (selftext s)));
         ("search_query", PyStr query);
         ("scraped_at", PyStr (now api i)) ].

(** lines 242-256 *)
Definition user_post_data (api : Api) (username : string) (i : nat)
    (s : submission) : outcome pydict :=
  created_datetime ← created_time api (created_utc s);
  mret [ ("id", PyStr (id_ s));
         ("title", PyStr (title s));
         ("author", PyStr username);
         ("subreddit", PyStr (subreddit_display_name s));
         ("score", PyInt (score s));
         ("num_comments", PyInt (num_comments s));
         ("created_datetime", PyStr created_datetime);
         ("url", PyStr (url s));
         ("permalink", PyStr ("https://reddit.com" +:+ permalink s));
         ("selftext", PyStr (truncate_selftext 300 (selftext s)));
         ("scraped_at", PyStr (now api i)) ].

(** lines 129-144 *)
Definition comment_data (api : Api) (post_id : string) (i : nat)
    (c : comment) : outcome pydict :=
  created_datetime ← created_time api (c_created_utc c);
  mret [ ("comment_id", PyStr (c_id c));
         ("post_id", PyStr post_id);
         ("author", PyStr (author_or_deleted (c_author c)));
         ("body", PyStr (c_body c));
         ("score", PyInt (c_score c));
         ("created_utc", PyFloat (c_created_utc c));
         ("created_datetime", PyStr created_datetime);
         ("is_submitter", PyBool (c_is_submitter c));
         ("distinguished", PyStr (or_empty (c_distinguished c)));
         ("gilded", PyInt (c_gilded c));
         ("permalink", PyStr ("https://reddit.com" +:+ c_permalink c));
         ("scraped_at", PyStr (now api i)) ].

(** [posts = []; for submission in submissions: posts.append(build ...)]:
    the clock is read once for every record appended. *)
Fixpoint collect_posts (build : nat -> submission -> outcome pydict)
    (submissions : gen submission) (posts : list pydict)
  : outcome (list pydict) :=
  match submissions with
  | Stop => Ret posts
  | Fail e => Raise e
  | Yield s rest =>
      match build (length posts) s with
      | Ret d => collect_posts build rest (posts ++ [d])
      | Raise e => Raise e
      end
  end.

(** lines 126-147 *)
Fixpoint collect_comments (api : Api) (post_id : string)
    (items : list forest_item) (comments : list pydict)
  : outcome (list pydict) :=
  match items with
  | [] => Ret comments
  | MoreComments :: rest => collect_comments api post_id rest comments
  | IsComment c :: rest =>
      match comment_data api post_id (length comments) c with
      | Ret d => collect_comments api post_id rest (comments ++ [d])
      | Raise e => Raise e
      end
  end.

(** lines 55-66 *)
Definition subreddit_listing (api : Api) (subreddit_name sort_type : string)
    (limit : Z) (time_filter : string) : gen submission :=
  if String.eqb sort_type "hot" then subreddit_hot api subreddit_name limit
  else if String.eqb sort_type "new" then subreddit_new api subreddit_name limit
  else if String.eqb sort_type "rising" then subreddit_rising api subreddit_name limit
  else if String.eqb sort_type "top"
    then subreddit_top api subreddit_name limit time_filter
  else if String.eqb sort_type "controversial"
    then subreddit_controversial api subreddit_name limit time_filter
  else subreddit_hot api subreddit_name limit.

Definition get_subreddit_posts (api : Api) (subreddit_name sort_type : string)
    (limit : Z) (time_filter : string) : outcome (list pydict) :=
  try_except_Exception
    (collect_posts (post_data api)
       (subreddit_listing api subreddit_name sort_type limit time_filter) [])
    (fun e => Ret []).

Definition get_post_comments (api : Api) (post_id : string) (limit : Z)
  : outcome (list pydict) :=
  try_except_Exception
    (items ← submission_comments api post_id;
     collect_comments api post_id (slice_to limit items) [])
    (fun e => Ret []).

(** lines 174-183: [None] and [''] both search all of Reddit *)
Definition search_results (api : Api) (query : string)
    (subreddit : option string) (sort time_filter : string) (limit : Z)
  : gen submission :=
  match subreddit with
  | Some name =>
      if nonempty name
      then subreddit_search api name query sort time_filter limit
      else subreddit_search api "all" query sort time_filter limit
  | None => subreddit_search api "all" query sort time_filter limit
  end.

Definition search_reddit (api : Api) (query : string)
    (subreddit : option string) (sort time_filter : string) (limit : Z)
  : outcome (list pydict) :=
  try_except_Exception
    (collect_posts (search_post_data api query)
       (search_results api query subreddit sort time_filter limit) [])
    (fun e => Ret []).

(** lines 229-238 *)
Definition user_listing (api : Api) (username sort : string) (limit : Z)
  : gen submission :=
  if String.eqb sort "hot" then redditor_hot api username limit
  else if String.eqb sort "new" then redditor_new api username limit
  else if String.eqb sort "top" then redditor_top api username limit
  else if String.eqb sort "controversial"
    then redditor_controversial api username limit
  else redditor_new api username limit.

Definition get_user_posts (api : Api) (username sort : string) (limit : Z)
  : outcome (list pydict) :=
  try_except_Exception
    (collect_posts (user_post_data api username)
       (user_listing api username sort limit) [])
    (fun e => Ret []).

(** *** The writers *)

(** How [csv.writer] prints a cell: [None] as nothing, a string as it
    is, anything else through [str]. *)
Definition csv_cell (v : pyval) : string :=
  match v with
  | PyNone => ""
  | PyBool true => "True"
  | PyBool false => "False"
  | PyInt z => pretty z
  | PyFloat (PyF repr) => repr
  | PyStr s => s
  end.

(** [DictWriter._dict_to_list] with the defaults [restval=''] and
    [extrasaction='raise']. *)
Definition dict_to_list (fieldnames : list string) (rowdict : pydict)
  : outcome (list pyval) :=
  match filter (fun k => k ∉ fieldnames) (keys rowdict) with
  | [] => Ret ((fun key => dict_get key (PyStr "") rowdict) <$> fieldnames)
  | _ :: _ => Raise ValueError
  end.

(** [DictWriter.writerow] *)
Definition writerow (filename : string) (fieldnames : list string)
    (rowdict : pydict) : IO unit :=
  row ← lift (dict_to_list fieldnames rowdict);
  write filename (CsvRow (csv_cell <$> row)).

Definition save_to_csv (data : list pydict) (filename : string) : IO bool :=
  match data with
  | [] => mret false
  | first :: _ =>
      try_except
        (_ ← with_open filename
               (let fieldnames := keys first in
                _ ← write filename (CsvRow fieldnames);
                for_each data (writerow filename fieldnames));
         mret true)
        (fun e => mret false)
  end.

Definition save_to_json (data : list pydict) (filename : string) : IO bool :=
  match data with
  | [] => mret false
  | _ :: _ =>
      try_except
        (_ ← with_open filename (write filename (JsonDoc data));
         mret true)
        (fun e => mret false)
  end.

End Reddit.

(* ===================================================================== *)
(** ** Notions the properties are stated with                             *)
(* ===================================================================== *)

(** [sub] occurs somewhere in [s]. *)
Definition occurs_in (sub s : string) : Prop :=
  exists pre post, s = pre +:+ sub +:+ post.

(** [p] is an initial segment of [s]. *)
Definition begins_with (s p : string) : Prop :=
  exists rest, s = p +:+ rest.

(** The prefix that line 46 of toi_scraper.py puts before a relative link. *)
Definition base_url : string := "https://timesofindia.indiatimes.com".

(** The address a link stands for: the [href] itself when it begins
    with [http], the site's address followed by the [href] otherwise. *)
Definition absolute_url (href : string) : string :=
  if startswith href "http" then href else base_url +:+ href.

(** The records of [B] whose URL does not occur among the records before
    them, in the order of [B]. *)
Definition first_seen (B : list Toi.article) : list Toi.article :=
  (filter (fun p => Toi.url p.2 ∉ Toi.url <$> take p.1 B)
     (zip (seq 0 (length B)) B)).*2.

(** The loop of [Toi.dedupe_loop] without its accumulator. *)
Fixpoint keep_unseen (seen : gset string) (B : list Toi.article)
  : list Toi.article :=
  match B with
  | [] => []
  | a :: rest =>
      if decide (Toi.url a ∈ seen) then keep_unseen seen rest
      else a :: keep_unseen ({[Toi.url a]} ∪ seen) rest
  end.

(** Every I/O operation started between [w] and [w'] succeeded. *)
Definition no_failure_between (w w' : World) : Prop :=
  exists n, pending w = replicate n None ++ pending w'.

(** No I/O failure is ahead. *)
Definition io_succeeds (w : World) : Prop :=
  Forall (fun f => f = None) (pending w).

(** The failures ahead are exceptions of class [Exception], as I/O errors
    ([OSError] and its subclasses) are. *)
Definition io_failures_only (w : World) : Prop :=
  Forall (fun f => forall e, f = Some e -> is_Exception e = true) (pending w).

(** [m], started in [w], returns [a] and leaves the files [fs], with no
    I/O failure ahead. *)
Definition succeeds_with {A} (m : IO A) (w : World) (a : A)
    (fs : gmap string (list line)) : Prop :=
  exists w', m w = (Ret a, w') /\ files w' = fs /\ io_succeeds w'.

(** [m] turns I/O failures into exceptions of class [Exception] only, and
    returns normally only when no operation failed. *)
Definition contained {A} (m : IO A) : Prop :=
  forall w, io_failures_only w ->
    exists o w', m w = (o, w') /\ io_failures_only w' /\
      match o with
      | Ret _ => no_failure_between w w'
      | Raise e => is_Exception e = true
      end.

(** A writer that refuses an empty batch: it returns [False] and leaves
    every file as it was. *)
Definition refuses_empty_batch {R} (save : list R -> string -> IO bool) : Prop :=
  forall filename w,
    exists w', save [] filename w = (Ret false, w') /\ files w' = files w.

(** The data row of a record under the given columns: the text of every
    column's value, nothing for a column the record lacks. *)
Definition csv_row_of (fieldnames : list string) (r : pydict) : line :=
  CsvRow ((fun key => Reddit.csv_cell (dict_get key (PyStr "") r)) <$> fieldnames).

(** A record builder that raises nothing but [Exception]s. *)
Definition mild (build : nat -> Reddit.submission -> outcome pydict) : Prop :=
  forall i s e, build i s = Raise e -> is_Exception e = true.

(** The exception a listing ends with, if it does. *)
Fixpoint gen_error {A} (g : Reddit.gen A) : option exn :=
  match g with
  | Reddit.Stop => None
  | Reddit.Yield _ rest => gen_error rest
  | Reddit.Fail e => Some e
  end.

(* ===================================================================== *)
(** ** Concrete inputs                                                    *)
(* ===================================================================== *)

Module Samples.

Definition stamp : nat -> string :=
  fun i => "2024-01-01 00:00:0" +:+ pretty i.

(** A homepage with the given anchors, fetched with status 200. *)
Definition page (links : list Toi.anchor) : Toi.Web :=
  {| Toi.requests_get := Ret {| Toi.status_code := 200; Toi.text := "<html>" |};
     Toi.find_all_a := fun _ => Ret links;
     Toi.now := stamp |}.

(** A cricket story filed under /sports/cricket/india/. *)
Definition sports_india_link : Toi.anchor :=
  {| Toi.href := "/sports/cricket/india/final/articleshow/101.cms";
     Toi.get_text := "  India win the final test match  ";
     Toi.img := Some (Some "//static.toiimg.com/101.jpg") |}.

Definition sports_india_article : Toi.article :=
  {| Toi.title := "India win the final test match";
     Toi.url := "https://timesofindia.indiatimes.com/sports/cricket/india/final/articleshow/101.cms";
     Toi.image := "https://static.toiimg.com/101.jpg";
     Toi.category := "India News";
     Toi.source := "Times of India";
     Toi.scraped_at := "2024-01-01 00:00:00" |}.

Definition tennis_link : Toi.anchor :=
  {| Toi.href := "/sports/tennis/open-final/articleshow/102.cms";
     Toi.get_text := "Top seed takes the open final";
     Toi.img := None |}.

(** The same story again, linked by its absolute address. *)
Definition tennis_link_abs : Toi.anchor :=
  {| Toi.href := "https://timesofindia.indiatimes.com/sports/tennis/open-final/articleshow/102.cms";
     Toi.get_text := "Top seed takes the open final in straight sets";
     Toi.img := None |}.

Definition tennis_article : Toi.article :=
  {| Toi.title := "Top seed takes the open final";
     Toi.url := "https://timesofindia.indiatimes.com/sports/tennis/open-final/articleshow/102.cms";
     Toi.image := "";
     Toi.category := "Sports";
     Toi.source := "Times of India";
     Toi.scraped_at := "2024-01-01 00:00:00" |}.

Fixpoint repeat_char (n : nat) (a : ascii) : string :=
  match n with
  | O => EmptyString
  | S n' => String a (repeat_char n' a)
  end.

(** A self post with a text of 1000 characters. *)
Definition long_post : Reddit.submission :=
  {| Reddit.id_ := "a1";
     Reddit.title := "A long story";
     Reddit.author := None;
     Reddit.subreddit_display_name := "python";
     Reddit.score := 12;
     Reddit.upvote_ratio := PyF "0.97";
     Reddit.num_comments := 3;
     Reddit.created_utc := PyF "1700000000.0";
     Reddit.url := "https://www.reddit.com/r/python/comments/a1/a_long_story/";
     Reddit.permalink := "/r/python/comments/a1/a_long_story/";
     Reddit.is_self := true;
     Reddit.selftext := Some (repeat_char 1000 "x");
     Reddit.link_flair_text := None;
     Reddit.distinguished := None;
     Reddit.stickied := false;
     Reddit.spoiler := false;
     Reddit.over_18 := false;
     Reddit.gilded := 0;
     Reddit.domain := "self.python" |}.

(** A client whose hot and new listings break after the first post,
    and whose other calls yield nothing or fail at once. *)
Definition broken_api : Reddit.Api :=
  {| Reddit.subreddit_hot := fun _ _ =>
       Reddit.Yield long_post (Reddit.Fail PrawcoreException);
     Reddit.subreddit_new := fun _ _ => Reddit.Stop;
     Reddit.subreddit_rising := fun _ _ => Reddit.Stop;
     Reddit.subreddit_top := fun _ _ _ => Reddit.Stop;
     Reddit.subreddit_controversial := fun _ _ _ => Reddit.Stop;
     Reddit.subreddit_search := fun _ _ _ _ _ => Reddit.Fail PrawcoreException;
     Reddit.submission_comments := fun _ => Raise PrawcoreException;
     Reddit.redditor_hot := fun _ _ => Reddit.Stop;
     Reddit.redditor_new := fun _ _ =>
       Reddit.Yield long_post (Reddit.Fail PrawcoreException);
     Reddit.redditor_top := fun _ _ => Reddit.Stop;
     Reddit.redditor_controversial := fun _ _ => Reddit.Stop;
     Reddit.utc_datetime := fun _ => Some "2023-11-14 22:13:20";
     Reddit.now := stamp |}.

(** A client whose hot listing of a subreddit and new listing of a
    user hold the one post, and whose other listings are empty. *)
Definition quiet_api : Reddit.Api :=
  {| Reddit.subreddit_hot := fun _ _ => Reddit.Yield long_post Reddit.Stop;
     Reddit.subreddit_new := fun _ _ => Reddit.Stop;
     Reddit.subreddit_rising := fun _ _ => Reddit.Stop;
     Reddit.subreddit_top := fun _ _ _ => Reddit.Stop;
     Reddit.subreddit_controversial := fun _ _ _ => Reddit.Stop;
     Reddit.subreddit_search := fun _ _ _ _ _ => Reddit.Stop;
     Reddit.submission_comments := fun _ => Ret [];
     Reddit.redditor_hot := fun _ _ => Reddit.Stop;
     Reddit.redditor_new := fun _ _ => Reddit.Yield long_post Reddit.Stop;
     Reddit.redditor_top := fun _ _ => Reddit.Stop;
     Reddit.redditor_controversial := fun _ _ => Reddit.Stop;
     Reddit.utc_datetime := fun _ => Some "2023-11-14 22:13:20";
     Reddit.now := stamp |}.

(** A homepage that cannot be fetched. *)
Definition unreachable : Toi.Web :=
  {| Toi.requests_get := Raise RequestsConnectionError;
     Toi.find_all_a := fun _ => Ret [];
     Toi.now := stamp |}.

Definition empty_disk : World := {| files := ∅; pending := [] |}.

(** A disk on which the second file operation fails. *)
Definition failing_disk : World :=
  {| files := ∅; pending := [None; Some OSError] |}.

Definition two_posts : list pydict :=
  [ [("id", PyStr "a1"); ("score", PyInt 12); ("stickied", PyBool false)];
    [("id", PyStr "b2"); ("score", PyInt (-3))] ].

End Samples.

(* ===================================================================== *)
(** ** Notions for the further properties                                 *)
(* ===================================================================== *)

(** The items a listing yields before it ends or breaks. *)
Fixpoint gen_items {A} (g : Reddit.gen A) : list A :=
  match g with
  | Reddit.Stop => []
  | Reddit.Yield a rest => a :: gen_items rest
  | Reddit.Fail _ => []
  end.

(** The keys of the four kinds of record, in the order of the dict
    literals (lines 73-95, 189-202, 244-256 and 131-144). *)
Definition post_fields : list string :=
  ["id"; "title"; "author"; "subreddit"; "score"; "upvote_ratio";
   "num_comments"; "created_utc"; "created_datetime"; "url"; "permalink";
   "is_self"; "selftext"; "flair"; "distinguished"; "stickied"; "spoiler";
   "nsfw"; "gilded"; "domain"; "scraped_at"].

Definition search_fields : list string :=
  ["id"; "title"; "author"; "subreddit"; "score"; "num_comments";
   "created_datetime"; "url"; "permalink"; "selftext"; "search_query";
   "scraped_at"].

Definition user_fields : list string :=
  ["id"; "title"; "author"; "subreddit"; "score"; "num_comments";
   "created_datetime"; "url"; "permalink"; "selftext"; "scraped_at"].

Definition comment_fields : list string :=
  ["comment_id"; "post_id"; "author"; "body"; "score"; "created_utc";
   "created_datetime"; "is_submitter"; "distinguished"; "gilded";
   "permalink"; "scraped_at"].

(** Every item the listing yields has a creation time that can be
    formatted. *)
Definition timestamps_in_range (api : Reddit.Api)
    (g : Reddit.gen Reddit.submission) : Prop :=
  Forall (fun s => is_Some (Reddit.utc_datetime api (Reddit.created_utc s)))
    (gen_items g).

(** [result] holds one record per item of [g], in the order of [g]; the
    record at position [i] is built from the item at position [i] with the
    i-th reading of the clock. *)
Definition fetched_in_order
    (build : nat -> Reddit.submission -> outcome pydict)
    (g : Reddit.gen Reddit.submission) (result : outcome (list pydict)) : Prop :=
  exists posts, result = Ret posts
    /\ length posts = length (gen_items g)
    /\ forall i s, gen_items g !! i = Some s ->
         exists d, build i s = Ret d /\ posts !! i = Some d.

(** The comments among the elements of a comment forest. *)
Definition real_comments (items : list Reddit.forest_item)
  : list Reddit.comment :=
  omap (fun item => match item with
                    | Reddit.IsComment c => Some c
                    | Reddit.MoreComments => None
                    end) items.

(** [m] changes no file but [filename]. *)
Definition only_touches {A} (filename : string) (m : IO A) : Prop :=
  forall w other, other <> filename ->
    files (m w).2 !! other = files w !! other.

Module Samples2.

(** A post whose creation time is beyond what [fromtimestamp] accepts. *)
Definition undated_post : Reddit.submission :=
  {| Reddit.id_ := "b2";
     Reddit.title := "From the far future";
     Reddit.author := Some "traveller";
     Reddit.subreddit_display_name := "python";
     Reddit.score := 1;
     Reddit.upvote_ratio := PyF "1.0";
     Reddit.num_comments := 0;
     Reddit.created_utc := PyF "1e+20";
     Reddit.url := "https://example.org/";
     Reddit.permalink := "/r/python/comments/b2/from_the_far_future/";
     Reddit.is_self := false;
     Reddit.selftext := Some "";
     Reddit.link_flair_text := Some "News";
     Reddit.distinguished := None;
     Reddit.stickied := false;
     Reddit.spoiler := false;
     Reddit.over_18 := false;
     Reddit.gilded := 0;
     Reddit.domain := "example.org" |}.

Definition first_comment : Reddit.comment :=
  {| Reddit.c_id := "c1";
     Reddit.c_author := Some "reader";
     Reddit.c_body := "Nice.";
     Reddit.c_score := 2;
     Reddit.c_created_utc := PyF "1700000100.0";
     Reddit.c_is_submitter := false;
     Reddit.c_distinguished := None;
     Reddit.c_gilded := 0;
     Reddit.c_permalink := "/r/python/comments/a1/a_long_story/c1/" |}.

Definition second_comment : Reddit.comment :=
  {| Reddit.c_id := "c2";
     Reddit.c_author := None;
     Reddit.c_body := "Too long.";
     Reddit.c_score := -1;
     Reddit.c_created_utc := PyF "1700000200.0";
     Reddit.c_is_submitter := false;
     Reddit.c_distinguished := None;
     Reddit.c_gilded := 0;
     Reddit.c_permalink := "/r/python/comments/a1/a_long_story/c2/" |}.

(** A client whose hot listing holds a good and then an undated post,
    and whose posts all have the same two comments. *)
Definition dated_api : Reddit.Api :=
  {| Reddit.subreddit_hot := fun _ _ =>
       Reddit.Yield Samples.long_post (Reddit.Yield undated_post Reddit.Stop);
     Reddit.subreddit_new := fun _ _ => Reddit.Yield Samples.long_post Reddit.Stop;
     Reddit.subreddit_rising := fun _ _ => Reddit.Stop;
     Reddit.subreddit_top := fun _ _ _ => Reddit.Stop;
     Reddit.subreddit_controversial := fun _ _ _ => Reddit.Stop;
     Reddit.subreddit_search := fun _ _ _ _ _ =>
       Reddit.Yield Samples.long_post Reddit.Stop;
     Reddit.submission_comments := fun _ =>
       Ret [Reddit.IsComment first_comment; Reddit.MoreComments;
            Reddit.IsComment second_comment];
     Reddit.redditor_hot := fun _ _ => Reddit.Stop;
     Reddit.redditor_new := fun _ _ => Reddit.Yield Samples.long_post Reddit.Stop;
     Reddit.redditor_top := fun _ _ => Reddit.Stop;
     Reddit.redditor_controversial := fun _ _ => Reddit.Stop;
     Reddit.utc_datetime := fun t =>
       match t with
       | PyF repr => if String.eqb repr "1e+20" then None
                     else Some "2023-11-14 22:13:20"
       end;
     Reddit.now := Samples.stamp |}.

End Samples2.

(** [m] raises an [Exception] whenever the I/O failures ahead are
    [Exception]s. *)
Definition always_raises {A} (m : IO A) : Prop :=
  forall w, io_failures_only w ->
    exists e w', m w = (Raise e, w') /\ is_Exception e = true
                 /\ io_failures_only w'.

(** The article the loop of lines 36-76 builds from the i-th accepted
    anchor. *)
Definition article_of (now : nat -> string) (i : nat) (link : Toi.anchor)
  : Toi.article :=
  Toi.make_article link (strip (Toi.get_text link)) (now i).

(** The six categories of lines 57-67. *)
Definition categories : list string :=
  ["India News"; "World News"; "Sports"; "Business"; "Entertainment"; "Other"].

(* ===================================================================== *)
(** ** toi_scraper.py: the report and [main]                              *)
(* ===================================================================== *)

Module ToiReport.
Import Toi.

(** [sum(1 for a in articles if a['image'])] *)
Definition with_images (articles : list article) : nat :=
  length (filter (fun a => nonempty (image a) = true) articles).

(** [sum(1 for a in articles if not a['image'])] *)
Definition without_images (articles : list article) : nat :=
  length (filter (fun a => nonempty (image a) = false) articles).

(** lines 133-134: [categories[cat] = categories.get(cat, 0) + 1] *)
Definition count_category (categories : gmap string nat) (article : article)
  : gmap string nat :=
  let cat := category article in
  <[cat := (default 0 (categories !! cat) + 1)%nat]> categories.

(** lines 131-134 *)
Definition count_categories (articles : list article) : gmap string nat :=
  foldl count_category ∅ articles.

(** The order [sorted] puts the items of a dict in: by key, since no two
    items have the same key. *)
Definition by_name : relation (string * nat) :=
  fun item1 item2 => String.le item1.1 item2.1.

#[global] Instance by_name_dec : RelDecision by_name :=
  fun item1 item2 => decide (String.le item1.1 item2.1).

(** [sorted(categories.items())] *)
Definition sorted_items (categories : gmap string nat) : list (string * nat) :=
  merge_sort by_name (map_to_list categories).

(** The numbers [display_statistics] prints, in the order of its lines:
    the three totals and one line per category. *)
Record statistics : Type := {
  shown_total : nat;
  shown_with_images : nat;
  shown_without_images : nat;
  shown_categories : list (string * nat)
}.

Definition display_statistics (articles : list article) : statistics :=
  {| shown_total := length articles;
     shown_with_images := with_images articles;
     shown_without_images := without_images articles;
     shown_categories := sorted_items (count_categories articles) |}.

(** The articles [display_sample_articles] shows, each with the number
    printed before its title: [enumerate(articles[:count], 1)]. *)
Definition display_sample_articles (articles : list article) (count : Z)
  : list (nat * article) :=
  imap (fun i article => (S i, article)) (slice_to count articles).

Definition default_filename : string := "times_of_india_articles.csv".

(** [main]: the two display functions only print; the result of
    [save_to_csv] is not looked at. *)
Definition main (web : Web) : IO unit :=
  articles ← lift (scrape_times_of_india web);
  match articles with
  | [] => mret tt
  | _ :: _ =>
      _ ← ToiWriter.save_to_csv articles default_filename;
      mret tt
  end.

End ToiReport.

(** How many articles are filed under [cat]. *)
Definition filed_under (cat : string) (articles : list Toi.article) : nat :=
  length (filter (fun a => Toi.category a = cat) articles).

(** Fetching and parsing fail with [Exception]s only. *)
Definition web_failures_only (web : Toi.Web) : Prop :=
  (forall e, Toi.requests_get web = Raise e -> is_Exception e = true)
  /\ (forall page e, Toi.find_all_a web page = Raise e -> is_Exception e = true).

(* ===================================================================== *)
(** ** reddit_scraper_ready.py: [get_subreddit_info]                      *)
(* ===================================================================== *)

Module RedditInfo.

(** The attributes of a praw [Subreddit] that [get_subreddit_info]
    reads.  [description], [subscribers] and [active_user_count] may be
    [None]. *)
Record about : Type := {
  display_name : string;
  title : string;
  description : option string;
  subscribers : option Z;
  active_user_count : option Z;
  created_utc : pyfloat;
  over18 : bool;
  public_description : string
}.

Record InfoApi : Type := {
  (** the attributes of [reddit.subreddit(name)], loaded when the first of
      them is read *)
  subreddit_about : string -> outcome about;
  (** [datetime.fromtimestamp(t, timezone.utc).strftime('%Y-%m-%d')], or
      [None] when [t] is outside the range [fromtimestamp] accepts *)
  utc_date : pyfloat -> option string;
  (** [datetime.now().strftime('%Y-%m-%d %H:%M:%S')] *)
  info_now : string
}.

(** [subreddit.description[:500]]: a [None] cannot be sliced. *)
Definition description_500 (description : option string) : outcome string :=
  match description with
  | Some text => Ret (str_take 500 text)
  | None => Raise TypeError
  end.

Definition created_date (api : InfoApi) (t : pyfloat) : outcome string :=
  match utc_date api t with
  | Some formatted => Ret formatted
  | None => Raise OverflowError
  end.

Definition optional_int (x : option Z) : pyval :=
  match x with
  | Some z => PyInt z
  | None => PyNone
  end.

(** lines 306-327; the empty dict is the empty list of items *)
Definition get_subreddit_info (api : InfoApi) (subreddit_name : string)
  : outcome pydict :=
  try_except_Exception
    (subreddit ← subreddit_about api subreddit_name;
     description ← description_500 (description subreddit);
     created_datetime ← created_date api (created_utc subreddit);
     mret [ ("name", PyStr (display_name subreddit));
            ("title", PyStr (title subreddit));
            ("description", PyStr description);
            ("subscribers", optional_int (subscribers subreddit));
            ("active_users", optional_int (active_user_count subreddit));
            ("created_utc", PyFloat (created_utc subreddit));
            ("created_datetime", PyStr created_datetime);
            ("over18", PyBool (over18 subreddit));
            ("public_description", PyStr (public_description subreddit));
            ("scraped_at", PyStr (info_now api)) ])
    (fun e => Ret []).

End RedditInfo.

Definition info_fields : list string :=
  ["name"; "title"; "description"; "subscribers"; "active_users";
   "created_utc"; "created_datetime"; "over18"; "public_description";
   "scraped_at"].

(* ===================================================================== *)
(** ** reddit_scraper_ready.py: [interactive_menu]                        *)
(* ===================================================================== *)

Module Menu.

(** A [RedditScraper]: the praw client behind its methods. *)
Record Scraper : Type := {
  api : Reddit.Api;
  info_api : RedditInfo.InfoApi
}.

(** What the menu needs beside the console and the disk. *)
Record Shell : Type := {
  (** [RedditScraper()]: [__init__] prints and re-raises what
      [praw.Reddit(...)] raises *)
  RedditScraper : outcome Scraper;
  (** [int(s)] for a stripped, non-empty [s]; [None] when [int] raises
      [ValueError] *)
  py_int : string -> option Z
}.

(** The lines still to be typed, and the disk. *)
Record Session : Type := {
  console : list string;
  disk : World
}.

(** How a run can end before its time: [input()] finds no more input
    ([EOFError]), an exception is not caught, or the model's loop counter
    runs out. *)
Inductive stop : Type :=
| EndOfInput
| Uncaught (e : exn)
| OutOfFuel.

Definition Prog (A : Type) : Type := Session -> (A + stop) * Session.

#[global] Instance prog_ret : MRet Prog := fun A a s => (inl a, s).
#[global] Instance prog_bind : MBind Prog := fun A B f m s =>
  match m s with
  | (inl a, s') => f a s'
  | (inr why, s') => (inr why, s')
  end.

Definition halt {A} (why : stop) : Prog A := fun s => (inr why, s).

(** [input(prompt)] *)
Definition input : Prog string := fun s =>
  match console s with
  | [] => (inr EndOfInput, s)
  | line :: rest => (inl line, {| console := rest; disk := disk s |})
  end.

(** A call of a scraper method that reads the source. *)
Definition call {A} (o : outcome A) : Prog A := fun s =>
  match o with
  | Ret a => (inl a, s)
  | Raise e => (inr (Uncaught e), s)
  end.

(** A call of a scraper method that writes a file. *)
Definition on_disk {A} (m : IO A) : Prog A := fun s =>
  match m (disk s) with
  | (Ret a, w) => (inl a, {| console := console s; disk := w |})
  | (Raise e, w) => (inr (Uncaught e), {| console := console s; disk := w |})
  end.

(** [raw.strip() or default] *)
Definition str_or (default : string) (raw : string) : string :=
  let answer := strip raw in
  if nonempty answer then answer else default.

(** [int(raw.strip() or default)]; [None] when [int] raises [ValueError] *)
Definition int_or (sh : Shell) (default : Z) (raw : string) : option Z :=
  let answer := strip raw in
  if nonempty answer then py_int sh answer else Some default.

(** [input(...).strip() or default] *)
Definition ask (default : string) : Prog string :=
  raw ← input; mret (str_or default raw).

(** [int(input(...).strip() or default)] *)
Definition ask_int (sh : Shell) (default : Z) : Prog Z :=
  raw ← input;
  match int_or sh default raw with
  | Some n => mret n
  | None => halt (Uncaught ValueError)
  end.

(** [c.lower()] for one of the first 256 code points *)
Definition lower_char (c : ascii) : ascii :=
  let n := nat_of_ascii c in
  if ((65 <=? n) && (n <=? 90)
      || (192 <=? n) && (n <=? 222) && negb (n =? 215))%nat
  then ascii_of_nat (n + 32) else c.

(** [s.lower()] *)
Fixpoint lower (s : string) : string :=
  match s with
  | EmptyString => EmptyString
  | String c rest => String (lower_char c) (lower rest)
  end.

(** [s.replace(' ', '_')] *)
Fixpoint replace_spaces (s : string) : string :=
  match s with
  | EmptyString => EmptyString
  | String c rest =>
      String (if Ascii.eqb c " " then "_"%char else c) (replace_spaces rest)
  end.

(** The question that ends choices 1 to 4: the format is asked for, then
    [save_to_csv] and [save_to_json] are called as it says, on
    [stem.csv] and [stem.json]; what they return is not looked at. *)
Definition save_as (data : list pydict) (stem : string) : Prog unit :=
  save_format ← ask "csv";
  _ ← (if bool_decide (save_format ∈ ["csv"; "both"])
       then _ ← on_disk (Reddit.save_to_csv data (stem +:+ ".csv")); mret tt
       else mret tt);
  if bool_decide (save_format ∈ ["json"; "both"])
  then _ ← on_disk (Reddit.save_to_json data (stem +:+ ".json")); mret tt
  else mret tt.

(** [if data: ... save ...] *)
Definition save_if_any (data : list pydict) (stem : string) : Prog unit :=
  match data with
  | [] => mret tt
  | _ :: _ => save_as data stem
  end.

(** lines 355-381 *)
Definition choice_1 (sh : Shell) (scraper : Scraper) : Prog unit :=
  raw ← input;
  let subreddit := strip raw in
  sort_type ← ask "hot";
  limit ← ask_int sh 25;
  time_filter ← (if bool_decide (sort_type ∈ ["top"; "controversial"])
                 then ask "all" else mret "all");
  posts ← call (Reddit.get_subreddit_posts (api scraper) subreddit sort_type
                  limit time_filter);
  save_if_any posts (subreddit +:+ "_" +:+ sort_type +:+ "_posts").

(** lines 383-401 *)
Definition choice_2 (sh : Shell) (scraper : Scraper) : Prog unit :=
  raw ← input;
  let post_id := strip raw in
  limit ← ask_int sh 50;
  comments ← call (Reddit.get_post_comments (api scraper) post_id limit);
  save_if_any comments ("comments_" +:+ post_id).

(** lines 403-423 *)
Definition choice_3 (sh : Shell) (scraper : Scraper) : Prog unit :=
  raw ← input;
  let query := strip raw in
  raw_subreddit ← input;
  let subreddit :=
    if nonempty (strip raw_subreddit) then Some (strip raw_subreddit) else None in
  sort ← ask "relevance";
  limit ← ask_int sh 25;
  posts ← call (Reddit.search_reddit (api scraper) query subreddit sort "all"
                  limit);
  save_if_any posts ("search_" +:+ replace_spaces query).

(** lines 425-444 *)
Definition choice_4 (sh : Shell) (scraper : Scraper) : Prog unit :=
  raw ← input;
  let username := strip raw in
  sort ← ask "new";
  limit ← ask_int sh 25;
  posts ← call (Reddit.get_user_posts (api scraper) username sort limit);
  save_if_any posts ("user_" +:+ username +:+ "_posts").

(** [d[key]] *)
Definition subscript (key : string) (d : pydict) : outcome pyval :=
  if bool_decide (key ∈ keys d) then Ret (dict_get key PyNone d)
  else Raise (KeyError key).

(** [f"{v:,}"].  The thousands separator is a format of numbers: [None]
    takes no format at all ([TypeError]) and a [str] refuses the comma
    ([ValueError]). *)
Definition format_thousands (v : pyval) : outcome unit :=
  match v with
  | PyBool _ | PyInt _ | PyFloat _ => Ret tt
  | PyNone => Raise TypeError
  | PyStr _ => Raise ValueError
  end.

(** [v[:200]] inside an f-string; of the values a record holds only a
    [str] can be sliced. *)
Definition slice_200 (v : pyval) : outcome unit :=
  match v with
  | PyStr _ => Ret tt
  | _ => Raise TypeError
  end.

(** lines 451-458: what the seven [print]s read and format, in their
    order; [info.get('active_users', 'N/A')] cannot raise. *)
Definition show_info (info : pydict) : outcome unit :=
  _ ← subscript "name" info;
  _ ← subscript "title" info;
  subscribers ← subscript "subscribers" info;
  _ ← format_thousands subscribers;
  _ ← subscript "created_datetime" info;
  _ ← subscript "over18" info;
  description ← subscript "description" info;
  slice_200 description.

(** lines 446-463 *)
Definition choice_5 (sh : Shell) (scraper : Scraper) : Prog unit :=
  raw ← input;
  let subreddit := strip raw in
  info ← call (RedditInfo.get_subreddit_info (info_api scraper) subreddit);
  match info with
  | [] => mret tt
  | _ :: _ =>
      _ ← call (show_info info);
      raw_save ← input;
      if String.eqb (lower (strip raw_save)) "y"
      then _ ← on_disk (Reddit.save_to_json [info]
                          ("subreddit_" +:+ subreddit +:+ "_info.json"));
           mret tt
      else mret tt
  end.

(** [post['id']], handed to [get_post_comments] as the post's id.  The
    records of [get_subreddit_posts] always hold a string there. *)
Definition post_id_of (post : pydict) : outcome string :=
  match dict_get "id" PyNone post with
  | PyStr post_id => Ret post_id
  | PyNone => Raise (KeyError "id")
  | _ => Raise TypeError
  end.

(** lines 473-478 *)
Fixpoint harvest_comments (a : Reddit.Api) (posts : list pydict)
    (comment_limit : Z) (all_comments : list pydict)
  : outcome (list pydict) :=
  match posts with
  | [] => Ret all_comments
  | post :: rest =>
      post_id ← post_id_of post;
      comments ← Reddit.get_post_comments a post_id comment_limit;
      harvest_comments a rest comment_limit (all_comments ++ comments)
  end.

(** lines 465-483 *)
Definition choice_6 (sh : Shell) (scraper : Scraper) : Prog unit :=
  raw ← input;
  let subreddit := strip raw in
  post_limit ← ask_int sh 10;
  comment_limit ← ask_int sh 20;
  posts ← call (Reddit.get_subreddit_posts (api scraper) subreddit "hot"
                  post_limit "all");
  all_comments ← call (harvest_comments (api scraper) posts comment_limit []);
  match posts, all_comments with
  | _ :: _, _ :: _ =>
      _ ← on_disk (Reddit.save_to_csv posts
                     (subreddit +:+ "_posts_with_comments.csv"));
      _ ← on_disk (Reddit.save_to_csv all_comments
                     (subreddit +:+ "_all_comments.csv"));
      mret tt
  | _, _ => mret tt
  end.

(** One pass of the [while True] loop (lines 342-490); [false] when the
    loop is left. *)
Definition menu_pass (sh : Shell) (scraper : Scraper) : Prog bool :=
  raw ← input;
  let choice := strip raw in
  if String.eqb choice "1" then _ ← choice_1 sh scraper; mret true
  else if String.eqb choice "2" then _ ← choice_2 sh scraper; mret true
  else if String.eqb choice "3" then _ ← choice_3 sh scraper; mret true
  else if String.eqb choice "4" then _ ← choice_4 sh scraper; mret true
  else if String.eqb choice "5" then _ ← choice_5 sh scraper; mret true
  else if String.eqb choice "6" then _ ← choice_6 sh scraper; mret true
  else if String.eqb choice "7" then mret false
  else mret true.

Fixpoint menu_loop (sh : Shell) (scraper : Scraper) (fuel : nat) : Prog unit :=
  match fuel with
  | O => halt OutOfFuel
  | S fuel' =>
      menu_pass sh scraper ≫= fun again : bool =>
      if again then menu_loop sh scraper fuel' else mret tt
  end.

(** lines 329-490.  Every pass reads at least one line, so one pass more
    than there are lines is enough. *)
Definition interactive_menu (sh : Shell) : Prog unit := fun s =>
  match RedditScraper sh with
  | Ret scraper => menu_loop sh scraper (S (length (console s))) s
  | Raise e => if is_Exception e then (inl tt, s) else (inr (Uncaught e), s)
  end.

(** [main] prints and calls [interactive_menu]. *)
Definition main (sh : Shell) : Prog unit := interactive_menu sh.

End Menu.

(** An outcome that, if it is an exception, is one the menu may end with. *)
Definition quiet (ok : Menu.stop -> Prop) {A} (o : outcome A) : Prop :=
  match o with
  | Ret _ => True
  | Raise e => ok (Menu.Uncaught e)
  end.

(** [m] keeps the disk within [I], reads lines without putting any back,
    and ends early only for a reason in [ok]. *)
Definition guarded (I : World -> Prop) (ok : Menu.stop -> Prop) {A}
    (m : Menu.Prog A) : Prop :=
  forall s, I (Menu.disk s) ->
    exists r s', m s = (r, s') /\ I (Menu.disk s')
      /\ (length (Menu.console s') <= length (Menu.console s))%nat
      /\ match r with
         | inl _ => True
         | inr why => ok why
         end.

Definition disk_guarded (I : World -> Prop) (ok : Menu.stop -> Prop) {A}
    (m : IO A) : Prop :=
  forall w, I w -> exists o w', m w = (o, w') /\ I w' /\ quiet ok o.

(** The ways the menu ends when Reddit and the disk fail with
    [Exception]s only. *)
Definition expected_end (why : Menu.stop) : Prop :=
  why = Menu.EndOfInput \/ why = Menu.Uncaught ValueError.

(** The ways the menu ends when, besides, a subreddit may come without
    a subscriber count: choice 5 prints the count with a thousands
    separator, which [None] does not take. *)
Definition tolerated_end (why : Menu.stop) : Prop :=
  expected_end why \/ why = Menu.Uncaught TypeError.

(** Every listing of the client breaks, if it does, with an [Exception],
    and so does the loading of comments. *)
Definition api_failures_only (a : Reddit.Api) : Prop :=
  (forall g e,
      (exists name limit, g = Reddit.subreddit_hot a name limit)
      \/ (exists name limit, g = Reddit.subreddit_new a name limit)
      \/ (exists name limit, g = Reddit.subreddit_rising a name limit)
      \/ (exists name limit tf, g = Reddit.subreddit_top a name limit tf)
      \/ (exists name limit tf, g = Reddit.subreddit_controversial a name limit tf)
      \/ (exists name query sort tf limit,
             g = Reddit.subreddit_search a name query sort tf limit)
      \/ (exists name limit, g = Reddit.redditor_hot a name limit)
      \/ (exists name limit, g = Reddit.redditor_new a name limit)
      \/ (exists name limit, g = Reddit.redditor_top a name limit)
      \/ (exists name limit, g = Reddit.redditor_controversial a name limit) ->
      gen_error g = Some e -> is_Exception e = true)
  /\ (forall post_id e,
        Reddit.submission_comments a post_id = Raise e -> is_Exception e = true).

Definition scraper_failures_only (scraper : Menu.Scraper) : Prop :=
  api_failures_only (Menu.api scraper)
  /\ (forall name e,
        RedditInfo.subreddit_about (Menu.info_api scraper) name = Raise e ->
        is_Exception e = true).

Definition shell_failures_only (sh : Menu.Shell) : Prop :=
  match Menu.RedditScraper sh with
  | Ret scraper => scraper_failures_only scraper
  | Raise e => is_Exception e = true
  end.

(** Every subreddit the client of the menu can load tells its number of
    subscribers. *)
Definition subscribers_known (sh : Menu.Shell) : Prop :=
  forall scraper name subreddit,
    Menu.RedditScraper sh = Ret scraper ->
    RedditInfo.subreddit_about (Menu.info_api scraper) name = Ret subreddit ->
    is_Some (RedditInfo.subscribers subreddit).

Module Samples3.

(** [int] on plain digits with an optional minus sign; enough for the
    examples. *)
Fixpoint digits (s : string) (acc : Z) : option Z :=
  match s with
  | EmptyString => Some acc
  | String c rest =>
      let n := nat_of_ascii c in
      if ((48 <=? n) && (n <=? 57))%nat
      then digits rest (10 * acc + Z.of_nat (n - 48))
      else None
  end.

Definition plain_int (s : string) : option Z :=
  match s with
  | EmptyString => None
  | String "-" rest => if nonempty rest then Z.opp <$> digits rest 0 else None
  | _ => digits s 0
  end.

Definition python_about : RedditInfo.about :=
  {| RedditInfo.display_name := "Python";
     RedditInfo.title := "Python";
     RedditInfo.description := Some (Samples.repeat_char 600 "d");
     RedditInfo.subscribers := Some 1300000;
     RedditInfo.active_user_count := None;
     RedditInfo.created_utc := PyF "1201230879.0";
     RedditInfo.over18 := false;
     RedditInfo.public_description := "News about Python" |}.

(** Subreddit [python] can be loaded, [private] has no description, any
    other cannot be loaded. *)
Definition info : RedditInfo.InfoApi :=
  {| RedditInfo.subreddit_about := fun name =>
       if String.eqb name "python" then Ret python_about
       else if String.eqb name "private"
       then Ret {| RedditInfo.display_name := "private";
                   RedditInfo.title := "";
                   RedditInfo.description := None;
                   RedditInfo.subscribers := Some 0;
                   RedditInfo.active_user_count := None;
                   RedditInfo.created_utc := PyF "1201230879.0";
                   RedditInfo.over18 := false;
                   RedditInfo.public_description := "" |}
       else Raise PrawcoreException;
     RedditInfo.utc_date := fun _ => Some "2008-01-25";
     RedditInfo.info_now := "2024-01-01 00:00:00" |}.

(** A menu over a client whose listings work. *)
Definition shell : Menu.Shell :=
  {| Menu.RedditScraper :=
       Ret {| Menu.api := Samples.quiet_api; Menu.info_api := info |};
     Menu.py_int := plain_int |}.

(** A menu over a client whose listings break. *)
Definition broken_shell : Menu.Shell :=
  {| Menu.RedditScraper :=
       Ret {| Menu.api := Samples.broken_api; Menu.info_api := info |};
     Menu.py_int := plain_int |}.

(** Subreddit [hidden] is [python] without its subscriber count. *)
Definition hiding_info : RedditInfo.InfoApi :=
  {| RedditInfo.subreddit_about := fun name =>
       if String.eqb name "hidden"
       then Ret {| RedditInfo.display_name := "hidden";
                   RedditInfo.title := "Hidden";
                   RedditInfo.description := Some "kept to ourselves";
                   RedditInfo.subscribers := None;
                   RedditInfo.active_user_count := None;
                   RedditInfo.created_utc := PyF "1201230879.0";
                   RedditInfo.over18 := false;
                   RedditInfo.public_description := "" |}
       else RedditInfo.subreddit_about info name;
     RedditInfo.utc_date := RedditInfo.utc_date info;
     RedditInfo.info_now := RedditInfo.info_now info |}.

Definition hiding_shell : Menu.Shell :=
  {| Menu.RedditScraper :=
       Ret {| Menu.api := Samples.quiet_api; Menu.info_api := hiding_info |};
     Menu.py_int := plain_int |}.

Definition session (lines : list string) (w : World) : Menu.Session :=
  {| Menu.console := lines; Menu.disk := w |}.

End Samples3.

(* ===================================================================== *)
(** ** Facts about strings                                                *)
(* ===================================================================== *)

Section StringFacts.

Lemma startswith_spec s p : startswith s p = true <-> begins_with s p.
Proof.
  unfold begins_with. revert s.
  induction p as [|b p IH]; intros s; simpl.
  - split; [intros _; by exists s | done].
  - destruct s as [|a s]; simpl.
    + split; [done | intros [rest H]; discriminate].
    + rewrite andb_true_iff, IH, Ascii.eqb_eq. split.
      * intros [-> [rest ->]]. by exists rest.
      * intros [rest H]. injection H as -> ->. split; [done | by exists rest].
Qed.

Lemma startswith_app p rest : startswith (p +:+ rest) p = true.
Proof. apply startswith_spec. by exists rest. Qed.

Lemma str_in_spec sub s : str_in sub s = true <-> occurs_in sub s.
Proof.
  unfold occurs_in.
  induction s as [|a s IH]; simpl.
  - rewrite orb_false_r, startswith_spec. split.
    + intros [rest H]. by exists "", rest.
    + intros [[|c pre] [post H]]; [by exists post | discriminate].
  - rewrite orb_true_iff, startswith_spec, IH. split.
    + intros [[rest H] | (pre & post & ->)].
      * by exists "", rest.
      * by exists (String a pre), post.
    + intros [[|c pre] [post H]].
      * left. by exists post.
      * right. simpl in H. injection H as -> ->. by exists pre, post.
Qed.

Lemma str_in_false sub s : str_in sub s = false <-> ~ occurs_in sub s.
Proof. rewrite <- str_in_spec. by destruct (str_in sub s). Qed.

Lemma str_take_length n s :
  (n <= String.length s)%nat -> String.length (str_take n s) = n.
Proof.
  revert s. induction n as [|n IH]; intros [|a s]; simpl; try lia.
  intros H. rewrite IH; lia.
Qed.

Lemma str_take_prefix n s : begins_with s (str_take n s).
Proof.
  revert s. induction n as [|n IH]; intros s; simpl.
  - by exists s.
  - destruct s as [|a s]; [by exists "" |].
    destruct (IH s) as [rest H]. exists rest.
    change (String a s = String a (str_take n s +:+ rest)). by f_equal.
Qed.

End StringFacts.

(* ===================================================================== *)
(** ** toi_scraper.py: deduplication                                      *)
(* ===================================================================== *)

Section Dedupe.
Import Toi.
Implicit Types (B : list article) (seen : gset string) (a : article).

Lemma dedupe_loop_keep B seen acc :
  dedupe_loop B seen acc = acc ++ keep_unseen seen B.
Proof.
  revert seen acc. induction B as [|a B IH]; intros seen acc; simpl.
  - by rewrite app_nil_r.
  - case_decide; rewrite IH; [done |]. by rewrite <- app_assoc.
Qed.

Lemma dedupe_keep B : dedupe B = keep_unseen ∅ B.
Proof. unfold dedupe. by rewrite dedupe_loop_keep. Qed.

Lemma keep_sublist seen B : sublist (keep_unseen seen B) B.
Proof.
  revert seen. induction B as [|a B IH]; intros seen; simpl; [done |].
  case_decide; [apply sublist_cons | apply sublist_skip]; apply IH.
Qed.

Lemma keep_fresh seen B a : a ∈ keep_unseen seen B -> url a ∉ seen.
Proof.
  revert seen. induction B as [|b B IH]; intros seen; simpl.
  - by intros ?%elem_of_nil.
  - case_decide as Hb; [apply IH |].
    intros [-> | Ha%IH]%elem_of_cons; [done |].
    by apply not_elem_of_union in Ha as [_ ?].
Qed.

Lemma keep_NoDup seen B : NoDup (url <$> keep_unseen seen B).
Proof.
  revert seen. induction B as [|b B IH]; intros seen; simpl.
  - constructor.
  - case_decide; [apply IH |].
    rewrite ?fmap_cons. constructor; [| apply IH].
    intros (a & Hu & Ha%keep_fresh)%list_elem_of_fmap.
    apply Ha, elem_of_union_l, elem_of_singleton. by symmetry.
Qed.

Lemma keep_complete seen B u :
  u ∈ url <$> B -> u ∉ seen -> u ∈ url <$> keep_unseen seen B.
Proof.
  revert seen. induction B as [|b B IH]; intros seen; simpl.
  - by intros ?%elem_of_nil.
  - rewrite ?fmap_cons. intros Hin Hu. case_decide as Hb.
    + apply IH; [| done]. apply elem_of_cons in Hin as [-> | Hin]; done.
    + rewrite ?fmap_cons. destruct (decide (u = url b)) as [-> | Hne].
      * apply list_elem_of_here.
      * apply list_elem_of_further, IH.
        -- apply elem_of_cons in Hin as [-> | Hin]; done.
        -- by intros [?%elem_of_singleton | ?]%elem_of_union.
Qed.

Lemma keep_idempotent seen seen' B :
  seen' ⊆ seen -> keep_unseen seen' (keep_unseen seen B) = keep_unseen seen B.
Proof.
  revert seen seen'. induction B as [|b B IH]; intros seen seen' Hsub; simpl.
  - done.
  - case_decide as Hb; [by apply IH |].
    simpl. rewrite decide_False by (intros ?; by apply Hb, Hsub).
    f_equal. by apply IH, union_mono_l.
Qed.

Lemma keep_first_seen pre suf seen :
  (forall u, u ∈ seen <-> u ∈ url <$> pre) ->
  keep_unseen seen suf =
  (filter (fun p => url p.2 ∉ url <$> take p.1 (pre ++ suf))
     (zip (seq (length pre) (length suf)) suf)).*2.
Proof.
  revert pre seen. induction suf as [|a suf IH]; intros pre seen Hseen.
  - done.
  - assert (Hpre : pre ++ a :: suf = (pre ++ [a]) ++ suf)
      by (by rewrite <- app_assoc).
    assert (Hlen : S (length pre) = length (pre ++ [a]))
      by (rewrite length_app; simpl; lia).
    cbn [keep_unseen length seq zip zip_with]. case_decide as Ha.
    + rewrite filter_cons_False.
      2:{ cbn [fst snd]. rewrite take_app_length. intros Hn. apply Hn.
          by apply Hseen. }
      rewrite Hpre, Hlen. apply IH. intros u. rewrite fmap_app, elem_of_app.
      rewrite <- Hseen. split; [tauto |].
      intros [? | Hu]; [done |]. apply list_elem_of_singleton in Hu. by subst.
    + rewrite filter_cons_True.
      2:{ cbn [fst snd]. rewrite take_app_length. by rewrite <- Hseen. }
      rewrite fmap_cons. cbn [snd]. f_equal.
      rewrite Hpre, Hlen. apply IH. intros u.
      rewrite fmap_app, elem_of_app, elem_of_union, elem_of_singleton.
      rewrite <- Hseen. cbn [fmap list_fmap].
      rewrite list_elem_of_singleton. tauto.
Qed.

(** Three links to two stories: the second link to the first story
    goes, the order of the others stays. *)
Example dedupe_sample :
  let a := Samples.tennis_article in
  let b := Samples.sports_india_article in
  let a' := {| title := "Top seed wins"; url := url a; image := "";
               category := "Sports"; source := "Times of India";
               scraped_at := "2024-01-01 00:00:02" |} in
  dedupe [a; b; a'] = [a; b] /\ first_seen [a; b; a'] = [a; b].
Proof. split; vm_compute; reflexivity. Qed.

(** Claim C4.  For every batch [B], the deduplication loop of
    [scrape_times_of_india] keeps exactly the records whose URL does not
    occur earlier in [B] (the first record of every distinct URL) and drops
    the others; the records kept stand in the order they have in [B], no
    URL is kept twice and no URL of [B] is lost. *)
Theorem C4_dedupe_keeps_first_occurrences B :
  dedupe B = first_seen B
  /\ sublist (dedupe B) B
  /\ NoDup (url <$> dedupe B)
  /\ (forall u, u ∈ url <$> dedupe B <-> u ∈ url <$> B).
Proof.
  rewrite dedupe_keep. repeat split.
  - unfold first_seen. apply (keep_first_seen [] B ∅).
    intros u. rewrite fmap_nil, elem_of_nil. apply elem_of_empty.
  - apply keep_sublist.
  - apply keep_NoDup.
  - intros Hu. eapply elem_of_sublist; [exact Hu |].
    apply fmap_sublist, keep_sublist.
  - intros Hu. apply keep_complete; [done | apply not_elem_of_empty].
Qed.

(** Claim C5.  Deduplicating a batch that is already the result of the
    deduplication loop changes nothing. *)
Theorem C5_dedupe_idempotent B : dedupe (dedupe B) = dedupe B.
Proof. rewrite !dedupe_keep. by apply keep_idempotent. Qed.

End Dedupe.

(* ===================================================================== *)
(** ** toi_scraper.py: the articles returned                              *)
(* ===================================================================== *)

Section Articles.
Import Toi.
Implicit Types (links : list anchor) (acc : list article) (a : article).

Lemma collect_articles_keeps now links acc a :
  a ∈ acc -> a ∈ collect_articles now links acc.
Proof.
  revert acc. induction links as [|link links IH]; intros acc Ha; simpl.
  - done.
  - destruct (accepted link); apply IH; [| done].
    apply elem_of_app. by left.
Qed.

Lemma collect_articles_origin now links acc a :
  a ∈ collect_articles now links acc ->
  a ∈ acc \/
  exists link stamp, link ∈ links /\ accepted link = true
    /\ a = make_article link (strip (get_text link)) stamp.
Proof.
  revert acc. induction links as [|link links IH]; intros acc; simpl.
  - by left.
  - destruct (accepted link) eqn:Hacc; intros Ha; apply IH in Ha.
    + destruct Ha as [Ha | (l & st & Hl & Hok & ->)].
      * apply elem_of_app in Ha as [Ha | Ha]; [by left | right].
        apply list_elem_of_singleton in Ha as ->.
        eexists link, _. repeat split; [apply list_elem_of_here | done].
      * right. exists l, st. repeat split; [by apply list_elem_of_further | done].
    + destruct Ha as [Ha | (l & st & Hl & Hok & ->)]; [by left | right].
      exists l, st. repeat split; [by apply list_elem_of_further | done].
Qed.

Lemma collect_articles_complete now links acc link :
  link ∈ links -> accepted link = true ->
  full_url_of (href link) ∈ url <$> collect_articles now links acc.
Proof.
  revert acc. induction links as [|l links IH]; intros acc Hin Hok.
  - by apply elem_of_nil in Hin.
  - apply elem_of_cons in Hin as [<- | Hin]; simpl.
    + rewrite Hok. apply list_elem_of_fmap.
      eexists. split; [| apply collect_articles_keeps, elem_of_app; right;
                          apply list_elem_of_here].
      done.
    + destruct (accepted l); by apply IH.
Qed.

(** What [scrape_times_of_india] returns: the deduplicated articles of
    the page, or nothing after an exception. *)
Lemma scrape_result w articles :
  scrape_times_of_india w = Ret articles ->
  articles = [] \/
  exists r links, requests_get w = Ret r /\ find_all_a w (text r) = Ret links
    /\ articles = dedupe (collect_articles (now w) links []).
Proof.
  unfold scrape_times_of_india, scrape_body.
  destruct (requests_get w) as [r | e] eqn:Hget; simpl.
  2:{ destruct (is_RequestException e), (is_Exception e); intros H;
      inversion H; by left. }
  destruct (raise_for_status r) as [[] | e]; simpl.
  2:{ destruct (is_RequestException e), (is_Exception e); intros H;
      inversion H; by left. }
  destruct (find_all_a w (text r)) as [links | e] eqn:Hfind; simpl.
  2:{ destruct (is_RequestException e), (is_Exception e); intros H;
      inversion H; by left. }
  intros H. inversion H. right. by exists r, links.
Qed.

Lemma scrape_article_origin w articles a :
  scrape_times_of_india w = Ret articles -> a ∈ articles ->
  exists link stamp, accepted link = true
    /\ a = make_article link (strip (get_text link)) stamp.
Proof.
  intros [-> | (r & links & _ & _ & ->)]%scrape_result Ha.
  - by apply elem_of_nil in Ha.
  - rewrite dedupe_keep in Ha.
    eapply elem_of_sublist in Ha; [| apply keep_sublist].
    apply collect_articles_origin in Ha as [Ha | (l & st & _ & Hok & ->)].
    + by apply elem_of_nil in Ha.
    + by exists l, st.
Qed.

Lemma full_url_of_http href : startswith (full_url_of href) "http" = true.
Proof.
  unfold full_url_of. destruct (startswith href "http") eqn:H; [done |].
  reflexivity.
Qed.

(** Claim C3, as the code has it.  The category of a returned article
    is decided by the first test of the chain that its URL passes: an
    article whose URL contains [/sports/] and neither [/india/] nor
    [/world/] is filed under Sports; one whose URL contains none of the
    five segments is filed under Other. *)
Theorem C3_category_of_returned_article w articles a :
  scrape_times_of_india w = Ret articles -> a ∈ articles ->
  (occurs_in "/sports/" (url a) ->
   ~ occurs_in "/india/" (url a) -> ~ occurs_in "/world/" (url a) ->
   category a = "Sports")
  /\ (~ occurs_in "/india/" (url a) -> ~ occurs_in "/world/" (url a) ->
      ~ occurs_in "/sports/" (url a) -> ~ occurs_in "/business/" (url a) ->
      ~ occurs_in "/entertainment/" (url a) ->
      category a = "Other").
Proof.
  intros Hs Ha.
  destruct (scrape_article_origin _ _ _ Hs Ha) as (l & st & _ & ->).
  cbn [url category make_article]. unfold category_of. split.
  - intros Hsp%str_in_spec Hin%str_in_false Hwo%str_in_false.
    by rewrite Hin, Hwo, Hsp.
  - intros Hin%str_in_false Hwo%str_in_false Hsp%str_in_false
           Hbu%str_in_false Hen%str_in_false.
    by rewrite Hin, Hwo, Hsp, Hbu, Hen.
Qed.

Lemma C3_category_of_returned_article_witness :
  category Samples.tennis_article = "Sports".
Proof.
  refine (proj1 (C3_category_of_returned_article
                   (Samples.page [Samples.tennis_link])
                   [Samples.tennis_article] Samples.tennis_article _ _) _ _ _).
  - vm_compute. reflexivity.
  - apply list_elem_of_here.
  - apply str_in_spec. vm_compute. reflexivity.
  - apply str_in_false. vm_compute. reflexivity.
  - apply str_in_false. vm_compute. reflexivity.
Defined.

(** An article whose URL contains [/sports/] and is not filed under
    Sports: the URL contains [/india/] as well, which is tested first. *)
Lemma C3_counterexample :
  ~ (forall w articles a,
       scrape_times_of_india w = Ret articles -> a ∈ articles ->
       occurs_in "/sports/" (url a) -> category a = "Sports").
Proof.
  intros H.
  specialize (H (Samples.page [Samples.sports_india_link])
                [Samples.sports_india_article] Samples.sports_india_article).
  discriminate H.
  - vm_compute. reflexivity.
  - apply list_elem_of_here.
  - apply str_in_spec. vm_compute. reflexivity.
Qed.

Lemma scrape_value w r links :
  requests_get w = Ret r -> raise_for_status r = Ret tt ->
  find_all_a w (text r) = Ret links ->
  scrape_times_of_india w = Ret (dedupe (collect_articles (now w) links [])).
Proof.
  intros Hget Hst Hfind. unfold scrape_times_of_india, scrape_body.
  rewrite Hget. simpl. rewrite Hst. simpl. by rewrite Hfind.
Qed.

Lemma count_unique {A} (f : A -> string) (l : list A) (x : string) :
  NoDup (f <$> l) -> x ∈ f <$> l ->
  length (filter (fun y => f y = x) l) = 1%nat.
Proof.
  induction l as [|b l IH]; intros Hnd Hx.
  - by apply elem_of_nil in Hx.
  - rewrite fmap_cons in Hnd, Hx. apply NoDup_cons in Hnd as [Hb Hnd].
    destruct (decide (f b = x)) as [Heq | Hne].
    + rewrite filter_cons_True by done. simpl. f_equal.
      destruct (filter (fun y => f y = x) l) as [|y t] eqn:Hf; [done |].
      exfalso.
      assert (Hy : y ∈ filter (fun y => f y = x) l)
        by (rewrite Hf; apply list_elem_of_here).
      apply list_elem_of_filter in Hy as [Hfy Hy].
      apply Hb. rewrite Heq, <- Hfy. apply list_elem_of_fmap. by exists y.
    + rewrite filter_cons_False by done. apply IH; [done |].
      apply elem_of_cons in Hx as [-> | Hx]; done.
Qed.

Lemma scrape_article_source w articles a :
  scrape_times_of_india w = Ret articles -> a ∈ articles ->
  exists r links link,
    requests_get w = Ret r /\ find_all_a w (text r) = Ret links
    /\ link ∈ links /\ accepted link = true
    /\ url a = absolute_url (href link).
Proof.
  intros [-> | (r & links & Hget & Hfind & ->)]%scrape_result Ha.
  - by apply elem_of_nil in Ha.
  - rewrite dedupe_keep in Ha.
    eapply elem_of_sublist in Ha; [| apply keep_sublist].
    apply collect_articles_origin in Ha as [Ha | (l & st & Hl & Hok & ->)].
    + by apply elem_of_nil in Ha.
    + by exists r, links, l.
Qed.

Lemma filter_all {A} (P : A -> Prop) `{forall x, Decision (P x)} (l : list A) :
  Forall P l -> filter P l = l.
Proof.
  induction 1 as [| x l Hx _ IH]; [done |].
  by rewrite filter_cons_True, IH.
Qed.

(** Claim C10.  Every article returned has a URL that begins with
    [http].  It is the address of an accepted anchor of the page: the
    [href] itself when that begins with [http], and
    [https://timesofindia.indiatimes.com] followed by the [href]
    otherwise.  Deduplication compares these completed addresses: the
    URLs returned are pairwise different and every accepted anchor has
    exactly one article with its address.  So when a page links a story
    both by a relative [href] and by the site's address followed by that
    same [href], exactly one returned article belongs to the two anchors,
    and a page that has no other accepted anchor yields a single
    article. *)
Theorem C10_urls_absolute_and_unique w articles :
  scrape_times_of_india w = Ret articles ->
  Forall (fun a => begins_with (url a) "http") articles
  /\ (forall a, a ∈ articles ->
        exists r links link,
          requests_get w = Ret r /\ find_all_a w (text r) = Ret links
          /\ link ∈ links /\ accepted link = true
          /\ url a = absolute_url (href link))
  /\ NoDup (url <$> articles)
  /\ (forall r links,
        requests_get w = Ret r -> raise_for_status r = Ret tt ->
        find_all_a w (text r) = Ret links ->
        (forall link, link ∈ links -> accepted link = true ->
           length (filter (fun a => url a = absolute_url (href link)) articles)
           = 1%nat)
        /\ (forall rel abs,
              rel ∈ links -> abs ∈ links ->
              accepted rel = true -> accepted abs = true ->
              startswith (href rel) "http" = false ->
              href abs = base_url +:+ href rel ->
              length (filter (fun a => url a = href abs) articles) = 1%nat
              /\ length (filter (fun a => url a = absolute_url (href rel)
                                          \/ url a = absolute_url (href abs))
                           articles) = 1%nat
              /\ ((forall link, link ∈ links -> accepted link = true ->
                     link = rel \/ link = abs) ->
                  length articles = 1%nat))).
Proof.
  intros Hs.
  split; [| split; [| split]].
  - apply Forall_forall. intros a Ha.
    destruct (scrape_article_origin _ _ _ Hs Ha) as (l & st & _ & ->).
    apply startswith_spec, full_url_of_http.
  - intros a Ha. exact (scrape_article_source _ _ _ Hs Ha).
  - apply scrape_result in Hs as [-> | (r & links & _ & _ & ->)].
    + constructor.
    + rewrite dedupe_keep. apply keep_NoDup.
  - intros r links Hget Hst Hfind.
    assert (Hone : forall link, link ∈ links -> accepted link = true ->
              length (filter (fun a => url a = absolute_url (href link)) articles)
              = 1%nat).
    { intros link Hin Hok.
      rewrite (scrape_value _ _ _ Hget Hst Hfind) in Hs.
      injection Hs as <-. rewrite dedupe_keep.
      apply count_unique; [apply keep_NoDup |].
      apply keep_complete; [| apply not_elem_of_empty].
      by apply collect_articles_complete. }
    split; [exact Hone |].
    intros rel abs Hrel Habs Hokr Hoka Hnot Heq.
    assert (Hurel : absolute_url (href rel) = href abs)
      by (unfold absolute_url; by rewrite Hnot, Heq).
    assert (Huabs : absolute_url (href abs) = href abs)
      by (unfold absolute_url; by rewrite Heq).
    pose proof (Hone abs Habs Hoka) as Hcount. rewrite Huabs in Hcount.
    split; [exact Hcount |]. split.
    + rewrite <- Hcount. f_equal. apply list_filter_iff.
      intros a. rewrite Hurel, Huabs. tauto.
    + intros Honly. rewrite <- Hcount. f_equal. symmetry. apply filter_all.
      apply Forall_forall. intros a Ha.
      destruct (scrape_article_source _ _ _ Hs Ha)
        as (r' & links' & l & Hget' & Hfind' & Hl & Hok & ->).
      assert (r' = r) as -> by congruence.
      assert (links' = links) as -> by congruence.
      destruct (Honly l Hl Hok) as [-> | ->]; done.
Qed.

Lemma C10_urls_absolute_and_unique_witness :
  let page := Samples.page [Samples.tennis_link; Samples.tennis_link_abs] in
  scrape_times_of_india page = Ret [Samples.tennis_article]
  /\ url Samples.tennis_article
     = base_url +:+ href Samples.tennis_link
  /\ length [Samples.tennis_article] = 1%nat.
Proof.
  intros page.
  assert (Hs : scrape_times_of_india page = Ret [Samples.tennis_article])
    by (vm_compute; reflexivity).
  split; [exact Hs |]. split; [reflexivity |].
  destruct (C10_urls_absolute_and_unique _ _ Hs) as (_ & _ & _ & H).
  destruct (H _ [Samples.tennis_link; Samples.tennis_link_abs]
              eq_refl eq_refl eq_refl) as [_ Hpair].
  destruct (Hpair Samples.tennis_link Samples.tennis_link_abs) as (_ & _ & Hsingle).
  - apply list_elem_of_here.
  - apply list_elem_of_further, list_elem_of_here.
  - vm_compute. reflexivity.
  - vm_compute. reflexivity.
  - reflexivity.
  - reflexivity.
  - apply Hsingle. intros link Hin _.
    apply elem_of_cons in Hin as [-> | Hin]; [by left |].
    apply list_elem_of_singleton in Hin as ->. by right.
Defined.

End Articles.

(* ===================================================================== *)
(** ** Running the I/O primitives                                         *)
(* ===================================================================== *)

Section Runs.
Context {A B : Type}.
Implicit Types (w : World) (filename : string) (l : line).

Lemma bind_ret (m : IO A) (f : A -> IO B) w a w' :
  m w = (Ret a, w') -> (m ≫= f) w = f a w'.
Proof. intros H. unfold mbind, io_bind. by rewrite H. Qed.

Lemma bind_raise (m : IO A) (f : A -> IO B) w e w' :
  m w = (Raise e, w') -> (m ≫= f) w = (Raise e, w').
Proof. intros H. unfold mbind, io_bind. by rewrite H. Qed.

Lemma succeeds_bind (m : IO A) (f : A -> IO B) w a b fs :
  (exists w', m w = (Ret a, w') /\ io_succeeds w' /\
              succeeds_with (f a) w' b fs) ->
  succeeds_with (m ≫= f) w b fs.
Proof.
  intros (w' & Hm & _ & w'' & Hf & Hfs & Hok).
  exists w''. by rewrite (bind_ret _ _ _ _ _ Hm).
Qed.

End Runs.

Section Primitives.
Implicit Types (w : World) (filename : string) (l : line).

Lemma attempt_succeeds w :
  io_succeeds w -> succeeds_with attempt w tt (files w).
Proof.
  unfold io_succeeds, succeeds_with, attempt. intros Hok.
  destruct (pending w) as [|[e|] rest] eqn:Hp.
  - exists w. repeat split. unfold io_succeeds. by rewrite Hp.
  - by inversion Hok.
  - eexists. repeat split. by inversion Hok.
Qed.

Lemma open_w_succeeds w filename :
  io_succeeds w ->
  succeeds_with (open_w filename) w tt (<[filename := []]> (files w)).
Proof.
  intros (w' & Ha & Hfs & Hok)%attempt_succeeds.
  eapply succeeds_bind. exists w'. repeat split; [done | done |].
  exists {| files := <[filename := []]> (files w'); pending := pending w' |}.
  repeat split; [by rewrite Hfs | done].
Qed.

Lemma write_succeeds w filename l rows :
  io_succeeds w -> files w !! filename = Some rows ->
  succeeds_with (write filename l) w tt (<[filename := rows ++ [l]]> (files w)).
Proof.
  intros (w' & Ha & Hfs & Hok)%attempt_succeeds Hrows.
  eapply succeeds_bind. exists w'. repeat split; [done | done |].
  eexists. unfold append_line, set_file. repeat split; [| done].
  cbn [files]. by rewrite Hfs, Hrows.
Qed.

Lemma close_succeeds w : io_succeeds w -> succeeds_with close w tt (files w).
Proof. apply attempt_succeeds. Qed.

(** A loop of writes appends one line per element, in order. *)
Lemma for_each_write_succeeds {X} (xs : list X) (body : X -> IO unit)
    (line_of : X -> line) filename :
  (forall x w rows, x ∈ xs -> io_succeeds w -> files w !! filename = Some rows ->
     succeeds_with (body x) w tt (<[filename := rows ++ [line_of x]]> (files w))) ->
  forall w rows, io_succeeds w -> files w !! filename = Some rows ->
    succeeds_with (for_each xs body) w tt
      (<[filename := rows ++ (line_of <$> xs)]> (files w)).
Proof.
  induction xs as [|x xs IH]; intros Hbody w rows Hok Hrows.
  - exists w. repeat split; [| done].
    rewrite fmap_nil, app_nil_r. by rewrite insert_id.
  - cbn [for_each]. eapply succeeds_bind.
    destruct (Hbody x w rows) as (w' & Hb & Hfs & Hok');
      [apply list_elem_of_here | done | done |].
    exists w'. repeat split; [done | done |].
    destruct (IH (fun y w r Hy => Hbody y w r (list_elem_of_further _ _ _ Hy))
                w' (rows ++ [line_of x]) Hok')
      as (w'' & Hf & Hfs' & Hok'').
    { rewrite Hfs. apply lookup_insert_eq. }
    exists w''. repeat split; [done | | done].
    rewrite Hfs', Hfs, insert_insert_eq, fmap_cons.
    by rewrite <- app_assoc.
Qed.

(** [with open(...)] around a body that succeeds. *)
Lemma with_open_succeeds {X} (body : IO X) w filename x fs :
  io_succeeds w ->
  (forall w1, io_succeeds w1 -> files w1 = <[filename := []]> (files w) ->
              succeeds_with body w1 x fs) ->
  succeeds_with (with_open filename body) w x fs.
Proof.
  intros (w1 & Ho & Hfs1 & Hok1)%(open_w_succeeds _ filename) Hbody.
  destruct (Hbody w1 Hok1 Hfs1) as (w2 & Hb & Hfs2 & Hok2).
  destruct (close_succeeds w2 Hok2) as (w3 & Hc & Hfs3 & Hok3).
  exists w3. unfold with_open. rewrite Ho, Hb, Hc.
  repeat split; [congruence | done].
Qed.

Lemma try_except_succeeds {X} (body : IO X) handler w x fs :
  succeeds_with body w x fs -> succeeds_with (try_except body handler) w x fs.
Proof.
  intros (w' & Hb & Hfs & Hok). exists w'. unfold try_except. by rewrite Hb.
Qed.

End Primitives.

(* ===================================================================== *)
(** ** I/O failures stay inside the writers                               *)
(* ===================================================================== *)

Section Containment.
Implicit Types (w : World) (filename : string) (l : line).

Lemma no_failure_refl w : no_failure_between w w.
Proof. by exists 0%nat. Qed.

Lemma no_failure_trans w1 w2 w3 :
  no_failure_between w1 w2 -> no_failure_between w2 w3 ->
  no_failure_between w1 w3.
Proof.
  intros [n Hn] [m Hm]. exists (n + m)%nat.
  by rewrite Hn, Hm, replicate_add, app_assoc.
Qed.

Lemma contained_ret {A} (a : A) : contained (mret a).
Proof.
  intros w Hw. exists (Ret a), w. repeat split; [done | apply no_failure_refl].
Qed.

Lemma contained_bind {A B} (m : IO A) (f : A -> IO B) :
  contained m -> (forall a, contained (f a)) -> contained (m ≫= f).
Proof.
  intros Hm Hf w Hw. destruct (Hm w Hw) as ([a | e] & w' & Hrun & Hw' & Ho).
  - destruct (Hf a w' Hw') as (o & w'' & Hrun' & Hw'' & Ho').
    exists o, w''. rewrite (bind_ret _ _ _ _ _ Hrun). repeat split; [done.. |].
    destruct o; [| done]. by eapply no_failure_trans.
  - exists (Raise e), w'. by rewrite (bind_raise _ _ _ _ _ Hrun).
Qed.

Lemma contained_attempt : contained attempt.
Proof.
  intros w Hw. unfold attempt, io_failures_only in *.
  destruct (pending w) as [|[e|] rest] eqn:Hp.
  - exists (Ret tt), w. repeat split; [by rewrite Hp | apply no_failure_refl].
  - apply Forall_cons in Hw as [He Hrest].
    eexists (Raise e), _. repeat split; [done | by apply He].
  - apply Forall_cons in Hw as [_ Hrest].
    eexists (Ret tt), _. repeat split; [done |].
    exists 1%nat. by rewrite Hp.
Qed.

Lemma contained_set_file filename content :
  contained (set_file filename content).
Proof.
  intros w Hw. eexists (Ret tt), _. repeat split; [done | by exists 0%nat].
Qed.

Lemma contained_lift {A} (o : outcome A) :
  (forall e, o = Raise e -> is_Exception e = true) -> contained (lift o).
Proof.
  intros Ho w Hw. exists o, w. repeat split; [done |].
  destruct o; [apply no_failure_refl | by apply Ho].
Qed.

Lemma contained_open_w filename : contained (open_w filename).
Proof.
  apply contained_bind; [apply contained_attempt |].
  intros _. apply contained_set_file.
Qed.

Lemma contained_write filename l : contained (write filename l).
Proof.
  apply contained_bind; [apply contained_attempt |].
  intros _ w Hw. apply contained_set_file, Hw.
Qed.

Lemma contained_for_each {X} (xs : list X) (body : X -> IO unit) :
  (forall x, contained (body x)) -> contained (for_each xs body).
Proof.
  intros Hbody. induction xs as [|x xs IH]; simpl.
  - apply contained_ret.
  - by apply contained_bind.
Qed.

Lemma contained_with_open {A} filename (body : IO A) :
  contained body -> contained (with_open filename body).
Proof.
  intros Hbody w Hw. unfold with_open.
  destruct (contained_open_w filename w Hw) as ([[] | e] & w1 & -> & Hw1 & H1);
    [| by exists (Raise e), w1].
  destruct (Hbody w1 Hw1) as ([a | e] & w2 & -> & Hw2 & H2);
    destruct (contained_attempt w2 Hw2) as ([[] | e'] & w3 & Hc & Hw3 & H3);
    unfold close; rewrite Hc.
  - exists (Ret a), w3. repeat split; [done |].
    eauto using no_failure_trans.
  - by exists (Raise e'), w3.
  - by exists (Raise e), w3.
  - by exists (Raise e'), w3.
Qed.

(** The shape shared by the three writers: the body, [return True]
    after it, [return False] in the handler. *)
Lemma write_or_false (body : IO unit) w :
  contained body -> io_failures_only w ->
  exists b w',
    try_except (body ≫= fun _ => mret true) (fun e => mret false) w
    = (Ret b, w')
    /\ (b = true -> no_failure_between w w').
Proof.
  intros Hbody Hw. unfold try_except.
  destruct (Hbody w Hw) as ([[] | e] & w' & Hrun & Hw' & Ho).
  - exists true, w'. by rewrite (bind_ret _ _ _ _ _ Hrun).
  - exists false, w'. rewrite (bind_raise _ _ _ _ _ Hrun), Ho. by split.
Qed.

Lemma dict_to_list_raises fieldnames rowdict e :
  Reddit.dict_to_list fieldnames rowdict = Raise e -> is_Exception e = true.
Proof.
  unfold Reddit.dict_to_list.
  destruct (filter _ _); intros H; by inversion H.
Qed.

Lemma contained_writerow filename fieldnames rowdict :
  contained (Reddit.writerow filename fieldnames rowdict).
Proof.
  apply contained_bind.
  - apply contained_lift, dict_to_list_raises.
  - intros row. apply contained_write.
Qed.

(** Claim C7.  Whatever the batch and the destination, and whichever
    file operations fail with an I/O error, the three writers
    ([save_to_csv] and [save_to_json] of the Reddit script, [save_to_csv]
    of the Times of India script) return a boolean and raise nothing;
    the boolean is [True] only when no operation failed. *)
Theorem C7_writers_never_raise (data : list pydict)
    (articles : list Toi.article) filename w :
  io_failures_only w ->
  (exists b w', Reddit.save_to_csv data filename w = (Ret b, w')
                /\ (b = true -> no_failure_between w w'))
  /\ (exists b w', Reddit.save_to_json data filename w = (Ret b, w')
                   /\ (b = true -> no_failure_between w w'))
  /\ (exists b w', ToiWriter.save_to_csv articles filename w = (Ret b, w')
                   /\ (b = true -> no_failure_between w w')).
Proof.
  intros Hw. repeat split.
  - destruct data as [|first rest].
    + by exists false, w.
    + apply write_or_false; [| done]. apply contained_with_open.
      apply contained_bind; [apply contained_write |].
      intros _. apply contained_for_each. intros r. apply contained_writerow.
  - destruct data as [|first rest].
    + by exists false, w.
    + apply write_or_false; [| done].
      apply contained_with_open, contained_write.
  - apply write_or_false; [| done]. apply contained_with_open.
    apply contained_bind; [apply contained_write |].
    intros _. apply contained_for_each. intros a. apply contained_write.
Qed.

Lemma C7_writers_never_raise_witness :
  (exists b w', Reddit.save_to_csv Samples.two_posts "posts.csv"
                  Samples.failing_disk = (Ret b, w')
                /\ (b = true -> no_failure_between Samples.failing_disk w'))
  /\ (exists b w', Reddit.save_to_json Samples.two_posts "posts.csv"
                     Samples.failing_disk = (Ret b, w')
                   /\ (b = true -> no_failure_between Samples.failing_disk w'))
  /\ (exists b w', ToiWriter.save_to_csv [Samples.tennis_article] "posts.csv"
                     Samples.failing_disk = (Ret b, w')
                   /\ (b = true -> no_failure_between Samples.failing_disk w')).
Proof.
  apply C7_writers_never_raise.
  repeat constructor; intros e [= <-]; reflexivity.
Defined.

(** On that disk the header cannot be written: all three writers
    return [False]. *)
Example writers_on_failing_disk :
  (Reddit.save_to_csv Samples.two_posts "posts.csv" Samples.failing_disk).1
  = Ret false
  /\ (Reddit.save_to_json Samples.two_posts "posts.json" Samples.failing_disk).1
     = Ret false
  /\ (ToiWriter.save_to_csv [Samples.tennis_article] "toi.csv"
        Samples.failing_disk).1 = Ret false.
Proof. repeat split; vm_compute; reflexivity. Qed.

End Containment.

(* ===================================================================== *)
(** ** What the writers write                                             *)
(* ===================================================================== *)

Section Written.
Implicit Types (w : World) (filename : string).

Lemma dict_to_list_ok fieldnames rowdict :
  keys rowdict ⊆ fieldnames ->
  Reddit.dict_to_list fieldnames rowdict
  = Ret ((fun key => dict_get key (PyStr "") rowdict) <$> fieldnames).
Proof.
  intros Hsub. unfold Reddit.dict_to_list.
  destruct (filter _ _) as [|k t] eqn:Hf; [done | exfalso].
  assert (Hk : k ∈ filter (fun k => k ∉ fieldnames) (keys rowdict))
    by (rewrite Hf; apply list_elem_of_here).
  apply list_elem_of_filter in Hk as [Hk Hin]. by apply Hk, Hsub.
Qed.

Lemma writerow_succeeds w filename fieldnames rowdict rows :
  keys rowdict ⊆ fieldnames ->
  io_succeeds w -> files w !! filename = Some rows ->
  succeeds_with (Reddit.writerow filename fieldnames rowdict) w tt
    (<[filename := rows ++ [csv_row_of fieldnames rowdict]]> (files w)).
Proof.
  intros Hsub Hok Hrows. unfold Reddit.writerow. eapply succeeds_bind.
  exists w. split; [| split; [done |]].
  - unfold lift. by rewrite (dict_to_list_ok _ _ Hsub).
  - cbv beta. rewrite <- list_fmap_compose. by apply write_succeeds.
Qed.

Lemma reddit_save_to_csv_written first rest filename w :
  io_succeeds w -> Forall (fun r => keys r ⊆ keys first) rest ->
  succeeds_with (Reddit.save_to_csv (first :: rest) filename) w true
    (<[filename := CsvRow (keys first)
                   :: (csv_row_of (keys first) <$> first :: rest)]> (files w)).
Proof.
  intros Hok Hkeys. cbn [Reddit.save_to_csv].
  apply try_except_succeeds. eapply succeeds_bind.
  destruct (with_open_succeeds
              (write filename (CsvRow (keys first)) ≫= fun _ =>
               for_each (first :: rest)
                 (Reddit.writerow filename (keys first)))
              w filename tt
              (<[filename := CsvRow (keys first)
                   :: (csv_row_of (keys first) <$> first :: rest)]> (files w))
              Hok) as (w' & Hrun & Hfs & Hok').
  - intros w1 Hok1 Hfs1. eapply succeeds_bind.
    destruct (write_succeeds w1 filename (CsvRow (keys first)) [] Hok1)
      as (w2 & Hw & Hfs2 & Hok2).
    { rewrite Hfs1. apply lookup_insert_eq. }
    exists w2. split; [done | split; [done |]].
    destruct (for_each_write_succeeds (first :: rest)
                (Reddit.writerow filename (keys first))
                (csv_row_of (keys first)) filename) with (w := w2)
                (rows := [CsvRow (keys first)])
      as (w3 & Hf & Hfs3 & Hok3).
    + intros r w0 rows Hr Hok0 Hrows. apply writerow_succeeds; [| done..].
      apply elem_of_cons in Hr as [-> | Hr]; [done |].
      by eapply Forall_forall in Hkeys.
    + done.
    + rewrite Hfs2. apply lookup_insert_eq.
    + exists w3. repeat split; [done | | done].
      by rewrite Hfs3, Hfs2, Hfs1, !insert_insert_eq.
  - exists w'. repeat split; [done | done |].
    by exists w'.
Qed.

Lemma toi_save_to_csv_written articles filename w :
  io_succeeds w ->
  succeeds_with (ToiWriter.save_to_csv articles filename) w true
    (<[filename := CsvRow ToiWriter.header
                   :: ((fun a => CsvRow (ToiWriter.row_of a)) <$> articles)]>
       (files w)).
Proof.
  intros Hok. unfold ToiWriter.save_to_csv.
  apply try_except_succeeds. eapply succeeds_bind.
  destruct (with_open_succeeds
              (write filename (CsvRow ToiWriter.header) ≫= fun _ =>
               for_each articles (fun article =>
                 write filename (CsvRow (ToiWriter.row_of article))))
              w filename tt
              (<[filename := CsvRow ToiWriter.header
                   :: ((fun a => CsvRow (ToiWriter.row_of a)) <$> articles)]>
                 (files w))
              Hok) as (w' & Hrun & Hfs & Hok').
  - intros w1 Hok1 Hfs1. eapply succeeds_bind.
    destruct (write_succeeds w1 filename (CsvRow ToiWriter.header) [] Hok1)
      as (w2 & Hw & Hfs2 & Hok2).
    { rewrite Hfs1. apply lookup_insert_eq. }
    exists w2. split; [done | split; [done |]].
    destruct (for_each_write_succeeds articles
                (fun article => write filename (CsvRow (ToiWriter.row_of article)))
                (fun a => CsvRow (ToiWriter.row_of a)) filename) with (w := w2)
                (rows := [CsvRow ToiWriter.header])
      as (w3 & Hf & Hfs3 & Hok3).
    + intros a w0 rows _ Hok0 Hrows. by apply write_succeeds.
    + done.
    + rewrite Hfs2. apply lookup_insert_eq.
    + exists w3. repeat split; [done | | done].
      by rewrite Hfs3, Hfs2, Hfs1, !insert_insert_eq.
  - exists w'. repeat split; [done | done |].
    by exists w'.
Qed.

(** Claim C1, as the code has it.  Given an empty batch, [save_to_csv]
    and [save_to_json] of the Reddit script return [False] and touch no
    file.  [save_to_csv] of the Times of India script has no such guard
    (its caller [main] returns before saving when nothing was scraped):
    given an empty batch and no I/O failure, it writes a file that holds
    the header row only and returns [True]. *)
Theorem C1_empty_batch_write :
  refuses_empty_batch Reddit.save_to_csv
  /\ refuses_empty_batch Reddit.save_to_json
  /\ (forall filename w, io_succeeds w ->
        exists w', ToiWriter.save_to_csv [] filename w = (Ret true, w')
                   /\ files w' = <[filename := [CsvRow ToiWriter.header]]> (files w)).
Proof.
  repeat split.
  - intros filename w. by exists w.
  - intros filename w. by exists w.
  - intros filename w Hok.
    destruct (toi_save_to_csv_written [] filename w Hok) as (w' & Hrun & Hfs & _).
    by exists w'.
Qed.

Lemma C1_empty_batch_write_witness :
  exists w', ToiWriter.save_to_csv [] "times_of_india_articles.csv"
               Samples.empty_disk = (Ret true, w')
             /\ files w' = <["times_of_india_articles.csv" :=
                              [CsvRow ToiWriter.header]]> (files Samples.empty_disk).
Proof.
  apply (proj2 (proj2 C1_empty_batch_write)). constructor.
Defined.

(** [save_to_csv] of the Times of India script, given no article on an
    empty disk, returns [True] and leaves a file behind. *)
Lemma C1_counterexample : ~ refuses_empty_batch ToiWriter.save_to_csv.
Proof.
  intros H.
  destruct (H "times_of_india_articles.csv" Samples.empty_disk)
    as (w' & Hrun & _).
  vm_compute in Hrun. discriminate Hrun.
Qed.

(** Claim C2, as the code has it.  When no I/O operation fails:
    [save_to_csv] of the Reddit script, given a non-empty batch in which
    no record has a field the first record lacks, writes the keys of the
    first record, in their order, as the header row, and after it one
    data row per record, in batch order; [save_to_csv] of the Times of
    India script writes the fixed header [Title, URL, Image_URL, Category,
    Source, Scraped_At], not the keys of a record, and after it one data
    row per record, in batch order. *)
Theorem C2_csv_header_and_rows :
  (forall first rest filename w,
      io_succeeds w -> Forall (fun r => keys r ⊆ keys first) rest ->
      exists w', Reddit.save_to_csv (first :: rest) filename w = (Ret true, w')
        /\ files w' = <[filename := CsvRow (keys first)
                          :: (csv_row_of (keys first) <$> first :: rest)]>
                        (files w))
  /\ (forall articles filename w,
        io_succeeds w ->
        exists w', ToiWriter.save_to_csv articles filename w = (Ret true, w')
          /\ files w' = <[filename := CsvRow ToiWriter.header
                            :: ((fun a => CsvRow (ToiWriter.row_of a)) <$> articles)]>
                          (files w)).
Proof.
  split.
  - intros first rest filename w Hok Hkeys.
    destruct (reddit_save_to_csv_written first rest filename w Hok Hkeys)
      as (w' & Hrun & Hfs & _).
    by exists w'.
  - intros articles filename w Hok.
    destruct (toi_save_to_csv_written articles filename w Hok)
      as (w' & Hrun & Hfs & _).
    by exists w'.
Qed.

Lemma C2_csv_header_and_rows_witness :
  exists w', Reddit.save_to_csv Samples.two_posts "posts.csv" Samples.empty_disk
             = (Ret true, w')
    /\ files w' = <["posts.csv" :=
                     [ CsvRow ["id"; "score"; "stickied"];
                       CsvRow ["a1"; "12"; "False"];
                       CsvRow ["b2"; "-3"; ""] ]]> (files Samples.empty_disk).
Proof.
  apply (proj1 C2_csv_header_and_rows
           [("id", PyStr "a1"); ("score", PyInt 12); ("stickied", PyBool false)]
           [[("id", PyStr "b2"); ("score", PyInt (-3))]]
           "posts.csv" Samples.empty_disk).
  - constructor.
  - constructor; [| constructor].
    apply (bool_decide_unpack _). vm_compute. reflexivity.
Defined.

(** The header the Times of India writer puts first is not the list of
    the keys of the record. *)
Lemma C2_counterexample :
  ~ (forall articles filename w w' rows,
       articles <> [] -> io_succeeds w ->
       ToiWriter.save_to_csv articles filename w = (Ret true, w') ->
       files w' !! filename = Some rows ->
       head rows = Some (CsvRow Toi.article_keys)).
Proof.
  intros H.
  specialize (H [Samples.tennis_article] "times_of_india_articles.csv"
                Samples.empty_disk
                (ToiWriter.save_to_csv [Samples.tennis_article]
                   "times_of_india_articles.csv" Samples.empty_disk).2
                [CsvRow ToiWriter.header;
                 CsvRow (ToiWriter.row_of Samples.tennis_article)]).
  discriminate H.
  - done.
  - constructor.
  - vm_compute. reflexivity.
  - vm_compute. reflexivity.
Qed.

End Written.

(* ===================================================================== *)
(** ** reddit_scraper_ready.py: the fetch methods                         *)
(* ===================================================================== *)

Section Fetch.
Import Reddit.
Implicit Types (api : Api) (s : submission) (g : gen submission).

Lemma created_time_raises api t e :
  created_time api t = Raise e -> is_Exception e = true.
Proof.
  unfold created_time. destruct (utc_datetime api t); intros H; by inversion H.
Qed.

Lemma post_data_mild api : mild (post_data api).
Proof.
  intros i s e. unfold post_data.
  destruct (created_time api (created_utc s)) eqn:Ht; simpl; intros H;
    inversion H; subst. by eapply created_time_raises.
Qed.

Lemma search_post_data_mild api query : mild (search_post_data api query).
Proof.
  intros i s e. unfold search_post_data.
  destruct (created_time api (created_utc s)) eqn:Ht; simpl; intros H;
    inversion H; subst. by eapply created_time_raises.
Qed.

Lemma user_post_data_mild api username : mild (user_post_data api username).
Proof.
  intros i s e. unfold user_post_data.
  destruct (created_time api (created_utc s)) eqn:Ht; simpl; intros H;
    inversion H; subst. by eapply created_time_raises.
Qed.

(** A listing that breaks makes the loop raise an [Exception]. *)
Lemma collect_posts_breaks build g posts e :
  mild build -> gen_error g = Some e -> is_Exception e = true ->
  exists e', collect_posts build g posts = Raise e' /\ is_Exception e' = true.
Proof.
  intros Hmild. revert posts.
  induction g as [| s rest IH | e0]; intros posts Herr He; simpl in *.
  - discriminate.
  - destruct (build (length posts) s) as [d | e1] eqn:Hb.
    + by apply IH.
    + exists e1. split; [done |]. by eapply Hmild.
  - injection Herr as ->. by exists e.
Qed.

Lemma caught_gives_empty (body : outcome (list pydict)) :
  (exists e, body = Raise e /\ is_Exception e = true) ->
  try_except_Exception body (fun e => Ret []) = Ret [].
Proof. intros (e & -> & He). unfold try_except_Exception. by rewrite He. Qed.

(** Claim C8.  When the source fails with an exception of class
    [Exception] (the listing breaks while it is read, the comments
    cannot be loaded, the page cannot be fetched, is answered with an
    error status or cannot be parsed), each of [get_subreddit_posts],
    [get_post_comments], [search_reddit], [get_user_posts] and
    [scrape_times_of_india] returns the empty list and raises nothing. *)
Theorem C8_adapter_failure_gives_empty_batch api (w : Toi.Web) (e e' : exn) :
  is_Exception e = true -> is_Exception e' = true ->
  (forall subreddit_name sort_type limit time_filter,
      gen_error (subreddit_listing api subreddit_name sort_type limit time_filter)
      = Some e ->
      get_subreddit_posts api subreddit_name sort_type limit time_filter = Ret [])
  /\ (forall post_id limit,
        submission_comments api post_id = Raise e ->
        get_post_comments api post_id limit = Ret [])
  /\ (forall query subreddit sort time_filter limit,
        gen_error (search_results api query subreddit sort time_filter limit)
        = Some e ->
        search_reddit api query subreddit sort time_filter limit = Ret [])
  /\ (forall username sort limit,
        gen_error (user_listing api username sort limit) = Some e ->
        get_user_posts api username sort limit = Ret [])
  /\ (Toi.requests_get w = Raise e' -> Toi.scrape_times_of_india w = Ret [])
  /\ (forall r, Toi.requests_get w = Ret r ->
                (400 <= Toi.status_code r < 600)%Z ->
                Toi.scrape_times_of_india w = Ret [])
  /\ (forall r, Toi.requests_get w = Ret r ->
                Toi.find_all_a w (Toi.text r) = Raise e' ->
                Toi.scrape_times_of_india w = Ret []).
Proof.
  intros He He'. repeat split.
  - intros name sort_type limit tf Herr. apply caught_gives_empty.
    by apply (collect_posts_breaks _ _ _ e); [apply post_data_mild | |].
  - intros post_id limit Hfail. unfold get_post_comments.
    rewrite Hfail. simpl. by rewrite He.
  - intros query subreddit sort tf limit Herr. apply caught_gives_empty.
    by apply (collect_posts_breaks _ _ _ e); [apply search_post_data_mild | |].
  - intros username sort limit Herr. apply caught_gives_empty.
    by apply (collect_posts_breaks _ _ _ e); [apply user_post_data_mild | |].
  - intros Hget. unfold Toi.scrape_times_of_india, Toi.scrape_body.
    rewrite Hget. simpl. rewrite He'. by destruct (is_RequestException e').
  - intros r Hget [Hlo Hhi].
    unfold Toi.scrape_times_of_india, Toi.scrape_body, Toi.raise_for_status.
    rewrite Hget. simpl.
    apply Z.leb_le in Hlo. apply Z.ltb_lt in Hhi. by rewrite Hlo, Hhi.
  - intros r Hget Hparse.
    unfold Toi.scrape_times_of_india, Toi.scrape_body.
    rewrite Hget. simpl.
    destruct (Toi.raise_for_status r) as [[] | e0] eqn:Hst; simpl.
    + rewrite Hparse. simpl. rewrite He'. by destruct (is_RequestException e').
    + unfold Toi.raise_for_status in Hst.
      destruct (_ && _); inversion Hst. done.
Qed.

Lemma C8_adapter_failure_gives_empty_batch_witness :
  get_subreddit_posts Samples.broken_api "python" "hot" 25 "all" = Ret []
  /\ get_post_comments Samples.broken_api "a1" 50 = Ret []
  /\ search_reddit Samples.broken_api "rocq" None "relevance" "all" 25 = Ret []
  /\ get_user_posts Samples.broken_api "spez" "new" 25 = Ret []
  /\ Toi.scrape_times_of_india Samples.unreachable = Ret [].
Proof.
  destruct (C8_adapter_failure_gives_empty_batch Samples.broken_api
              Samples.unreachable PrawcoreException RequestsConnectionError
              eq_refl eq_refl)
    as (Hposts & Hcomments & Hsearch & Huser & Hget & _ & _).
  refine (conj (Hposts "python" "hot" 25 "all" _)
           (conj (Hcomments "a1" 50 _)
              (conj (Hsearch "rocq" None "relevance" "all" 25 _)
                 (conj (Huser "spez" "new" 25 _) (Hget _)))));
    reflexivity.
Defined.

Lemma eqb_other (x y : string) : x <> y -> String.eqb x y = false.
Proof. apply String.eqb_neq. Qed.

Lemma unknown_sort_reads_hot api subreddit_name sort_type limit time_filter :
  sort_type ∉ ["hot"; "new"; "rising"; "top"; "controversial"] ->
  subreddit_listing api subreddit_name sort_type limit time_filter
  = subreddit_hot api subreddit_name limit.
Proof.
  intros Hnot. unfold subreddit_listing.
  rewrite !eqb_other; [done | intros ->; apply Hnot ..].
  all: repeat (first [apply list_elem_of_here | apply list_elem_of_further]).
Qed.

Lemma unknown_sort_reads_new api username sort limit :
  sort ∉ ["hot"; "new"; "top"; "controversial"] ->
  user_listing api username sort limit = redditor_new api username limit.
Proof.
  intros Hnot. unfold user_listing.
  rewrite !eqb_other; [done | intros ->; apply Hnot ..].
  all: repeat (first [apply list_elem_of_here | apply list_elem_of_further]).
Qed.

Lemma str_take_all_or_cap cap t :
  (cap <= String.length t)%nat ->
  String.length (str_take cap t) = cap /\ begins_with t (str_take cap t).
Proof. intros H. split; [by apply str_take_length | apply str_take_prefix]. Qed.

Lemma truncate_selftext_long cap t :
  (0 < cap <= String.length t)%nat ->
  truncate_selftext cap (Some t) = str_take cap t.
Proof. intros [Hpos Hlen]. destruct t; simpl in *; [lia | done]. Qed.

(** Claim C6.  When the creation time of a raw item can be formatted,
    the three builders return a record that has a [selftext] field.  If
    the item's text has at least 500 characters (300 for search results
    and user posts), the field is the text's first 500 (300) characters:
    a string of exactly that length that the text begins with.  If the
    text is empty or absent, the field is the empty string. *)
Theorem C6_selftext_truncated api i s query username formatted :
  utc_datetime api (created_utc s) = Some formatted ->
  exists post found user_post,
    post_data api i s = Ret post
    /\ search_post_data api query i s = Ret found
    /\ user_post_data api username i s = Ret user_post
    /\ "selftext" ∈ keys post /\ "selftext" ∈ keys found
    /\ "selftext" ∈ keys user_post
    /\ (forall t, selftext s = Some t -> (500 <= String.length t)%nat ->
          dict_get "selftext" PyNone post = PyStr (str_take 500 t)
          /\ String.length (str_take 500 t) = 500%nat
          /\ begins_with t (str_take 500 t))
    /\ (forall t, selftext s = Some t -> (300 <= String.length t)%nat ->
          dict_get "selftext" PyNone found = PyStr (str_take 300 t)
          /\ dict_get "selftext" PyNone user_post = PyStr (str_take 300 t)
          /\ String.length (str_take 300 t) = 300%nat
          /\ begins_with t (str_take 300 t))
    /\ (selftext s = None \/ selftext s = Some "" ->
          dict_get "selftext" PyNone post = PyStr ""
          /\ dict_get "selftext" PyNone found = PyStr ""
          /\ dict_get "selftext" PyNone user_post = PyStr "").
Proof.
  intros Ht. unfold post_data, search_post_data, user_post_data, created_time.
  rewrite Ht. do 3 eexists.
  split; [reflexivity |]. split; [reflexivity |]. split; [reflexivity |].
  split; [apply (bool_decide_unpack _); vm_compute; reflexivity |].
  split; [apply (bool_decide_unpack _); vm_compute; reflexivity |].
  split; [apply (bool_decide_unpack _); vm_compute; reflexivity |].
  cbn [dict_get String.eqb Ascii.eqb Bool.eqb].
  split; [| split].
  - intros t -> Hlen. rewrite truncate_selftext_long by lia.
    split; [done |]. by apply str_take_all_or_cap.
  - intros t -> Hlen. rewrite truncate_selftext_long by lia.
    split; [done |]. split; [done |]. by apply str_take_all_or_cap.
  - by intros [-> | ->].
Qed.

Lemma C6_selftext_truncated_witness :
  exists post,
    post_data Samples.quiet_api 0 Samples.long_post = Ret post
    /\ dict_get "selftext" PyNone post = PyStr (Samples.repeat_char 500 "x").
Proof.
  destruct (C6_selftext_truncated Samples.quiet_api 0 Samples.long_post
              "rocq" "spez" "2023-11-14 22:13:20" eq_refl)
    as (post & found & user_post & Hpost & _ & _ & _ & _ & _ & Hlong & _).
  exists post. split; [exact Hpost |].
  destruct (Hlong (Samples.repeat_char 1000 "x") eq_refl) as [Hfield _].
  - apply Nat.leb_le. vm_compute. reflexivity.
  - rewrite Hfield. vm_compute. reflexivity.
Defined.

(** The text of 1000 characters arrives with 500 of them. *)
Example long_post_fetched :
  match get_subreddit_posts Samples.quiet_api "python" "hot" 25 "all" with
  | Ret [post] =>
      match dict_get "selftext" PyNone post with
      | PyStr text => String.length text
      | _ => 0%nat
      end
  | _ => 0%nat
  end = 500%nat.
Proof. vm_compute. reflexivity. Qed.

End Fetch.

(* ===================================================================== *)
(** ** reddit_scraper_ready.py: what a fetch returns                      *)
(* ===================================================================== *)

Section Fetched.
Import Reddit.
Implicit Types (api : Api) (s : submission) (g : gen submission)
  (build : nat -> submission -> outcome pydict).

Lemma collect_posts_all build g acc :
  gen_error g = None ->
  (forall i s, gen_items g !! i = Some s ->
     exists d, build (length acc + i)%nat s = Ret d) ->
  exists ds, collect_posts build g acc = Ret (acc ++ ds)
    /\ length ds = length (gen_items g)
    /\ forall i s, gen_items g !! i = Some s ->
         exists d, build (length acc + i)%nat s = Ret d /\ ds !! i = Some d.
Proof.
  revert acc. induction g as [| s0 rest IH | e]; intros acc Herr Hbuild.
  - exists []. rewrite app_nil_r. repeat split. intros i s Hi. discriminate.
  - cbn [gen_error gen_items collect_posts] in *.
    destruct (Hbuild 0%nat s0 eq_refl) as [d0 Hd0].
    rewrite Nat.add_0_r in Hd0. rewrite Hd0.
    destruct (IH (acc ++ [d0]) Herr) as (ds & Hrun & Hlen & Hds).
    { intros i s Hi. rewrite length_app. cbn [length].
      replace (length acc + 1 + i)%nat with (length acc + S i)%nat by lia.
      by apply Hbuild. }
    exists (d0 :: ds). rewrite Hrun, <- app_assoc. repeat split.
    + cbn [length]. by rewrite Hlen.
    + intros [|i] s Hi.
      * injection Hi as <-. exists d0. by rewrite Nat.add_0_r.
      * destruct (Hds i s Hi) as (d & Hd & Hlook). exists d. split; [| done].
        rewrite length_app in Hd. cbn [length] in Hd.
        by replace (length acc + S i)%nat with (length acc + 1 + i)%nat by lia.
  - discriminate.
Qed.

Lemma fetch_in_order build g :
  gen_error g = None ->
  (forall i s, gen_items g !! i = Some s -> exists d, build i s = Ret d) ->
  fetched_in_order build g
    (try_except_Exception (collect_posts build g []) (fun e => Ret [])).
Proof.
  intros Herr Hbuild.
  destruct (collect_posts_all build g [] Herr Hbuild) as (ds & -> & Hlen & Hds).
  by exists ds.
Qed.

Lemma created_time_in_range api s :
  is_Some (utc_datetime api (created_utc s)) ->
  exists formatted, created_time api (created_utc s) = Ret formatted.
Proof. intros [formatted H]. exists formatted. unfold created_time. by rewrite H. Qed.

Lemma builders_succeed api g :
  timestamps_in_range api g ->
  forall i s, gen_items g !! i = Some s ->
    (exists d, post_data api i s = Ret d)
    /\ (forall query, exists d, search_post_data api query i s = Ret d)
    /\ (forall username, exists d, user_post_data api username i s = Ret d).
Proof.
  intros Hrange i s Hi.
  assert (Hs : is_Some (utc_datetime api (created_utc s))).
  { eapply Forall_forall in Hrange; [done |]. by eapply list_elem_of_lookup_2. }
  destruct (created_time_in_range _ _ Hs) as [formatted Hf].
  unfold post_data, search_post_data, user_post_data. rewrite Hf.
  split; [| split]; intros; eexists; reflexivity.
Qed.

(** X1.  When the listing read by [get_subreddit_posts], [search_reddit]
    or [get_user_posts] ends without breaking and every creation time can
    be formatted, the method returns exactly one record per item, in the
    order of the listing, the i-th record built from the i-th item. *)
Theorem fetch_returns_one_record_per_item api :
  (forall subreddit_name sort_type limit time_filter,
      let g := subreddit_listing api subreddit_name sort_type limit time_filter in
      gen_error g = None -> timestamps_in_range api g ->
      fetched_in_order (post_data api) g
        (get_subreddit_posts api subreddit_name sort_type limit time_filter))
  /\ (forall query subreddit sort time_filter limit,
        let g := search_results api query subreddit sort time_filter limit in
        gen_error g = None -> timestamps_in_range api g ->
        fetched_in_order (search_post_data api query) g
          (search_reddit api query subreddit sort time_filter limit))
  /\ (forall username sort limit,
        let g := user_listing api username sort limit in
        gen_error g = None -> timestamps_in_range api g ->
        fetched_in_order (user_post_data api username) g
          (get_user_posts api username sort limit)).
Proof.
  split; [| split]; intros; apply fetch_in_order; try done;
    intros i s Hi; by eapply builders_succeed.
Qed.

Lemma fetch_returns_one_record_per_item_witness :
  fetched_in_order (post_data Samples.quiet_api)
    (subreddit_listing Samples.quiet_api "python" "hot" 25 "all")
    (get_subreddit_posts Samples.quiet_api "python" "hot" 25 "all").
Proof.
  apply (proj1 (fetch_returns_one_record_per_item Samples.quiet_api)).
  - reflexivity.
  - repeat constructor. by eexists.
Defined.

End Fetched.

Section UnknownSort.
Import Reddit.
Implicit Types (api : Api).

(** Claim C9.  A [sort_type] that is none of hot, new, rising, top and
    controversial does not make [get_subreddit_posts] fail: the method
    reads the hot listing of the subreddit.  It returns what it returns
    for ['hot']; when that listing ends without breaking (and the creation
    times can be formatted) it returns one record per item of the hot
    listing, in order; when that listing breaks it returns the empty list.
    In the same way a [sort] that is none of hot, new, top and
    controversial makes [get_user_posts] read the new listing of the
    user. *)
Theorem C9_unknown_sort_falls_back api subreddit_name username sort_type
    limit time_filter :
  (sort_type ∉ ["hot"; "new"; "rising"; "top"; "controversial"] ->
   let hot := subreddit_hot api subreddit_name limit in
   subreddit_listing api subreddit_name sort_type limit time_filter = hot
   /\ get_subreddit_posts api subreddit_name sort_type limit time_filter
      = get_subreddit_posts api subreddit_name "hot" limit time_filter
   /\ (gen_error hot = None -> timestamps_in_range api hot ->
       fetched_in_order (post_data api) hot
         (get_subreddit_posts api subreddit_name sort_type limit time_filter))
   /\ (forall e, gen_error hot = Some e -> is_Exception e = true ->
         get_subreddit_posts api subreddit_name sort_type limit time_filter
         = Ret []))
  /\ (sort_type ∉ ["hot"; "new"; "top"; "controversial"] ->
      let new := redditor_new api username limit in
      user_listing api username sort_type limit = new
      /\ get_user_posts api username sort_type limit
         = get_user_posts api username "new" limit
      /\ (gen_error new = None -> timestamps_in_range api new ->
          fetched_in_order (user_post_data api username) new
            (get_user_posts api username sort_type limit))
      /\ (forall e, gen_error new = Some e -> is_Exception e = true ->
            get_user_posts api username sort_type limit = Ret [])).
Proof.
  split; intros Hnot.
  - pose proof (unknown_sort_reads_hot api subreddit_name sort_type limit
                  time_filter Hnot) as Hl.
    intros hot. split; [exact Hl |]. unfold get_subreddit_posts. rewrite Hl.
    split; [done |]. split.
    + intros Herr Hrange. apply fetch_in_order; [done |].
      intros i s Hi. by eapply builders_succeed.
    + intros e Herr He. apply caught_gives_empty.
      by apply (collect_posts_breaks _ _ _ e); [apply post_data_mild | |].
  - pose proof (unknown_sort_reads_new api username sort_type limit Hnot) as Hl.
    intros new. split; [exact Hl |]. unfold get_user_posts. rewrite Hl.
    split; [done |]. split.
    + intros Herr Hrange. apply fetch_in_order; [done |].
      intros i s Hi. by eapply builders_succeed.
    + intros e Herr He. apply caught_gives_empty.
      by apply (collect_posts_breaks _ _ _ e); [apply user_post_data_mild | |].
Qed.

Lemma C9_unknown_sort_falls_back_witness :
  fetched_in_order (post_data Samples.quiet_api)
    (subreddit_hot Samples.quiet_api "python" 25)
    (get_subreddit_posts Samples.quiet_api "python" "best" 25 "all")
  /\ get_subreddit_posts Samples.quiet_api "python" "best" 25 "all"
     = get_subreddit_posts Samples.quiet_api "python" "hot" 25 "all"
  /\ fetched_in_order (user_post_data Samples.quiet_api "spez")
       (redditor_new Samples.quiet_api "spez" 25)
       (get_user_posts Samples.quiet_api "spez" "best" 25)
  /\ get_user_posts Samples.quiet_api "spez" "best" 25
     = get_user_posts Samples.quiet_api "spez" "new" 25.
Proof.
  destruct (C9_unknown_sort_falls_back Samples.quiet_api "python" "spez"
              "best" 25 "all") as [Hposts Huser].
  assert (Hbest1 : "best" ∉ ["hot"; "new"; "rising"; "top"; "controversial"])
    by (apply (bool_decide_unpack _); vm_compute; reflexivity).
  assert (Hbest2 : "best" ∉ ["hot"; "new"; "top"; "controversial"])
    by (apply (bool_decide_unpack _); vm_compute; reflexivity).
  destruct (Hposts Hbest1) as (_ & Hsame1 & Hhot & _).
  destruct (Huser Hbest2) as (_ & Hsame2 & Hnew & _).
  refine (conj (Hhot eq_refl _) (conj Hsame1 (conj (Hnew eq_refl _) Hsame2)));
    repeat constructor; by eexists.
Defined.

(** An unknown sort on a listing with one post: the post is returned. *)
Example unknown_sort_returns_the_hot_post :
  match get_subreddit_posts Samples.quiet_api "python" "best" 25 "all" with
  | Ret [post] => dict_get "id" PyNone post
  | _ => PyNone
  end = PyStr "a1".
Proof. vm_compute. reflexivity. Qed.

End UnknownSort.

Section Discarded.
Import Reddit.
Implicit Types (api : Api) (s : submission) (g : gen submission)
  (build : nat -> submission -> outcome pydict).

Lemma collect_posts_bad_item build g acc s :
  mild build -> s ∈ gen_items g -> (forall i, exists e, build i s = Raise e) ->
  exists e, collect_posts build g acc = Raise e /\ is_Exception e = true.
Proof.
  intros Hmild Hin Hbad. revert acc.
  induction g as [| s0 rest IH | e0]; intros acc; cbn [gen_items] in Hin.
  - by apply elem_of_nil in Hin.
  - cbn [collect_posts].
    destruct (build (length acc) s0) as [d | e1] eqn:Hb.
    + apply elem_of_cons in Hin as [-> | Hin]; [| by apply IH].
      destruct (Hbad (length acc)) as [e He]. congruence.
    + exists e1. split; [done |]. by eapply Hmild.
  - by apply elem_of_nil in Hin.
Qed.

Lemma created_time_out_of_range api t :
  utc_datetime api t = None -> created_time api t = Raise OverflowError.
Proof. intros H. unfold created_time. by rewrite H. Qed.

Lemma collect_comments_bad_item api post_id items acc c :
  IsComment c ∈ items -> utc_datetime api (c_created_utc c) = None ->
  exists e, collect_comments api post_id items acc = Raise e
            /\ is_Exception e = true.
Proof.
  intros Hin Hbad. revert acc.
  induction items as [| item rest IH]; intros acc.
  - by apply elem_of_nil in Hin.
  - cbn [collect_comments]. destruct item as [c0 |].
    + destruct (comment_data api post_id (length acc) c0) as [d | e1] eqn:Hb.
      * apply elem_of_cons in Hin as [Heq | Hin]; [| by apply IH].
        injection Heq as ->. unfold comment_data in Hb.
        by rewrite (created_time_out_of_range _ _ Hbad) in Hb.
      * exists e1. split; [done |]. unfold comment_data in Hb.
        destruct (created_time api (c_created_utc c0)) eqn:Ht; simpl in Hb;
          inversion Hb; subst. by eapply created_time_raises.
    + apply elem_of_cons in Hin as [Heq | Hin]; [done | by apply IH].
Qed.

(** X2.  One item whose creation time cannot be formatted costs the
    whole batch: [get_subreddit_posts], [search_reddit], [get_user_posts]
    and [get_post_comments] return the empty list as soon as the listing
    (the slice of comments) holds such an item, whatever the records built
    before it. *)
Theorem one_bad_timestamp_loses_the_batch api :
  (forall s subreddit_name sort_type limit time_filter,
      utc_datetime api (created_utc s) = None ->
      s ∈ gen_items (subreddit_listing api subreddit_name sort_type limit time_filter) ->
      get_subreddit_posts api subreddit_name sort_type limit time_filter = Ret [])
  /\ (forall s query subreddit sort time_filter limit,
        utc_datetime api (created_utc s) = None ->
        s ∈ gen_items (search_results api query subreddit sort time_filter limit) ->
        search_reddit api query subreddit sort time_filter limit = Ret [])
  /\ (forall s username sort limit,
        utc_datetime api (created_utc s) = None ->
        s ∈ gen_items (user_listing api username sort limit) ->
        get_user_posts api username sort limit = Ret [])
  /\ (forall c post_id limit items,
        utc_datetime api (c_created_utc c) = None ->
        submission_comments api post_id = Ret items ->
        IsComment c ∈ slice_to limit items ->
        get_post_comments api post_id limit = Ret []).
Proof.
  split; [| split; [| split]].
  - intros s name sort_type limit tf Hbad Hin. apply caught_gives_empty.
    apply (collect_posts_bad_item _ _ _ s); [apply post_data_mild | done |].
    intros i. eexists. unfold post_data.
    by rewrite (created_time_out_of_range _ _ Hbad).
  - intros s query subreddit sort tf limit Hbad Hin. apply caught_gives_empty.
    apply (collect_posts_bad_item _ _ _ s); [apply search_post_data_mild | done |].
    intros i. eexists. unfold search_post_data.
    by rewrite (created_time_out_of_range _ _ Hbad).
  - intros s username sort limit Hbad Hin. apply caught_gives_empty.
    apply (collect_posts_bad_item _ _ _ s); [apply user_post_data_mild | done |].
    intros i. eexists. unfold user_post_data.
    by rewrite (created_time_out_of_range _ _ Hbad).
  - intros c post_id limit items Hbad Hload Hin. unfold get_post_comments.
    rewrite Hload. apply caught_gives_empty.
    by apply (collect_comments_bad_item _ _ _ _ c).
Qed.

Lemma one_bad_timestamp_loses_the_batch_witness :
  get_subreddit_posts Samples2.dated_api "python" "hot" 25 "all" = Ret [].
Proof.
  apply (proj1 (one_bad_timestamp_loses_the_batch Samples2.dated_api)
           Samples2.undated_post).
  - reflexivity.
  - apply list_elem_of_further, list_elem_of_here.
Defined.

End Discarded.

Section Schema.
Import Reddit.
Implicit Types (api : Api) (s : submission) (g : gen submission)
  (build : nat -> submission -> outcome pydict) (P : pydict -> Prop).

Lemma collect_posts_Forall P build g acc posts :
  (forall i s d, build i s = Ret d -> P d) -> Forall P acc ->
  collect_posts build g acc = Ret posts -> Forall P posts.
Proof.
  intros Hbuild. revert acc.
  induction g as [| s0 rest IH | e]; intros acc Hacc; cbn [collect_posts].
  - by intros [= <-].
  - destruct (build (length acc) s0) as [d | e] eqn:Hb; [| done].
    apply IH. apply Forall_app. split; [done |].
    constructor; [by eapply Hbuild | constructor].
  - done.
Qed.

Lemma collect_comments_Forall P api post_id items acc comments :
  (forall i c d, comment_data api post_id i c = Ret d -> P d) -> Forall P acc ->
  collect_comments api post_id items acc = Ret comments -> Forall P comments.
Proof.
  intros Hbuild. revert acc.
  induction items as [| item rest IH]; intros acc Hacc; cbn [collect_comments].
  - by intros [= <-].
  - destruct item as [c |]; [| by apply IH].
    destruct (comment_data api post_id (length acc) c) as [d | e] eqn:Hb; [| done].
    apply IH. apply Forall_app. split; [done |].
    constructor; [by eapply Hbuild | constructor].
Qed.

(** What [try ... except Exception: return []] returns holds whatever the
    body returns, or nothing. *)
Lemma caught_Forall P (body : outcome (list pydict)) result :
  (forall posts, body = Ret posts -> Forall P posts) ->
  try_except_Exception body (fun e => Ret []) = Ret result -> Forall P result.
Proof.
  intros Hbody. unfold try_except_Exception. destruct body as [posts | e].
  - intros [= <-]. by apply Hbody.
  - destruct (is_Exception e); [| done]. intros [= <-]. constructor.
Qed.

Lemma post_data_built P api i s d :
  (forall formatted, P
     [ ("id", PyStr (id_ s)); ("title", PyStr (title s));
       ("author", PyStr (author_or_deleted (author s)));
       ("subreddit", PyStr (subreddit_display_name s));
       ("score", PyInt (score s)); ("upvote_ratio", PyFloat (upvote_ratio s));
       ("num_comments", PyInt (num_comments s));
       ("created_utc", PyFloat (created_utc s));
       ("created_datetime", PyStr formatted); ("url", PyStr (url s));
       ("permalink", PyStr ("https://reddit.com" +:+ permalink s));
       ("is_self", PyBool (is_self s));
       ("selftext", PyStr (truncate_selftext 500 (selftext s)));
       ("flair", PyStr (or_empty (link_flair_text s)));
       ("distinguished", PyStr (or_empty (distinguished s)));
       ("stickied", PyBool (stickied s)); ("spoiler", PyBool (spoiler s));
       ("nsfw", PyBool (over_18 s)); ("gilded", PyInt (gilded s));
       ("domain", PyStr (domain s)); ("scraped_at", PyStr (now api i)) ]) ->
  post_data api i s = Ret d -> P d.
Proof.
  intros HP. unfold post_data.
  destruct (created_time api (created_utc s)) as [formatted | e]; [| done].
  intros [= <-]. apply HP.
Qed.

Lemma search_post_data_built P api query i s d :
  (forall formatted, P
     [ ("id", PyStr (id_ s)); ("title", PyStr (title s));
       ("author", PyStr (author_or_deleted (author s)));
       ("subreddit", PyStr (subreddit_display_name s));
       ("score", PyInt (score s)); ("num_comments", PyInt (num_comments s));
       ("created_datetime", PyStr formatted); ("url", PyStr (url s));
       ("permalink", PyStr ("https://reddit.com" +:+ permalink s));
       ("selftext", PyStr (truncate_selftext 300 (selftext s)));
       ("search_query", PyStr query); ("scraped_at", PyStr (now api i)) ]) ->
  search_post_data api query i s = Ret d -> P d.
Proof.
  intros HP. unfold search_post_data.
  destruct (created_time api (created_utc s)) as [formatted | e]; [| done].
  intros [= <-]. apply HP.
Qed.

Lemma user_post_data_built P api username i s d :
  (forall formatted, P
     [ ("id", PyStr (id_ s)); ("title", PyStr (title s));
       ("author", PyStr username);
       ("subreddit", PyStr (subreddit_display_name s));
       ("score", PyInt (score s)); ("num_comments", PyInt (num_comments s));
       ("created_datetime", PyStr formatted); ("url", PyStr (url s));
       ("permalink", PyStr ("https://reddit.com" +:+ permalink s));
       ("selftext", PyStr (truncate_selftext 300 (selftext s)));
       ("scraped_at", PyStr (now api i)) ]) ->
  user_post_data api username i s = Ret d -> P d.
Proof.
  intros HP. unfold user_post_data.
  destruct (created_time api (created_utc s)) as [formatted | e]; [| done].
  intros [= <-]. apply HP.
Qed.

Lemma comment_data_built P api post_id i c d :
  (forall formatted, P
     [ ("comment_id", PyStr (c_id c)); ("post_id", PyStr post_id);
       ("author", PyStr (author_or_deleted (c_author c)));
       ("body", PyStr (c_body c)); ("score", PyInt (c_score c));
       ("created_utc", PyFloat (c_created_utc c));
       ("created_datetime", PyStr formatted);
       ("is_submitter", PyBool (c_is_submitter c));
       ("distinguished", PyStr (or_empty (c_distinguished c)));
       ("gilded", PyInt (c_gilded c));
       ("permalink", PyStr ("https://reddit.com" +:+ c_permalink c));
       ("scraped_at", PyStr (now api i)) ]) ->
  comment_data api post_id i c = Ret d -> P d.
Proof.
  intros HP. unfold comment_data.
  destruct (created_time api (c_created_utc c)) as [formatted | e]; [| done].
  intros [= <-]. apply HP.
Qed.

Lemma get_subreddit_posts_Forall P api subreddit_name sort_type limit
    time_filter posts :
  (forall i s d, post_data api i s = Ret d -> P d) ->
  get_subreddit_posts api subreddit_name sort_type limit time_filter = Ret posts ->
  Forall P posts.
Proof.
  intros HP. apply caught_Forall. intros ds.
  by apply collect_posts_Forall.
Qed.

Lemma search_reddit_Forall P api query subreddit sort time_filter limit posts :
  (forall i s d, search_post_data api query i s = Ret d -> P d) ->
  search_reddit api query subreddit sort time_filter limit = Ret posts ->
  Forall P posts.
Proof.
  intros HP. apply caught_Forall. intros ds.
  by apply collect_posts_Forall.
Qed.

Lemma get_user_posts_Forall P api username sort limit posts :
  (forall i s d, user_post_data api username i s = Ret d -> P d) ->
  get_user_posts api username sort limit = Ret posts ->
  Forall P posts.
Proof.
  intros HP. apply caught_Forall. intros ds.
  by apply collect_posts_Forall.
Qed.

Lemma get_post_comments_Forall P api post_id limit comments :
  (forall i c d, comment_data api post_id i c = Ret d -> P d) ->
  get_post_comments api post_id limit = Ret comments ->
  Forall P comments.
Proof.
  intros HP. apply caught_Forall. intros ds.
  destruct (submission_comments api post_id) as [items | e]; [| done].
  by apply collect_comments_Forall.
Qed.

(** X3.  Whatever the source returns, the records of one batch have one
    and the same list of fields: the 21 fields of a post for
    [get_subreddit_posts], 12 for [search_reddit], 11 for [get_user_posts]
    and 12 for [get_post_comments], absent optional values included. *)
Theorem fetched_records_have_fixed_fields api :
  (forall subreddit_name sort_type limit time_filter posts,
      get_subreddit_posts api subreddit_name sort_type limit time_filter
      = Ret posts ->
      Forall (fun d => keys d = post_fields) posts)
  /\ (forall query subreddit sort time_filter limit posts,
        search_reddit api query subreddit sort time_filter limit = Ret posts ->
        Forall (fun d => keys d = search_fields) posts)
  /\ (forall username sort limit posts,
        get_user_posts api username sort limit = Ret posts ->
        Forall (fun d => keys d = user_fields) posts)
  /\ (forall post_id limit comments,
        get_post_comments api post_id limit = Ret comments ->
        Forall (fun d => keys d = comment_fields) comments).
Proof.
  split; [| split; [| split]].
  - intros name sort_type limit tf posts. apply get_subreddit_posts_Forall.
    intros i s d. by apply (post_data_built (fun d => keys d = post_fields)).
  - intros query subreddit sort tf limit posts. apply search_reddit_Forall.
    intros i s d.
    by apply (search_post_data_built (fun d => keys d = search_fields)).
  - intros username sort limit posts. apply get_user_posts_Forall.
    intros i s d.
    by apply (user_post_data_built (fun d => keys d = user_fields)).
  - intros post_id limit comments. apply get_post_comments_Forall.
    intros i c d.
    by apply (comment_data_built (fun d => keys d = comment_fields)).
Qed.

Lemma fetched_records_have_fixed_fields_witness :
  exists posts,
    get_subreddit_posts Samples.quiet_api "python" "hot" 25 "all" = Ret posts
    /\ posts <> [] /\ Forall (fun d => keys d = post_fields) posts.
Proof.
  destruct (get_subreddit_posts Samples.quiet_api "python" "hot" 25 "all")
    as [posts | e] eqn:Hrun; [| discriminate Hrun].
  exists posts. split; [done |]. split.
  - intros ->. vm_compute in Hrun. discriminate Hrun.
  - by apply (proj1 (fetched_records_have_fixed_fields Samples.quiet_api)
                "python" "hot" 25 "all").
Defined.

(** X4.  [get_user_posts] labels every record with the user name it was
    asked for, whatever author the submission carries. *)
Theorem user_posts_carry_the_requested_name api username sort limit posts :
  get_user_posts api username sort limit = Ret posts ->
  Forall (fun d => dict_get "author" PyNone d = PyStr username) posts.
Proof.
  apply get_user_posts_Forall. intros i s d.
  by apply (user_post_data_built
              (fun d => dict_get "author" PyNone d = PyStr username)).
Qed.

Lemma user_posts_carry_the_requested_name_witness :
  exists posts,
    get_user_posts Samples.quiet_api "spez" "new" 25 = Ret posts
    /\ posts <> []
    /\ Forall (fun d => dict_get "author" PyNone d = PyStr "spez") posts.
Proof.
  destruct (get_user_posts Samples.quiet_api "spez" "new" 25)
    as [posts | e] eqn:Hrun; [| discriminate Hrun].
  exists posts. split; [done |]. split.
  - intros ->. vm_compute in Hrun. discriminate Hrun.
  - by apply (user_posts_carry_the_requested_name Samples.quiet_api
                "spez" "new" 25).
Defined.

End Schema.

Section FetchedThenSaved.
Import Reddit.
Implicit Types (api : Api) (w : World) (filename : string).

Lemma uniform_batch_saved fields (data : list pydict) filename w :
  data <> [] -> Forall (fun d => keys d = fields) data -> io_succeeds w ->
  exists w', save_to_csv data filename w = (Ret true, w')
    /\ files w' = <[filename := CsvRow fields :: (csv_row_of fields <$> data)]>
                    (files w).
Proof.
  intros Hne Hkeys Hok. destruct data as [| first rest]; [done |].
  apply Forall_cons in Hkeys as [<- Hrest].
  destruct (reddit_save_to_csv_written first rest filename w Hok)
    as (w' & Hrun & Hfs & _).
  - eapply Forall_impl; [exact Hrest |]. by intros d ->.
  - by exists w'.
Qed.

(** X5.  A non-empty batch returned by one of the four fetch methods can
    always be written by [save_to_csv]: no record has a field the header
    lacks, so with no I/O failure the writer returns [True] and the file
    holds the header of that kind of record and one row per record. *)
Theorem fetched_batch_is_saved api filename w :
  io_succeeds w ->
  (forall subreddit_name sort_type limit time_filter posts,
      get_subreddit_posts api subreddit_name sort_type limit time_filter
      = Ret posts -> posts <> [] ->
      exists w', save_to_csv posts filename w = (Ret true, w')
        /\ files w' = <[filename := CsvRow post_fields
                          :: (csv_row_of post_fields <$> posts)]> (files w))
  /\ (forall query subreddit sort time_filter limit posts,
        search_reddit api query subreddit sort time_filter limit = Ret posts ->
        posts <> [] ->
        exists w', save_to_csv posts filename w = (Ret true, w')
          /\ files w' = <[filename := CsvRow search_fields
                            :: (csv_row_of search_fields <$> posts)]> (files w))
  /\ (forall username sort limit posts,
        get_user_posts api username sort limit = Ret posts -> posts <> [] ->
        exists w', save_to_csv posts filename w = (Ret true, w')
          /\ files w' = <[filename := CsvRow user_fields
                            :: (csv_row_of user_fields <$> posts)]> (files w))
  /\ (forall post_id limit comments,
        get_post_comments api post_id limit = Ret comments -> comments <> [] ->
        exists w', save_to_csv comments filename w = (Ret true, w')
          /\ files w' = <[filename := CsvRow comment_fields
                            :: (csv_row_of comment_fields <$> comments)]>
                          (files w)).
Proof.
  intros Hok. split; [| split; [| split]]; intros;
    apply uniform_batch_saved; try done.
  - eapply get_subreddit_posts_Forall; [| done]. intros i s d.
    by apply (post_data_built (fun d => keys d = post_fields)).
  - eapply search_reddit_Forall; [| done]. intros i s d.
    by apply (search_post_data_built (fun d => keys d = search_fields)).
  - eapply get_user_posts_Forall; [| done]. intros i s d.
    by apply (user_post_data_built (fun d => keys d = user_fields)).
  - eapply get_post_comments_Forall; [| done]. intros i c d.
    by apply (comment_data_built (fun d => keys d = comment_fields)).
Qed.

Lemma fetched_batch_is_saved_witness :
  exists posts w',
    get_subreddit_posts Samples.quiet_api "python" "hot" 25 "all" = Ret posts
    /\ save_to_csv posts "python_hot_posts.csv" Samples.empty_disk
       = (Ret true, w')
    /\ files w' = <["python_hot_posts.csv" := CsvRow post_fields
                      :: (csv_row_of post_fields <$> posts)]>
                    (files Samples.empty_disk).
Proof.
  destruct (get_subreddit_posts Samples.quiet_api "python" "hot" 25 "all")
    as [posts | e] eqn:Hrun; [| discriminate Hrun].
  destruct (proj1 (fetched_batch_is_saved Samples.quiet_api
                     "python_hot_posts.csv" Samples.empty_disk
                     ltac:(constructor))
              "python" "hot" 25 "all" posts Hrun) as (w' & Hsave & Hfs).
  - intros ->. vm_compute in Hrun. discriminate Hrun.
  - by exists posts, w'.
Defined.

End FetchedThenSaved.

Section Comments.
Import Reddit.
Implicit Types (api : Api) (items : list forest_item).

Lemma collect_comments_length api post_id items acc comments :
  collect_comments api post_id items acc = Ret comments ->
  (length comments <= length acc + length items)%nat.
Proof.
  revert acc. induction items as [| item rest IH]; intros acc;
    cbn [collect_comments length].
  - intros [= <-]. lia.
  - destruct item as [c |].
    + destruct (comment_data api post_id (length acc) c); [| done].
      intros H%IH. rewrite length_app in H. cbn [length] in H. lia.
    + intros H%IH. lia.
Qed.

Lemma comment_data_in_range api post_id i c :
  is_Some (utc_datetime api (c_created_utc c)) ->
  exists d, comment_data api post_id i c = Ret d.
Proof.
  intros [formatted Hf]. unfold comment_data, created_time. rewrite Hf.
  eexists. reflexivity.
Qed.

Lemma collect_comments_all api post_id items acc :
  Forall (fun c => is_Some (utc_datetime api (c_created_utc c)))
    (real_comments items) ->
  exists ds, collect_comments api post_id items acc = Ret (acc ++ ds)
    /\ length ds = length (real_comments items)
    /\ forall i c, real_comments items !! i = Some c ->
         exists d, comment_data api post_id (length acc + i)%nat c = Ret d
                   /\ ds !! i = Some d.
Proof.
  revert acc. induction items as [| item rest IH]; intros acc Hrange.
  - exists []. rewrite app_nil_r. repeat split. intros i c Hi. discriminate.
  - destruct item as [c0 |]; cbn [collect_comments real_comments omap] in *.
    + apply Forall_cons in Hrange as [Hc0 Hrest].
      destruct (comment_data_in_range api post_id (length acc) c0 Hc0)
        as [d0 Hd0].
      rewrite Hd0.
      destruct (IH (acc ++ [d0]) Hrest) as (ds & Hrun & Hlen & Hds).
      exists (d0 :: ds). rewrite Hrun, <- app_assoc. repeat split.
      * cbn [length]. by rewrite Hlen.
      * intros [|i] c Hi.
        -- injection Hi as <-. exists d0. by rewrite Nat.add_0_r.
        -- destruct (Hds i c Hi) as (d & Hd & Hlook). exists d. split; [| done].
           rewrite length_app in Hd. cbn [length] in Hd.
           by replace (length acc + S i)%nat with (length acc + 1 + i)%nat by lia.
    + by apply IH.
Qed.

Lemma slice_to_length {A} (limit : Z) (l : list A) :
  (0 <= limit -> (length (slice_to limit l) <= Z.to_nat limit)%nat)
  /\ (length (slice_to limit l) <= length l)%nat
  /\ (limit < 0 ->
      length (slice_to limit l) = (length l - Z.to_nat (- limit))%nat).
Proof.
  unfold slice_to. destruct (0 <=? limit) eqn:Hsign.
  - apply Z.leb_le in Hsign. rewrite length_take. lia.
  - apply Z.leb_gt in Hsign. rewrite length_take. lia.
Qed.

(** X6.  [get_post_comments] reads the comments through the slice
    [[:limit]]: it returns at most [limit] records when [limit] is not
    negative, and for a negative [limit] leaves out that many comments at
    the end; every record carries the [post_id] that was asked for. *)
Theorem comments_are_bounded_by_limit api post_id limit comments :
  get_post_comments api post_id limit = Ret comments ->
  (0 <= limit -> (length comments <= Z.to_nat limit)%nat)
  /\ (forall items, submission_comments api post_id = Ret items ->
        (length comments <= length items)%nat
        /\ (limit < 0 ->
            (length comments <= length items - Z.to_nat (- limit))%nat))
  /\ Forall (fun d => dict_get "post_id" PyNone d = PyStr post_id) comments.
Proof.
  intros Hrun. split; [| split].
  - intros Hpos. unfold get_post_comments in Hrun.
    destruct (submission_comments api post_id) as [items | e]; simpl in Hrun.
    + destruct (collect_comments _ _ _ _) as [ds | e] eqn:Hc; simpl in Hrun.
      * injection Hrun as <-. apply collect_comments_length in Hc.
        pose proof (proj1 (slice_to_length limit items) Hpos). simpl in Hc. lia.
      * destruct (is_Exception e); [| done]. injection Hrun as <-. simpl. lia.
    + destruct (is_Exception e); [| done]. injection Hrun as <-. simpl. lia.
  - intros items Hload. unfold get_post_comments in Hrun.
    rewrite Hload in Hrun. simpl in Hrun.
    destruct (collect_comments _ _ _ _) as [ds | e] eqn:Hc; simpl in Hrun.
    + injection Hrun as <-. apply collect_comments_length in Hc. simpl in Hc.
      destruct (slice_to_length limit items) as (_ & Hle & Hneg). split; [lia |].
      intros Hlt. specialize (Hneg Hlt). lia.
    + destruct (is_Exception e); [| done]. injection Hrun as <-. simpl.
      split; intros; lia.
  - revert Hrun. apply get_post_comments_Forall. intros i c d.
    by apply (comment_data_built
                (fun d => dict_get "post_id" PyNone d = PyStr post_id)).
Qed.

Lemma comments_are_bounded_by_limit_witness :
  exists comments,
    get_post_comments Samples2.dated_api "a1" (-1) = Ret comments
    /\ (length comments <= 3 - Z.to_nat (- (-1)))%nat.
Proof.
  destruct (get_post_comments Samples2.dated_api "a1" (-1))
    as [comments | e] eqn:Hrun; [| discriminate Hrun].
  exists comments. split; [done |].
  destruct (comments_are_bounded_by_limit _ _ _ _ Hrun) as (_ & Hitems & _).
  destruct (Hitems _ eq_refl) as [_ Hneg]. apply Hneg. lia.
Defined.

(** X7.  When the comments of a post can be loaded and their creation
    times formatted, [get_post_comments] returns one record per comment of
    the slice, in order, and skips the [MoreComments] placeholders. *)
Theorem comments_fetched_in_order api post_id limit items :
  submission_comments api post_id = Ret items ->
  Forall (fun c => is_Some (utc_datetime api (c_created_utc c)))
    (real_comments (slice_to limit items)) ->
  exists comments,
    get_post_comments api post_id limit = Ret comments
    /\ length comments = length (real_comments (slice_to limit items))
    /\ forall i c, real_comments (slice_to limit items) !! i = Some c ->
         exists d, comment_data api post_id i c = Ret d /\ comments !! i = Some d.
Proof.
  intros Hload Hrange. unfold get_post_comments. rewrite Hload.
  destruct (collect_comments_all api post_id (slice_to limit items) [] Hrange)
    as (ds & Hrun & Hlen & Hds).
  exists ds. simpl. rewrite Hrun. by repeat split.
Qed.

Lemma comments_fetched_in_order_witness :
  exists comments,
    get_post_comments Samples2.dated_api "a1" 50 = Ret comments
    /\ length comments = 2%nat.
Proof.
  destruct (comments_fetched_in_order Samples2.dated_api "a1" 50 _ eq_refl)
    as (comments & Hrun & Hlen & _).
  - repeat constructor; by eexists.
  - by exists comments.
Defined.

End Comments.

(* ===================================================================== *)
(** ** The writers: other files, failures to open, unwritable records     *)
(* ===================================================================== *)

Section Frame.
Implicit Types (w : World) (filename : string).

Lemma only_touches_ret {A} filename (a : A) : only_touches filename (mret a).
Proof. by intros w other _. Qed.

Lemma only_touches_lift {A} filename (o : outcome A) :
  only_touches filename (lift o).
Proof. by intros w other _. Qed.

Lemma only_touches_attempt filename : only_touches filename attempt.
Proof.
  intros w other _. unfold attempt. by destruct (pending w) as [|[e|] rest].
Qed.

Lemma only_touches_set_file filename content :
  only_touches filename (set_file filename content).
Proof. intros w other Hne. cbn. by rewrite lookup_insert_ne. Qed.

Lemma only_touches_bind {A B} filename (m : IO A) (f : A -> IO B) :
  only_touches filename m -> (forall a, only_touches filename (f a)) ->
  only_touches filename (m ≫= f).
Proof.
  intros Hm Hf w other Hne. specialize (Hm w other Hne).
  unfold mbind, io_bind. destruct (m w) as [[a | e] w']; cbn [snd] in *.
  - by rewrite (Hf a w' other Hne).
  - done.
Qed.

Lemma only_touches_write filename l : only_touches filename (write filename l).
Proof.
  apply only_touches_bind; [apply only_touches_attempt |].
  intros _ w other Hne. by apply only_touches_set_file.
Qed.

Lemma only_touches_open_w filename : only_touches filename (open_w filename).
Proof.
  apply only_touches_bind; [apply only_touches_attempt |].
  intros _. apply only_touches_set_file.
Qed.

Lemma only_touches_for_each {X} filename (xs : list X) (body : X -> IO unit) :
  (forall x, only_touches filename (body x)) ->
  only_touches filename (for_each xs body).
Proof.
  intros Hbody. induction xs as [|x xs IH]; cbn [for_each].
  - apply only_touches_ret.
  - by apply only_touches_bind.
Qed.

Lemma only_touches_with_open {A} filename (body : IO A) :
  only_touches filename body -> only_touches filename (with_open filename body).
Proof.
  intros Hbody w other Hne. unfold with_open.
  pose proof (only_touches_open_w filename w other Hne) as Ho.
  destruct (open_w filename w) as [[[] | e] w1]; cbn [snd] in *; [| done].
  pose proof (Hbody w1 other Hne) as Hb.
  destruct (body w1) as [[a | e] w2]; cbn [snd] in *;
    pose proof (only_touches_attempt filename w2 other Hne) as Hc;
    unfold close; destruct (attempt w2) as [[[] | e'] w3]; cbn [snd] in *;
    congruence.
Qed.

Lemma only_touches_try_except {A} filename (body : IO A) handler :
  only_touches filename body -> (forall e, only_touches filename (handler e)) ->
  only_touches filename (try_except body handler).
Proof.
  intros Hbody Hh w other Hne. unfold try_except.
  pose proof (Hbody w other Hne) as Hb.
  destruct (body w) as [[a | e] w']; cbn [snd] in *; [done |].
  destruct (is_Exception e); [| done]. by rewrite (Hh e w' other Hne).
Qed.

Lemma reddit_csv_only_touches (data : list pydict) filename :
  only_touches filename (Reddit.save_to_csv data filename).
Proof.
  destruct data as [| first rest]; [apply only_touches_ret |].
  apply only_touches_try_except; [| intros; apply only_touches_ret].
  apply only_touches_bind; [| intros; apply only_touches_ret].
  apply only_touches_with_open, only_touches_bind;
    [apply only_touches_write |].
  intros _. apply only_touches_for_each. intros r.
  apply only_touches_bind; [apply only_touches_lift |].
  intros row. apply only_touches_write.
Qed.

Lemma reddit_json_only_touches (data : list pydict) filename :
  only_touches filename (Reddit.save_to_json data filename).
Proof.
  destruct data as [| first rest]; [apply only_touches_ret |].
  apply only_touches_try_except; [| intros; apply only_touches_ret].
  apply only_touches_bind; [| intros; apply only_touches_ret].
  apply only_touches_with_open, only_touches_write.
Qed.

Lemma toi_csv_only_touches (articles : list Toi.article) filename :
  only_touches filename (ToiWriter.save_to_csv articles filename).
Proof.
  apply only_touches_try_except; [| intros; apply only_touches_ret].
  apply only_touches_bind; [| intros; apply only_touches_ret].
  apply only_touches_with_open, only_touches_bind;
    [apply only_touches_write |].
  intros _. apply only_touches_for_each. intros a. apply only_touches_write.
Qed.

(** X8.  Whatever the batch and whichever operations fail, a writer
    changes no file other than the one it was given: every other path
    holds after the call what it held before. *)
Theorem writers_touch_only_their_file (data : list pydict)
    (articles : list Toi.article) filename :
  only_touches filename (Reddit.save_to_csv data filename)
  /\ only_touches filename (Reddit.save_to_json data filename)
  /\ only_touches filename (ToiWriter.save_to_csv articles filename).
Proof.
  split; [apply reddit_csv_only_touches |].
  split; [apply reddit_json_only_touches | apply toi_csv_only_touches].
Qed.

(** X9.  When the file cannot be opened, a writer returns [False] and
    the disk is as before: nothing is created and nothing is emptied. *)
Theorem writers_fail_cleanly_when_open_fails (data : list pydict)
    (articles : list Toi.article) filename w e rest :
  pending w = Some e :: rest -> is_Exception e = true -> data <> [] ->
  let w' := {| files := files w; pending := rest |} in
  Reddit.save_to_csv data filename w = (Ret false, w')
  /\ Reddit.save_to_json data filename w = (Ret false, w')
  /\ ToiWriter.save_to_csv articles filename w = (Ret false, w').
Proof.
  intros Hp He Hne w'. destruct data as [| first others]; [done |].
  unfold Reddit.save_to_csv, Reddit.save_to_json, ToiWriter.save_to_csv,
    try_except, with_open, open_w, attempt, mbind, io_bind.
  rewrite Hp, He. done.
Qed.

Lemma writers_fail_cleanly_when_open_fails_witness :
  let w := {| files := {["posts.csv" := [CsvRow ["old"]]]};
              pending := [Some OSError] |} in
  Reddit.save_to_csv Samples.two_posts "posts.csv" w
  = (Ret false, {| files := files w; pending := [] |}).
Proof.
  intros w.
  apply (proj1 (writers_fail_cleanly_when_open_fails Samples.two_posts []
                  "posts.csv" w OSError [] eq_refl eq_refl ltac:(discriminate))).
Defined.

(** X10.  With no I/O failure, [save_to_json] given a non-empty batch
    returns [True]; the file then holds that batch, all of it, as one
    document, whatever the file held before. *)
Theorem save_to_json_writes_the_batch (data : list pydict) filename w :
  data <> [] -> io_succeeds w ->
  exists w', Reddit.save_to_json data filename w = (Ret true, w')
    /\ files w' = <[filename := [JsonDoc data]]> (files w).
Proof.
  intros Hne Hok. destruct data as [| first rest]; [done |].
  cbn [Reddit.save_to_json].
  destruct (with_open_succeeds (write filename (JsonDoc (first :: rest)))
              w filename tt (<[filename := [JsonDoc (first :: rest)]]> (files w))
              Hok) as (w' & Hrun & Hfs & _).
  - intros w1 Hok1 Hfs1.
    destruct (write_succeeds w1 filename (JsonDoc (first :: rest)) [] Hok1)
      as (w2 & Hw & Hfs2 & Hok2).
    { rewrite Hfs1. apply lookup_insert_eq. }
    exists w2. repeat split; [done | | done].
    by rewrite Hfs2, Hfs1, insert_insert_eq.
  - exists w'. split; [| done].
    unfold try_except. by rewrite (bind_ret _ _ _ _ _ Hrun).
Qed.

Lemma save_to_json_writes_the_batch_witness :
  exists w', Reddit.save_to_json Samples.two_posts "posts.json" Samples.empty_disk
             = (Ret true, w')
    /\ files w' = <["posts.json" := [JsonDoc Samples.two_posts]]>
                    (files Samples.empty_disk).
Proof.
  apply save_to_json_writes_the_batch; [discriminate | constructor].
Defined.

End Frame.

Section Unwritable.
Implicit Types (w : World) (filename : string).

Lemma always_raises_bind_l {A B} (m : IO A) (f : A -> IO B) :
  always_raises m -> always_raises (m ≫= f).
Proof.
  intros Hm w Hw. destruct (Hm w Hw) as (e & w' & Hrun & He & Hw').
  exists e, w'. by rewrite (bind_raise _ _ _ _ _ Hrun).
Qed.

Lemma always_raises_bind_r {A B} (m : IO A) (f : A -> IO B) :
  contained m -> (forall a, always_raises (f a)) -> always_raises (m ≫= f).
Proof.
  intros Hm Hf w Hw. destruct (Hm w Hw) as ([a | e] & w' & Hrun & Hw' & Ho).
  - destruct (Hf a w' Hw') as (e & w'' & Hrun' & He & Hw'').
    exists e, w''. by rewrite (bind_ret _ _ _ _ _ Hrun).
  - exists e, w'. by rewrite (bind_raise _ _ _ _ _ Hrun).
Qed.

Lemma always_raises_for_each {X} (xs : list X) (body : X -> IO unit) x :
  (forall y, contained (body y)) -> x ∈ xs -> always_raises (body x) ->
  always_raises (for_each xs body).
Proof.
  intros Hbody Hin Hx. induction xs as [| y xs IH]; [by apply elem_of_nil in Hin |].
  cbn [for_each]. apply elem_of_cons in Hin as [<- | Hin].
  - by apply always_raises_bind_l.
  - apply always_raises_bind_r; [apply Hbody |]. intros _. by apply IH.
Qed.

Lemma always_raises_with_open {A} filename (body : IO A) :
  always_raises body -> always_raises (with_open filename body).
Proof.
  intros Hbody w Hw. unfold with_open.
  destruct (contained_open_w filename w Hw) as ([[] | e] & w1 & -> & Hw1 & H1);
    [| by exists e, w1].
  destruct (Hbody w1 Hw1) as (e & w2 & -> & He & Hw2).
  destruct (contained_attempt w2 Hw2) as ([[] | e'] & w3 & Hc & Hw3 & H3);
    unfold close; rewrite Hc.
  - by exists e, w3.
  - by exists e', w3.
Qed.

Lemma dict_to_list_extra_field fieldnames rowdict k :
  k ∈ keys rowdict -> k ∉ fieldnames ->
  Reddit.dict_to_list fieldnames rowdict = Raise ValueError.
Proof.
  intros Hin Hnot. unfold Reddit.dict_to_list.
  destruct (filter _ _) as [| k' t] eqn:Hf; [| done].
  exfalso. eapply (filter_nil_not_elem_of _ _ k); [exact Hf | exact Hnot | exact Hin].
Qed.

(** X11.  A record with a field that the first record lacks cannot be
    written: [save_to_csv] then returns [False], also when no file
    operation fails. *)
Theorem save_to_csv_rejects_an_extra_field (first : pydict)
    (rest : list pydict) r k filename w :
  r ∈ rest -> k ∈ keys r -> k ∉ keys first -> io_failures_only w ->
  exists w', Reddit.save_to_csv (first :: rest) filename w = (Ret false, w').
Proof.
  intros Hr Hk Hnot Hw. cbn [Reddit.save_to_csv]. unfold try_except.
  assert (Hbody : always_raises
            (with_open filename
               (write filename (CsvRow (keys first)) ≫= fun _ =>
                for_each (first :: rest)
                  (Reddit.writerow filename (keys first))))).
  { apply always_raises_with_open, always_raises_bind_r;
      [apply contained_write |].
    intros _. apply (always_raises_for_each _ _ r).
    - intros y. apply contained_writerow.
    - by apply list_elem_of_further.
    - apply always_raises_bind_l. intros w0 Hw0. exists ValueError, w0.
      unfold lift. by rewrite (dict_to_list_extra_field _ _ k). }
  destruct (Hbody w Hw) as (e & w' & Hrun & He & _).
  exists w'. by rewrite (bind_raise _ _ _ _ _ Hrun), He.
Qed.

Lemma save_to_csv_rejects_an_extra_field_witness :
  exists w', Reddit.save_to_csv
               [ [("id", PyStr "a1")]; [("id", PyStr "b2"); ("score", PyInt 3)] ]
               "posts.csv" Samples.empty_disk = (Ret false, w').
Proof.
  apply (save_to_csv_rejects_an_extra_field _ _
           [("id", PyStr "b2"); ("score", PyInt 3)] "score").
  - apply list_elem_of_here.
  - apply list_elem_of_further, list_elem_of_here.
  - apply (bool_decide_unpack _). vm_compute. reflexivity.
  - constructor.
Defined.

End Unwritable.

(* ===================================================================== *)
(** ** toi_scraper.py: the page as a whole                                *)
(* ===================================================================== *)

Section Page.
Import Toi.
Implicit Types (links : list anchor) (acc : list article) (a : article)
  (B : list article).

Lemma str_app_assoc (s1 s2 s3 : string) :
  (s1 +:+ s2) +:+ s3 = s1 +:+ (s2 +:+ s3).
Proof.
  induction s1 as [| c s1 IH]; [done |].
  change (String c ((s1 +:+ s2) +:+ s3) = String c (s1 +:+ (s2 +:+ s3))).
  by rewrite IH.
Qed.

Lemma occurs_in_app_l sub pre s : occurs_in sub s -> occurs_in sub (pre +:+ s).
Proof.
  intros (p & q & ->). exists (pre +:+ p), q. by rewrite str_app_assoc.
Qed.

Lemma collect_articles_imap now links acc :
  collect_articles now links acc
  = acc ++ imap (fun i => article_of now (length acc + i))
             (filter (fun link => accepted link = true) links).
Proof.
  revert acc. induction links as [| link links IH]; intros acc;
    cbn [collect_articles].
  - by rewrite app_nil_r.
  - destruct (accepted link) eqn:Hok.
    + rewrite filter_cons_True by done. rewrite IH, imap_cons, <- app_assoc.
      cbn [app]. rewrite Nat.add_0_r. do 2 f_equal.
      apply imap_ext. intros i l _. unfold compose.
      rewrite length_app. cbn [length]. f_equal. lia.
    + rewrite filter_cons_False by (by rewrite Hok). apply IH.
Qed.

(** X12.  When the page is fetched with a status outside 400..599 and
    parsed, [scrape_times_of_india] returns the articles of the accepted
    anchors (those whose [href] contains [articleshow] and whose stripped
    text has more than 15 characters), in page order, built with
    successive readings of the clock, and then deduplicated; it never
    returns more articles than the page has anchors. *)
Theorem scrape_returns_accepted_anchors w r links :
  requests_get w = Ret r ->
  ~ (400 <= status_code r < 600) ->
  find_all_a w (text r) = Ret links ->
  let accepted_links := filter (fun link => accepted link = true) links in
  scrape_times_of_india w
  = Ret (dedupe (imap (article_of (now w)) accepted_links))
  /\ (length (dedupe (imap (article_of (now w)) accepted_links))
      <= length links)%nat.
Proof.
  intros Hget Hstatus Hfind accepted_links.
  assert (Hst : raise_for_status r = Ret tt).
  { unfold raise_for_status.
    destruct (400 <=? status_code r) eqn:Hlo; [| done].
    destruct (status_code r <? 600) eqn:Hhi; [| done].
    apply Z.leb_le in Hlo. apply Z.ltb_lt in Hhi. lia. }
  split.
  - rewrite (scrape_value _ _ _ Hget Hst Hfind), collect_articles_imap. done.
  - rewrite dedupe_keep.
    etransitivity; [apply sublist_length, keep_sublist |].
    rewrite length_imap. apply length_filter.
Qed.

Lemma scrape_returns_accepted_anchors_witness :
  scrape_times_of_india
    (Samples.page [Samples.tennis_link; Samples.sports_india_link;
                   Samples.tennis_link_abs])
  = Ret (dedupe (imap (article_of Samples.stamp)
                   [Samples.tennis_link; Samples.sports_india_link;
                    Samples.tennis_link_abs])).
Proof.
  refine (proj1 (scrape_returns_accepted_anchors
                   (Samples.page [Samples.tennis_link; Samples.sports_india_link;
                                  Samples.tennis_link_abs])
                   _ _ eq_refl _ eq_refl)).
  cbn. lia.
Defined.

Lemma accepted_inv link :
  accepted link = true ->
  occurs_in "articleshow" (href link)
  /\ (15 < String.length (strip (get_text link)))%nat.
Proof.
  unfold accepted. rewrite !andb_true_iff.
  intros (Hin%str_in_spec & _ & Hlen%Nat.ltb_lt). done.
Qed.

Lemma full_url_of_keeps sub href :
  occurs_in sub href -> occurs_in sub (full_url_of href).
Proof.
  intros H. unfold full_url_of. destruct (startswith href "http"); [done |].
  by apply occurs_in_app_l.
Qed.

Lemma img_url_of_shape link :
  img_url_of link = "" \/ begins_with (img_url_of link) "http".
Proof.
  unfold img_url_of. destruct (img link) as [[src |] |]; [| by left..].
  change (default "" (Some src)) with src.
  destruct src as [| c src]; [by left | right].
  destruct (startswith (String c src) "http") eqn:Hs;
    cbn [nonempty andb negb]; apply startswith_spec; [exact Hs | reflexivity].
Qed.

Lemma category_of_listed full_url : category_of full_url ∈ categories.
Proof.
  unfold category_of, categories.
  repeat (match goal with |- context [if ?b then _ else _] => destruct b end);
    repeat (first [apply list_elem_of_here | apply list_elem_of_further]).
Qed.

(** X13.  Every article [scrape_times_of_india] returns has a title of
    more than 15 characters, a URL that contains [articleshow], the source
    [Times of India], one of the six categories, and an image address
    that is empty or begins with [http]. *)
Theorem returned_articles_are_well_formed w articles a :
  scrape_times_of_india w = Ret articles -> a ∈ articles ->
  (15 < String.length (title a))%nat
  /\ occurs_in "articleshow" (url a)
  /\ source a = "Times of India"
  /\ category a ∈ categories
  /\ (image a = "" \/ begins_with (image a) "http").
Proof.
  intros Hs Ha.
  destruct (scrape_article_origin _ _ _ Hs Ha) as (l & st & Hok & ->).
  apply accepted_inv in Hok as [Hin Hlen].
  cbn [title url source category image make_article].
  split; [done |]. split; [by apply full_url_of_keeps |]. split; [done |].
  split; [apply category_of_listed | apply img_url_of_shape].
Qed.

Lemma returned_articles_are_well_formed_witness :
  (15 < String.length (title Samples.sports_india_article))%nat
  /\ occurs_in "articleshow" (url Samples.sports_india_article)
  /\ source Samples.sports_india_article = "Times of India"
  /\ category Samples.sports_india_article ∈ categories
  /\ (image Samples.sports_india_article = ""
      \/ begins_with (image Samples.sports_india_article) "http").
Proof.
  apply (returned_articles_are_well_formed
           (Samples.page [Samples.sports_india_link])
           [Samples.sports_india_article]).
  - vm_compute. reflexivity.
  - apply list_elem_of_here.
Defined.

Lemma keep_unseen_id seen B :
  NoDup (url <$> B) -> (forall a, a ∈ B -> url a ∉ seen) ->
  keep_unseen seen B = B.
Proof.
  revert seen. induction B as [| b B IH]; intros seen Hnd Hfresh; [done |].
  rewrite fmap_cons in Hnd. apply NoDup_cons in Hnd as [Hb Hnd].
  cbn [keep_unseen]. rewrite decide_False by (apply Hfresh, list_elem_of_here).
  f_equal. apply IH; [done |]. intros a Ha.
  apply not_elem_of_union. split.
  - intros Heq%elem_of_singleton. apply Hb. rewrite <- Heq.
    apply list_elem_of_fmap. by exists a.
  - by apply Hfresh, list_elem_of_further.
Qed.

(** X14.  The deduplication loop returns a batch unchanged exactly when
    no two of its records have the same URL. *)
Theorem dedupe_fixes_exactly_the_duplicate_free B :
  dedupe B = B <-> NoDup (url <$> B).
Proof.
  rewrite dedupe_keep. split.
  - intros <-. apply keep_NoDup.
  - intros Hnd. apply keep_unseen_id; [done |]. intros a _.
    apply not_elem_of_empty.
Qed.

End Page.

(* ===================================================================== *)
(** ** toi_scraper.py: the statistics                                     *)
(* ===================================================================== *)

Section Statistics.
Import Toi ToiReport.
Implicit Types (articles : list article) (m : gmap string nat) (cat : string).

Lemma pictured_or_not articles :
  (with_images articles + without_images articles = length articles)%nat.
Proof.
  unfold with_images, without_images.
  induction articles as [| a articles IH]; [done |].
  destruct (nonempty (image a)) eqn:Hi.
  - rewrite filter_cons_True, filter_cons_False by (by rewrite ?Hi).
    cbn [length]. lia.
  - rewrite filter_cons_False, filter_cons_True by (by rewrite ?Hi).
    cbn [length]. lia.
Qed.

Lemma counted m articles cat :
  foldl count_category m articles !! cat
  = match filed_under cat articles with
    | O => m !! cat
    | S k => Some (default 0 (m !! cat) + S k)%nat
    end.
Proof.
  unfold filed_under. revert m.
  induction articles as [| a articles IH]; intros m; [done |].
  cbn [foldl]. rewrite IH. unfold count_category.
  destruct (decide (category a = cat)) as [<- | Hne].
  - rewrite filter_cons_True by done. cbn [length].
    rewrite lookup_insert_eq. cbn [default].
    destruct (length _); f_equal; unfold id; lia.
  - rewrite filter_cons_False by done. by rewrite lookup_insert_ne.
Qed.

Lemma sum_after_count m a :
  sum_list_with snd (map_to_list (count_category m a))
  = (sum_list_with snd (map_to_list m) + 1)%nat.
Proof.
  unfold count_category. destruct (m !! category a) as [v |] eqn:Hv.
  - rewrite <- (insert_delete_eq m).
    rewrite map_to_list_insert by apply lookup_delete_eq.
    rewrite <- (map_to_list_delete m _ _ Hv). cbn. lia.
  - rewrite map_to_list_insert by done. cbn. lia.
Qed.

Lemma sum_counted m articles :
  sum_list_with snd (map_to_list (foldl count_category m articles))
  = (sum_list_with snd (map_to_list m) + length articles)%nat.
Proof.
  revert m. induction articles as [| a articles IH]; intros m; cbn [foldl length].
  - lia.
  - rewrite IH, sum_after_count. lia.
Qed.

#[local] Instance by_name_total : Total by_name.
Proof. intros p q. unfold by_name. apply (total String.le). Qed.

(** X15.  The numbers [display_statistics] prints add up: articles with
    and without an image make the total, the category counts make the
    total, every category that occurs is listed once with the number of
    its articles, no other category is listed, and the lines come in the
    order of the category names. *)
Theorem statistics_add_up articles :
  let stats := display_statistics articles in
  (shown_with_images stats + shown_without_images stats = shown_total stats)%nat
  /\ sum_list_with snd (shown_categories stats) = shown_total stats
  /\ (forall cat n, (cat, n) ∈ shown_categories stats
        <-> n = filed_under cat articles /\ (0 < n)%nat)
  /\ NoDup (shown_categories stats).*1
  /\ Sorted by_name (shown_categories stats).
Proof.
  cbn. unfold sorted_items, count_categories.
  split; [apply pictured_or_not |].
  split; [by rewrite merge_sort_Permutation, sum_counted, map_to_list_empty |].
  split; [| split].
  - intros cat n. rewrite merge_sort_Permutation, elem_of_map_to_list.
    rewrite counted, lookup_empty. cbn [default].
    destruct (filed_under cat articles) as [| k]; split.
    + done.
    + intros [-> Hpos]. lia.
    + intros [= <-]. split; [done | lia].
    + by intros [-> _].
  - rewrite merge_sort_Permutation. apply NoDup_fst_map_to_list.
  - apply Sorted_merge_sort. apply _.
Qed.

(** Three articles, two categories. *)
Example statistics_sample :
  let a := Samples.tennis_article in
  let b := Samples.sports_india_article in
  display_statistics [a; b; a]
  = {| shown_total := 3; shown_with_images := 1; shown_without_images := 2;
       shown_categories := [("India News", 1%nat); ("Sports", 2%nat)] |}.
Proof. vm_compute. reflexivity. Qed.

End Statistics.

(* ===================================================================== *)
(** ** toi_scraper.py: [main]                                             *)
(* ===================================================================== *)

Section ToiMain.
Import Toi ToiReport.
Implicit Types (web : Web) (w : World) (articles : list article).

Lemma scrape_returns web :
  web_failures_only web ->
  exists articles, scrape_times_of_india web = Ret articles.
Proof.
  intros [Hget Hfind]. unfold scrape_times_of_india, scrape_body.
  destruct (requests_get web) as [r | e] eqn:Hr; simpl.
  2:{ rewrite (Hget e eq_refl). destruct (is_RequestException e); by eexists. }
  unfold raise_for_status. destruct (_ && _); simpl; [by eexists |].
  destruct (find_all_a web (text r)) as [links | e] eqn:Hl; simpl.
  - by eexists.
  - rewrite (Hfind _ e Hl). destruct (is_RequestException e); by eexists.
Qed.

(** X16.  What [main] does to the disk.  When nothing was scraped (the
    page could not be fetched or parsed, or no anchor was accepted) it
    writes nothing.  When articles were scraped and no file operation
    fails, [times_of_india_articles.csv] holds the header and one row per
    article.  In no case does [main] change another file. *)
Theorem toi_main_saves_what_was_scraped web w articles :
  scrape_times_of_india web = Ret articles ->
  (articles = [] -> main web w = (Ret tt, w))
  /\ (articles <> [] -> io_succeeds w ->
      exists w', main web w = (Ret tt, w')
        /\ files w' = <[default_filename := CsvRow ToiWriter.header
                          :: ((fun a => CsvRow (ToiWriter.row_of a)) <$> articles)]>
                        (files w))
  /\ only_touches default_filename (main web).
Proof.
  intros Hs. split; [| split].
  - intros ->. unfold main, lift, mbind, io_bind. by rewrite Hs.
  - intros Hne Hok.
    destruct (toi_save_to_csv_written articles default_filename w Hok)
      as (w' & Hrun & Hfs & _).
    exists w'. split; [| done].
    unfold main, lift, mbind, io_bind. rewrite Hs.
    destruct articles; [done |]. by rewrite Hrun.
  - unfold main. apply only_touches_bind; [apply only_touches_lift |].
    intros [| a rest]; [apply only_touches_ret |].
    apply only_touches_bind; [| intros; apply only_touches_ret].
    apply toi_csv_only_touches.
Qed.

Lemma toi_main_saves_what_was_scraped_witness :
  main Samples.unreachable Samples.empty_disk = (Ret tt, Samples.empty_disk)
  /\ exists w',
       main (Samples.page [Samples.tennis_link]) Samples.empty_disk = (Ret tt, w')
       /\ files w' = <[default_filename :=
                        [CsvRow ToiWriter.header;
                         CsvRow (ToiWriter.row_of Samples.tennis_article)]]>
                       (files Samples.empty_disk).
Proof.
  split.
  - apply (proj1 (toi_main_saves_what_was_scraped Samples.unreachable
                    Samples.empty_disk [] eq_refl)). reflexivity.
  - apply (proj1 (proj2 (toi_main_saves_what_was_scraped
                           (Samples.page [Samples.tennis_link])
                           Samples.empty_disk [Samples.tennis_article] eq_refl)));
      [discriminate | constructor].
Defined.

Lemma toi_save_returns (articles : list Toi.article) filename w :
  io_failures_only w ->
  exists b w', ToiWriter.save_to_csv articles filename w = (Ret b, w').
Proof.
  intros Hw.
  destruct (write_or_false
              (with_open filename
                 (write filename (CsvRow ToiWriter.header) ≫= fun _ =>
                  for_each articles (fun article =>
                    write filename (CsvRow (ToiWriter.row_of article)))))
              w) as (b & w' & Hrun & _); [| done | by exists b, w'].
  apply contained_with_open.
  apply contained_bind; [apply contained_write |].
  intros _. apply contained_for_each. intros a. apply contained_write.
Qed.

(** X17.  When fetching, parsing and the file operations fail with
    [Exception]s only, [main] ends normally: the failures of the source
    are turned into an empty batch, those of the disk into a result that
    [main] does not look at. *)
Theorem toi_main_never_raises web w :
  web_failures_only web -> io_failures_only w ->
  exists w', main web w = (Ret tt, w').
Proof.
  intros [articles Hs]%scrape_returns Hw.
  unfold main, lift, mbind, io_bind. rewrite Hs.
  destruct articles as [| a rest]; [by exists w |].
  destruct (toi_save_returns (a :: rest) default_filename w Hw)
    as (b & w' & Hrun).
  exists w'. by rewrite Hrun.
Qed.

Lemma toi_main_never_raises_witness :
  exists w', main (Samples.page [Samples.tennis_link]) Samples.failing_disk
             = (Ret tt, w').
Proof.
  apply toi_main_never_raises.
  - split; [intros e | intros page e]; discriminate.
  - repeat constructor; intros e [= <-]; reflexivity.
Defined.

End ToiMain.

(* ===================================================================== *)
(** ** reddit_scraper_ready.py: [get_subreddit_info]                      *)
(* ===================================================================== *)

Section Info.
Import RedditInfo.
Implicit Types (api : InfoApi) (subreddit : about).

Lemma str_take_length_le n s : (String.length (str_take n s) <= n)%nat.
Proof.
  revert s. induction n as [| n IH]; intros [| c s]; cbn; try lia.
  specialize (IH s). lia.
Qed.

(** X18.  [get_subreddit_info] returns the empty dict when the subreddit
    cannot be loaded, when it has no description ([None] cannot be
    sliced), or when its creation time cannot be formatted.  Otherwise it
    returns a dict with the ten fields whose description is the first 500
    characters of the subreddit's. *)
Theorem subreddit_info_or_nothing api subreddit_name :
  (forall e, subreddit_about api subreddit_name = Raise e ->
             is_Exception e = true ->
             get_subreddit_info api subreddit_name = Ret [])
  /\ (forall subreddit,
        subreddit_about api subreddit_name = Ret subreddit ->
        description subreddit = None
        \/ utc_date api (created_utc subreddit) = None ->
        get_subreddit_info api subreddit_name = Ret [])
  /\ (forall subreddit text formatted,
        subreddit_about api subreddit_name = Ret subreddit ->
        description subreddit = Some text ->
        utc_date api (created_utc subreddit) = Some formatted ->
        exists info,
          get_subreddit_info api subreddit_name = Ret info
          /\ keys info = info_fields
          /\ dict_get "description" PyNone info = PyStr (str_take 500 text)
          /\ (String.length (str_take 500 text) <= 500)%nat
          /\ begins_with text (str_take 500 text)).
Proof.
  unfold get_subreddit_info. split; [| split].
  - intros e -> He. cbn. by rewrite He.
  - intros subreddit -> [Hd | Ht]; cbn.
    + by rewrite Hd.
    + destruct (description subreddit); [| done]. cbn.
      unfold created_date. by rewrite Ht.
  - intros subreddit text formatted -> Hd Ht.
    cbn [mbind outcome_bind]. unfold description_500. rewrite Hd.
    cbn [mbind outcome_bind]. unfold created_date. rewrite Ht.
    eexists. split; [reflexivity |].
    split; [done |]. split; [done |].
    split; [apply str_take_length_le | apply str_take_prefix].
Qed.

End Info.

(* ===================================================================== *)
(** ** reddit_scraper_ready.py: how the menu runs                         *)
(* ===================================================================== *)

Section Guarded.
Import Menu.
Variables (I : World -> Prop) (ok : stop -> Prop).
Hypothesis ok_end_of_input : ok EndOfInput.
Hypothesis ok_value_error : ok (Uncaught ValueError).

Lemma guarded_ret {A} (a : A) : guarded I ok (mret a).
Proof. intros s Hs. exists (inl a), s. by repeat split. Qed.

Lemma guarded_halt {A} why : ok why -> guarded I ok (@halt A why).
Proof. intros Hwhy s Hs. exists (inr why), s. by repeat split. Qed.

Lemma guarded_bind {A B} (m : Prog A) (f : A -> Prog B) :
  guarded I ok m -> (forall a, guarded I ok (f a)) -> guarded I ok (m ≫= f).
Proof.
  intros Hm Hf s Hs. destruct (Hm s Hs) as (r & s' & Hrun & Hs' & Hlen & Hr).
  unfold mbind, prog_bind. rewrite Hrun. destruct r as [a | why].
  - destruct (Hf a s' Hs') as (r' & s'' & Hrun' & Hs'' & Hlen' & Hr').
    exists r', s''. repeat split; [done | done | lia | done].
  - by exists (inr why), s'.
Qed.

Lemma guarded_input : guarded I ok input.
Proof.
  intros s Hs. unfold input. destruct (console s) as [| line rest] eqn:Hc.
  - exists (inr EndOfInput), s. by rewrite Hc.
  - eexists (inl line), _. repeat split; [done |]. cbn. lia.
Qed.

Lemma guarded_ask default : guarded I ok (ask default).
Proof.
  apply guarded_bind; [apply guarded_input |]. intros raw. apply guarded_ret.
Qed.

Lemma guarded_ask_int sh default : guarded I ok (ask_int sh default).
Proof.
  apply guarded_bind; [apply guarded_input |]. intros raw.
  destruct (int_or sh default raw); [apply guarded_ret | by apply guarded_halt].
Qed.

Lemma guarded_call {A} (o : outcome A) : quiet ok o -> guarded I ok (call o).
Proof.
  intros Ho s Hs. unfold call. destruct o as [a | e].
  - exists (inl a), s. by repeat split.
  - exists (inr (Uncaught e)), s. by repeat split.
Qed.

Lemma guarded_call_bind {A B} (o : outcome A) (f : A -> Prog B) :
  quiet ok o -> (forall a, o = Ret a -> guarded I ok (f a)) ->
  guarded I ok (call o ≫= f).
Proof.
  intros Ho Hf s Hs. unfold mbind, prog_bind, call. destruct o as [a | e].
  - by apply Hf.
  - exists (inr (Uncaught e)), s. by repeat split.
Qed.

Lemma guarded_on_disk {A} (m : IO A) :
  disk_guarded I ok m -> guarded I ok (on_disk m).
Proof.
  intros Hm s Hs. destruct (Hm (disk s) Hs) as (o & w' & Hrun & Hw' & Ho).
  unfold on_disk. rewrite Hrun. destruct o as [a | e].
  - eexists (inl a), _. by repeat split.
  - eexists (inr (Uncaught e)), _. by repeat split.
Qed.

Variables (sh : Shell) (scraper : Scraper).
Hypothesis quiet_posts : forall name sort_type limit time_filter,
  quiet ok (Reddit.get_subreddit_posts (api scraper) name sort_type limit
              time_filter).
Hypothesis quiet_comments : forall post_id limit,
  quiet ok (Reddit.get_post_comments (api scraper) post_id limit).
Hypothesis quiet_search : forall query subreddit sort time_filter limit,
  quiet ok (Reddit.search_reddit (api scraper) query subreddit sort
              time_filter limit).
Hypothesis quiet_user : forall username sort limit,
  quiet ok (Reddit.get_user_posts (api scraper) username sort limit).
Hypothesis quiet_info : forall name,
  quiet ok (RedditInfo.get_subreddit_info (info_api scraper) name).
Hypothesis quiet_show : forall name info,
  RedditInfo.get_subreddit_info (info_api scraper) name = Ret info ->
  info <> [] -> quiet ok (show_info info).
Hypothesis quiet_harvest : forall name limit posts comment_limit,
  Reddit.get_subreddit_posts (api scraper) name "hot" limit "all" = Ret posts ->
  quiet ok (harvest_comments (api scraper) posts comment_limit []).
Hypothesis guarded_csv : forall data filename,
  disk_guarded I ok (Reddit.save_to_csv data filename).
Hypothesis guarded_json : forall data filename,
  disk_guarded I ok (Reddit.save_to_json data filename).

Ltac guard_all :=
  repeat first
    [ apply guarded_ret
    | apply guarded_input
    | apply guarded_ask
    | apply guarded_ask_int
    | apply guarded_call
    | apply guarded_on_disk
    | apply quiet_posts | apply quiet_comments | apply quiet_search
    | apply quiet_user | apply quiet_info
    | apply guarded_csv | apply guarded_json
    | apply guarded_bind; [| intros ?]
    | match goal with
      | |- guarded _ _ (if ?b then _ else _) => destruct b
      | |- guarded _ _ (match ?x with _ => _ end) => destruct x
      end ].

Lemma guarded_save_as data stem : guarded I ok (save_as data stem).
Proof. unfold save_as. guard_all. Qed.

Lemma guarded_save_if_any data stem : guarded I ok (save_if_any data stem).
Proof. destruct data; [apply guarded_ret | apply guarded_save_as]. Qed.

Lemma guarded_choice_1 : guarded I ok (choice_1 sh scraper).
Proof. unfold choice_1. guard_all. apply guarded_save_if_any. Qed.

Lemma guarded_choice_2 : guarded I ok (choice_2 sh scraper).
Proof. unfold choice_2. guard_all. apply guarded_save_if_any. Qed.

Lemma guarded_choice_3 : guarded I ok (choice_3 sh scraper).
Proof. unfold choice_3. guard_all. apply guarded_save_if_any. Qed.

Lemma guarded_choice_4 : guarded I ok (choice_4 sh scraper).
Proof. unfold choice_4. guard_all. apply guarded_save_if_any. Qed.

Lemma guarded_choice_5 : guarded I ok (choice_5 sh scraper).
Proof.
  unfold choice_5.
  apply guarded_bind; [apply guarded_input | intros raw]. cbv zeta.
  apply guarded_call_bind; [apply quiet_info | intros info Hinfo].
  destruct info as [| item items] eqn:Hitems; [apply guarded_ret |].
  apply guarded_bind;
    [by apply guarded_call, (quiet_show _ _ Hinfo) | intros _].
  guard_all.
Qed.

Lemma guarded_choice_6 : guarded I ok (choice_6 sh scraper).
Proof.
  unfold choice_6.
  apply guarded_bind; [apply guarded_input | intros raw]. cbv zeta.
  apply guarded_bind; [apply guarded_ask_int | intros post_limit].
  apply guarded_bind; [apply guarded_ask_int | intros comment_limit].
  apply guarded_call_bind; [apply quiet_posts | intros posts Hposts].
  apply guarded_bind;
    [apply guarded_call, (quiet_harvest _ _ _ _ Hposts) | intros all_comments].
  destruct posts, all_comments; guard_all.
Qed.

(** One pass reads at least the line of the choice. *)
Lemma menu_pass_reads s :
  I (disk s) ->
  exists r s', menu_pass sh scraper s = (r, s') /\ I (disk s')
    /\ match r with
       | inl _ => (length (console s') < length (console s))%nat
       | inr why => ok why
       end.
Proof.
  intros Hs. unfold menu_pass, mbind at 1, prog_bind at 1, input at 1.
  destruct (console s) as [| line rest] eqn:Hc.
  - exists (inr EndOfInput), s. by repeat split.
  - set (s1 := {| console := rest; disk := disk s |}).
    assert (Hrest : guarded I ok
              (let choice := strip line in
               if String.eqb choice "1" then _ ← choice_1 sh scraper; mret true
               else if String.eqb choice "2" then _ ← choice_2 sh scraper; mret true
               else if String.eqb choice "3" then _ ← choice_3 sh scraper; mret true
               else if String.eqb choice "4" then _ ← choice_4 sh scraper; mret true
               else if String.eqb choice "5" then _ ← choice_5 sh scraper; mret true
               else if String.eqb choice "6" then _ ← choice_6 sh scraper; mret true
               else if String.eqb choice "7" then mret false
               else mret true)).
    { cbv zeta.
      repeat (match goal with
              | |- guarded _ _ (if ?b then _ else _) => destruct b
              end);
        try apply guarded_ret;
        (apply guarded_bind; [| intros ?; apply guarded_ret]).
      - apply guarded_choice_1.
      - apply guarded_choice_2.
      - apply guarded_choice_3.
      - apply guarded_choice_4.
      - apply guarded_choice_5.
      - apply guarded_choice_6. }
    destruct (Hrest s1 Hs) as (r & s' & Hrun & Hs' & Hlen & Hr).
    exists r, s'. split; [exact Hrun |]. split; [done |].
    destruct r; [| done]. cbn in Hlen. cbn. lia.
Qed.

Lemma menu_loop_ends fuel s :
  I (disk s) -> (length (console s) < fuel)%nat ->
  exists r s', menu_loop sh scraper fuel s = (r, s') /\ I (disk s')
    /\ match r with
       | inl _ => True
       | inr why => ok why
       end.
Proof.
  revert s. induction fuel as [| fuel IH]; intros s Hs Hfuel; [lia |].
  cbn [menu_loop]. unfold mbind, prog_bind.
  destruct (menu_pass_reads s Hs) as (r & s' & Hrun & Hs' & Hr).
  rewrite Hrun. destruct r as [[] | why].
  - apply IH; [done | lia].
  - by exists (inl tt), s'.
  - by exists (inr why), s'.
Qed.

End Guarded.

Section MenuRuns.
Import Menu.
Implicit Types (sh : Shell) (scraper : Scraper) (s : Session).

Lemma collect_posts_raises build g acc e' :
  mild build -> (forall e, gen_error g = Some e -> is_Exception e = true) ->
  Reddit.collect_posts build g acc = Raise e' -> is_Exception e' = true.
Proof.
  intros Hmild. revert acc.
  induction g as [| s0 rest IH | e0]; intros acc Herr; cbn [Reddit.collect_posts].
  - done.
  - destruct (build (length acc) s0) as [d | e1] eqn:Hb.
    + by apply IH.
    + intros [= <-]. by eapply Hmild.
  - intros [= <-]. by apply Herr.
Qed.

Lemma collect_comments_raises a post_id items acc e' :
  Reddit.collect_comments a post_id items acc = Raise e' ->
  is_Exception e' = true.
Proof.
  revert acc. induction items as [| [c |] rest IH]; intros acc;
    cbn [Reddit.collect_comments]; [done | | apply IH].
  destruct (Reddit.comment_data a post_id (length acc) c) as [d | e1] eqn:Hb;
    [apply IH |].
  intros [= <-]. unfold Reddit.comment_data in Hb.
  destruct (Reddit.created_time a (Reddit.c_created_utc c)) eqn:Ht;
    simpl in Hb; inversion Hb; subst. by eapply created_time_raises.
Qed.

Lemma caught_returns (body : outcome (list pydict)) :
  (forall e, body = Raise e -> is_Exception e = true) ->
  exists result, try_except_Exception body (fun e => Ret []) = Ret result.
Proof.
  intros Hbody. unfold try_except_Exception. destruct body as [r | e].
  - by exists r.
  - rewrite (Hbody e eq_refl). by exists [].
Qed.

Lemma fetches_return a :
  api_failures_only a ->
  (forall name sort_type limit tf,
      exists posts, Reddit.get_subreddit_posts a name sort_type limit tf = Ret posts)
  /\ (forall post_id limit,
        exists comments, Reddit.get_post_comments a post_id limit = Ret comments)
  /\ (forall query subreddit sort tf limit,
        exists posts,
          Reddit.search_reddit a query subreddit sort tf limit = Ret posts)
  /\ (forall username sort limit,
        exists posts, Reddit.get_user_posts a username sort limit = Ret posts).
Proof.
  intros [Hgen Hcomments]. split; [| split; [| split]].
  - intros name sort_type limit tf. apply caught_returns. intros e.
    apply collect_posts_raises; [apply post_data_mild |].
    intros e0. apply Hgen. unfold Reddit.subreddit_listing.
    repeat (match goal with |- context [if ?b then _ else _] => destruct b end);
      eauto 20.
  - intros post_id limit. apply caught_returns. intros e.
    destruct (Reddit.submission_comments a post_id) as [items | e0] eqn:Hload;
      cbn [mbind outcome_bind].
    + apply collect_comments_raises.
    + intros [= <-]. by eapply Hcomments.
  - intros query subreddit sort tf limit. apply caught_returns. intros e.
    apply collect_posts_raises; [apply search_post_data_mild |].
    intros e0. apply Hgen. unfold Reddit.search_results.
    destruct subreddit as [name |]; [destruct (nonempty name) |]; eauto 20.
  - intros username sort limit. apply caught_returns. intros e.
    apply collect_posts_raises; [apply user_post_data_mild |].
    intros e0. apply Hgen. unfold Reddit.user_listing.
    repeat (match goal with |- context [if ?b then _ else _] => destruct b end);
      eauto 20.
Qed.

Lemma harvest_returns a posts comment_limit all_comments :
  api_failures_only a ->
  Forall (fun post => exists post_id, post_id_of post = Ret post_id) posts ->
  exists per_post,
    Forall2 (fun post comments =>
               exists post_id, post_id_of post = Ret post_id
                 /\ Reddit.get_post_comments a post_id comment_limit
                    = Ret comments)
      posts per_post
    /\ harvest_comments a posts comment_limit all_comments
       = Ret (all_comments ++ concat per_post).
Proof.
  intros Hapi Hids. revert all_comments.
  induction Hids as [| post posts [post_id Hid] _ IH]; intros all_comments.
  - exists []. split; [constructor |]. cbn. by rewrite app_nil_r.
  - destruct (proj1 (proj2 (fetches_return a Hapi)) post_id comment_limit)
      as [comments Hc].
    destruct (IH (all_comments ++ comments)) as (per_post & Hall & Hrun).
    exists (comments :: per_post). split.
    + constructor; [by exists post_id | done].
    + cbn [harvest_comments]. rewrite Hid. cbn [mbind outcome_bind].
      rewrite Hc. cbn [mbind outcome_bind]. rewrite Hrun.
      cbn [concat]. by rewrite app_assoc.
Qed.

Lemma fetched_posts_have_ids a name sort_type limit tf posts :
  Reddit.get_subreddit_posts a name sort_type limit tf = Ret posts ->
  Forall (fun post => exists post_id, post_id_of post = Ret post_id) posts.
Proof.
  apply get_subreddit_posts_Forall. intros i s d.
  apply (post_data_built
           (fun d => exists post_id, post_id_of d = Ret post_id)).
  intros formatted. by eexists.
Qed.

(** X19.  In choice 6 the comments of the posts are collected post by
    post: when Reddit fails with [Exception]s only, the harvest over the
    posts [get_subreddit_posts] returned never stops early; it returns the
    comments of all the posts one after the other, a post whose comments
    cannot be loaded adding none. *)
Theorem harvest_goes_through_all_posts a name sort_type limit tf posts
    comment_limit :
  api_failures_only a ->
  Reddit.get_subreddit_posts a name sort_type limit tf = Ret posts ->
  exists per_post,
    Forall2 (fun post comments =>
               exists post_id, post_id_of post = Ret post_id
                 /\ Reddit.get_post_comments a post_id comment_limit
                    = Ret comments)
      posts per_post
    /\ harvest_comments a posts comment_limit [] = Ret (concat per_post).
Proof.
  intros Hapi Hposts.
  destruct (harvest_returns a posts comment_limit [] Hapi) as (pp & Hall & Hrun).
  - by eapply fetched_posts_have_ids.
  - by exists pp.
Qed.

Lemma writer_guarded ok (body : IO unit) :
  contained body ->
  disk_guarded io_failures_only ok
    (try_except (body ≫= fun _ => mret true) (fun e => mret false)).
Proof.
  intros Hbody w Hw. unfold try_except.
  destruct (Hbody w Hw) as ([[] | e] & w' & Hrun & Hw' & Ho).
  - exists (Ret true), w'. by rewrite (bind_ret _ _ _ _ _ Hrun).
  - exists (Ret false), w'. by rewrite (bind_raise _ _ _ _ _ Hrun), Ho.
Qed.

Lemma save_to_csv_guarded ok data filename :
  disk_guarded io_failures_only ok (Reddit.save_to_csv data filename).
Proof.
  destruct data as [| first rest].
  - intros w Hw. by exists (Ret false), w.
  - apply writer_guarded, contained_with_open.
    apply contained_bind; [apply contained_write |].
    intros _. apply contained_for_each. intros r. apply contained_writerow.
Qed.

Lemma save_to_json_guarded ok data filename :
  disk_guarded io_failures_only ok (Reddit.save_to_json data filename).
Proof.
  destruct data as [| first rest].
  - intros w Hw. by exists (Ret false), w.
  - apply writer_guarded, contained_with_open, contained_write.
Qed.

Lemma info_returns (ia : RedditInfo.InfoApi) name :
  (forall e, RedditInfo.subreddit_about ia name = Raise e ->
             is_Exception e = true) ->
  exists info, RedditInfo.get_subreddit_info ia name = Ret info.
Proof.
  intros Habout. unfold RedditInfo.get_subreddit_info.
  destruct (RedditInfo.subreddit_about ia name) as [sub | e]; cbn [mbind outcome_bind].
  - destruct (RedditInfo.description sub) as [text |]; cbn;
      [| by eexists].
    unfold RedditInfo.created_date.
    destruct (RedditInfo.utc_date ia _); cbn; by eexists.
  - cbn. rewrite (Habout e eq_refl). by eexists.
Qed.

Lemma quiet_of_returns ok {A} (o : outcome A) :
  (exists a, o = Ret a) -> quiet ok o.
Proof. by intros [a ->]. Qed.

Lemma quiet_unless_fuel {A} (o : outcome A) :
  quiet (fun why => why <> OutOfFuel) o.
Proof. by destruct o. Qed.

Lemma disk_guarded_unless_fuel {A} (m : IO A) :
  disk_guarded (fun _ => True) (fun why => why <> OutOfFuel) m.
Proof.
  intros w _. destruct (m w) as [o w'] eqn:Hw. exists o, w'.
  split; [done |]. split; [done | apply quiet_unless_fuel].
Qed.

(** X20.  [interactive_menu] always comes to an end on a finite input:
    every pass of its loop reads at least one line, so it ends by choice
    7, by running out of input, or by an exception, after at most as many
    passes as there are lines, and one more. *)
Theorem menu_always_ends sh s :
  (interactive_menu sh s).1 <> inr OutOfFuel.
Proof.
  unfold interactive_menu. destruct (RedditScraper sh) as [scraper | e].
  - destruct (menu_loop_ends (fun _ => True) (fun why => why <> OutOfFuel)
                ltac:(done) ltac:(done) sh scraper)
      with (fuel := S (length (console s))) (s := s)
      as (r & s' & Hrun & _ & Hr);
      try (intros; apply quiet_unless_fuel);
      try (intros; apply disk_guarded_unless_fuel);
      try done; try lia.
    rewrite Hrun. cbn. destruct r as [u | why]; [done |].
    intros [= ->]. by apply Hr.
  - by destruct (is_Exception e).
Qed.

Lemma show_info_outcome (ia : RedditInfo.InfoApi) name info :
  RedditInfo.get_subreddit_info ia name = Ret info -> info <> [] ->
  exists subreddit,
    RedditInfo.subreddit_about ia name = Ret subreddit
    /\ show_info info = match RedditInfo.subscribers subreddit with
                        | Some _ => Ret tt
                        | None => Raise TypeError
                        end.
Proof.
  unfold RedditInfo.get_subreddit_info.
  destruct (RedditInfo.subreddit_about ia name) as [sub | e];
    cbn [mbind outcome_bind].
  2:{ cbn. destruct (is_Exception e); [| done]. by intros [= <-]. }
  unfold RedditInfo.description_500, RedditInfo.created_date.
  destruct (RedditInfo.description sub) as [text |]; cbn [mbind outcome_bind];
    [| cbn; by intros [= <-]].
  destruct (RedditInfo.utc_date ia _) as [formatted |]; cbn [mbind outcome_bind];
    [| cbn; by intros [= <-]].
  cbn [try_except_Exception mret outcome_ret]. intros [= <-] _.
  exists sub. split; [done |].
  by destruct (RedditInfo.subscribers sub).
Qed.

Lemma menu_loop_survives ok sh scraper s :
  ok EndOfInput -> ok (Uncaught ValueError) ->
  scraper_failures_only scraper ->
  (forall name info,
      RedditInfo.get_subreddit_info (info_api scraper) name = Ret info ->
      info <> [] -> quiet ok (show_info info)) ->
  io_failures_only (disk s) ->
  exists r s',
    menu_loop sh scraper (S (length (console s))) s = (r, s')
    /\ io_failures_only (disk s')
    /\ match r with
       | inl _ => True
       | inr why => ok why
       end.
Proof.
  intros Heoi Hvalue [Hapi Habout] Hshow Hs.
  destruct (fetches_return _ Hapi) as (Hp & Hc & Hsr & Hu).
  apply (menu_loop_ends io_failures_only ok Heoi Hvalue sh scraper);
    try done; try lia; try (intros; by apply quiet_of_returns).
  - intros name. apply quiet_of_returns, info_returns, Habout.
  - intros name limit posts cl Hposts. apply quiet_of_returns.
    destruct (harvest_returns (api scraper) posts cl [] Hapi)
      as (pp & _ & Hrun); [by eapply fetched_posts_have_ids | by eexists].
  - intros. apply save_to_csv_guarded.
  - intros. apply save_to_json_guarded.
Qed.

(** X21.  When Reddit and the disk fail with [Exception]s only,
    [interactive_menu] ends normally (by choice 7, or at once when the
    client cannot be built), or because the input is used up, or because
    a number was asked for and the answer is not one ([ValueError] of
    [int]), or because choice 5 met a subreddit without a subscriber
    count ([TypeError] of the thousands format).  No failure of Reddit or
    of the disk ends it, and when every subreddit tells its number of
    subscribers the [TypeError] does not occur either. *)
Theorem menu_survives_reddit_and_disk_failures sh s :
  shell_failures_only sh -> io_failures_only (disk s) ->
  exists r s', interactive_menu sh s = (r, s')
    /\ (r = inl tt \/ r = inr EndOfInput \/ r = inr (Uncaught ValueError)
        \/ r = inr (Uncaught TypeError))
    /\ (subscribers_known sh -> r <> inr (Uncaught TypeError))
    /\ io_failures_only (disk s').
Proof.
  unfold shell_failures_only, subscribers_known, interactive_menu.
  intros Hsh Hs.
  destruct (RedditScraper sh) as [scraper | e].
  - destruct (menu_loop_survives tolerated_end sh scraper s)
      as (r & s' & Hrun & Hs' & Hr); try done.
    { by left; left. }
    { by left; right. }
    { intros name info Hinfo Hne.
      destruct (show_info_outcome _ _ _ Hinfo Hne) as (sub & _ & ->).
      destruct (RedditInfo.subscribers sub); [done | by right]. }
    exists r, s'. split; [done |]. split; [| split; [| done]].
    + destruct r as [[] | why]; [by left |].
      destruct Hr as [[-> | ->] | ->]; auto.
    + intros Hknown.
      destruct (menu_loop_survives expected_end sh scraper s)
        as (r2 & s2 & Hrun2 & _ & Hr2); try done.
      { by left. }
      { by right. }
      { intros name info Hinfo Hne.
        destruct (show_info_outcome _ _ _ Hinfo Hne) as (sub & Hsub & ->).
        by destruct (Hknown scraper name sub eq_refl Hsub) as [count ->]. }
      rewrite Hrun in Hrun2. injection Hrun2 as <- <-.
      intros ->. by destruct Hr2.
  - rewrite Hsh. exists (inl tt), s. repeat split; auto.
Qed.

End MenuRuns.

Section MenuChoices.
Import Menu.
Implicit Types (sh : Shell) (scraper : Scraper) (w : World)
  (rest : list string).

Lemma menu_survives_reddit_and_disk_failures_witness :
  exists r s',
    interactive_menu Samples3.broken_shell
      (Samples3.session
         ["1"; "python"; ""; ""; "5"; "python"; "y"; "3"; "spam"; " 7 "; "1"]
         Samples.failing_disk) = (r, s')
    /\ (r = inl tt \/ r = inr EndOfInput \/ r = inr (Uncaught ValueError)
        \/ r = inr (Uncaught TypeError))
    /\ r <> inr (Uncaught TypeError)
    /\ io_failures_only (disk s').
Proof.
  destruct (menu_survives_reddit_and_disk_failures Samples3.broken_shell
              (Samples3.session
                 ["1"; "python"; ""; ""; "5"; "python"; "y"; "3"; "spam";
                  " 7 "; "1"]
                 Samples.failing_disk))
    as (r & s' & Hrun & Hends & Hknown & Hdisk).
  - split; [split |].
    + intros g e Hg Herr.
      destruct Hg as
        [ (n & l & ->) | [ (n & l & ->) | [ (n & l & ->)
        | [ (n & l & t & ->) | [ (n & l & t & ->)
        | [ (n & q & so & t & l & ->) | [ (n & l & ->) | [ (n & l & ->)
        | [ (n & l & ->) | (n & l & ->) ]]]]]]]]];
        cbn in Herr; by inversion Herr.
    + intros post_id e [= <-]. reflexivity.
    + intros name e. cbn.
      repeat (match goal with |- context [if ?b then _ else _] => destruct b end);
        intros [= <-]; reflexivity.
  - repeat constructor; intros e [= <-]; reflexivity.
  - exists r, s'. split; [exact Hrun |]. split; [exact Hends |].
    split; [| exact Hdisk].
    apply Hknown. intros scraper name sub [= <-]. cbn.
    repeat (match goal with |- context [if ?b then _ else _] => destruct b end);
      intros [= <-]; by eexists.
Defined.

(** A subreddit without a subscriber count ends the menu in choice 5:
    the count cannot be printed, the question about saving is not asked
    and nothing is written. *)
Example missing_subscriber_count_ends_the_menu :
  interactive_menu Samples3.hiding_shell
    (Samples3.session ["5"; "hidden"; "y"; "7"] Samples.empty_disk)
  = (inr (Uncaught TypeError), Samples3.session ["y"; "7"] Samples.empty_disk)
  /\ interactive_menu Samples3.hiding_shell
       (Samples3.session ["5"; "python"; "n"; "7"] Samples.empty_disk)
     = (inl tt, Samples3.session [] Samples.empty_disk).
Proof. split; vm_compute; reflexivity. Qed.

(** X22.  A limit that is not a number ends the whole menu.  In choice
    1, 2 and 6 the answer to "Number of ..." is handed to [int]; when
    [int] raises [ValueError] on it, [interactive_menu] ends with that
    exception, the lines after the answer unread and the disk as it
    was: nothing has been fetched or written. *)
Theorem menu_ends_at_a_malformed_number sh scraper w rest choice named
    answer bad :
  RedditScraper sh = Ret scraper ->
  (strip choice = "1" -> int_or sh 25 bad = None ->
   interactive_menu sh
     {| console := choice :: named :: answer :: bad :: rest; disk := w |}
   = (inr (Uncaught ValueError), {| console := rest; disk := w |}))
  /\ (strip choice = "2" -> int_or sh 50 bad = None ->
      interactive_menu sh
        {| console := choice :: named :: bad :: rest; disk := w |}
      = (inr (Uncaught ValueError), {| console := rest; disk := w |}))
  /\ (strip choice = "6" -> int_or sh 10 bad = None ->
      interactive_menu sh
        {| console := choice :: named :: bad :: rest; disk := w |}
      = (inr (Uncaught ValueError), {| console := rest; disk := w |})).
Proof.
  intros Hsc. unfold interactive_menu. rewrite Hsc.
  split; [| split]; intros Hchoice Hbad; cbn [console length menu_loop];
    unfold menu_pass, choice_1, choice_2, choice_6, ask, ask_int, input,
      mbind, prog_bind, mret, prog_ret, halt;
    cbn [console disk]; rewrite Hchoice;
    cbn [String.eqb Ascii.eqb Bool.eqb console disk];
    by rewrite Hbad.
Qed.

Lemma menu_ends_at_a_malformed_number_witness :
  interactive_menu Samples3.shell
    (Samples3.session ["1"; "python"; "new"; "ten"; "7"] Samples.empty_disk)
  = (inr (Uncaught ValueError), Samples3.session ["7"] Samples.empty_disk).
Proof.
  refine (proj1 (menu_ends_at_a_malformed_number Samples3.shell _
                   Samples.empty_disk ["7"] "1" "python" "new" "ten" eq_refl)
            _ _); reflexivity.
Defined.

(** X23.  Choice 6 saves the posts only together with comments: when
    the harvest yields no comment at all, nothing is written, although
    posts may have been fetched, and the menu goes on. *)
Theorem posts_without_comments_are_not_saved sh scraper w rest choice
    subreddit raw_posts raw_comments post_limit comment_limit posts :
  strip choice = "6" ->
  int_or sh 10 raw_posts = Some post_limit ->
  int_or sh 20 raw_comments = Some comment_limit ->
  Reddit.get_subreddit_posts (api scraper) (strip subreddit) "hot" post_limit
    "all" = Ret posts ->
  harvest_comments (api scraper) posts comment_limit [] = Ret [] ->
  menu_pass sh scraper
    {| console := choice :: subreddit :: raw_posts :: raw_comments :: rest;
       disk := w |}
  = (inl true, {| console := rest; disk := w |}).
Proof.
  intros Hchoice Hp Hc Hposts Hharvest.
  unfold menu_pass, choice_6, ask_int, input, call,
    mbind, prog_bind, mret, prog_ret.
  cbn [console disk]. rewrite Hchoice.
  cbn [String.eqb Ascii.eqb Bool.eqb console disk].
  rewrite Hp. cbn [console disk]. rewrite Hc, Hposts, Hharvest.
  by destruct posts.
Qed.

Lemma posts_without_comments_are_not_saved_witness :
  exists posts,
    Reddit.get_subreddit_posts Samples.quiet_api "python" "hot" 10 "all"
    = Ret posts
    /\ posts <> []
    /\ menu_pass Samples3.shell
         {| api := Samples.quiet_api; info_api := Samples3.info |}
         (Samples3.session ["6"; "python"; ""; ""; "7"] Samples.empty_disk)
       = (inl true, Samples3.session ["7"] Samples.empty_disk).
Proof.
  destruct (Reddit.get_subreddit_posts Samples.quiet_api "python" "hot" 10 "all")
    as [posts | e] eqn:Hposts; [| discriminate Hposts].
  exists posts. split; [done |]. split.
  - intros ->. vm_compute in Hposts. discriminate Hposts.
  - apply (posts_without_comments_are_not_saved Samples3.shell
             {| api := Samples.quiet_api; info_api := Samples3.info |}
             Samples.empty_disk ["7"] "6" "python" "" "" 10 20 posts);
      try reflexivity; [exact Hposts |].
    vm_compute in Hposts. injection Hposts as <-. vm_compute. reflexivity.
Defined.

End MenuChoices.

Section MenuSaves.
Import Menu.
Implicit Types (sh : Shell) (scraper : Scraper) (w : World)
  (rest : list string) (data : list pydict).

Lemma uniform_batch_succeeds fields data filename w :
  data <> [] -> Forall (fun d => keys d = fields) data -> io_succeeds w ->
  succeeds_with (Reddit.save_to_csv data filename) w true
    (<[filename := CsvRow fields :: (csv_row_of fields <$> data)]> (files w)).
Proof.
  intros Hne Hkeys Hok. destruct data as [| first others]; [done |].
  apply Forall_cons in Hkeys as [<- Hothers].
  apply reddit_save_to_csv_written; [done |].
  eapply Forall_impl; [exact Hothers |]. by intros d ->.
Qed.

Lemma save_to_json_succeeds data filename w :
  data <> [] -> io_succeeds w ->
  succeeds_with (Reddit.save_to_json data filename) w true
    (<[filename := [JsonDoc data]]> (files w)).
Proof.
  intros Hne Hok. destruct data as [| first others]; [done |].
  cbn [Reddit.save_to_json]. apply try_except_succeeds. eapply succeeds_bind.
  destruct (with_open_succeeds (write filename (JsonDoc (first :: others)))
              w filename tt (<[filename := [JsonDoc (first :: others)]]> (files w))
              Hok) as (w' & Hrun & Hfs & Hok').
  - intros w1 Hok1 Hfs1.
    destruct (write_succeeds w1 filename (JsonDoc (first :: others)) [] Hok1)
      as (w2 & Hw & Hfs2 & Hok2).
    { rewrite Hfs1. apply lookup_insert_eq. }
    exists w2. repeat split; [done | | done].
    by rewrite Hfs2, Hfs1, insert_insert_eq.
  - exists w'. repeat split; [done | done |]. by exists w'.
Qed.

Lemma on_disk_succeeds {A} (m : IO A) w a fs lines :
  succeeds_with m w a fs ->
  exists w', on_disk m {| console := lines; disk := w |}
             = (inl a, {| console := lines; disk := w' |})
    /\ files w' = fs /\ io_succeeds w'.
Proof.
  intros (w' & Hrun & Hfs & Hok). exists w'. unfold on_disk. cbn [disk console].
  by rewrite Hrun.
Qed.

(** X24.  The answer to "Save as" is compared as it is typed: only
    [csv], [json], [both] and the blank answer (taken as [csv]) make the
    menu write; any other answer, [CSV] or [skip] alike, writes nothing.
    After [both], with no I/O failure, the two files hold the batch: the
    table in [stem.csv], the document in [stem.json]. *)
Theorem save_format_is_taken_literally data stem raw rest w fields :
  (str_or "csv" raw ∉ ["csv"; "json"; "both"] ->
   save_as data stem {| console := raw :: rest; disk := w |}
   = (inl tt, {| console := rest; disk := w |}))
  /\ (str_or "csv" raw = "both" -> data <> [] ->
      Forall (fun d => keys d = fields) data -> io_succeeds w ->
      exists w',
        save_as data stem {| console := raw :: rest; disk := w |}
        = (inl tt, {| console := rest; disk := w' |})
        /\ files w' = <[stem +:+ ".json" := [JsonDoc data]]>
                        (<[stem +:+ ".csv" :=
                             CsvRow fields :: (csv_row_of fields <$> data)]>
                           (files w))).
Proof.
  split.
  - intros Hnot. unfold save_as, ask, input, mbind, prog_bind, mret, prog_ret.
    cbn [console disk].
    rewrite !bool_decide_eq_false_2; [done | |];
      intros Hin; apply Hnot;
      repeat (apply elem_of_cons in Hin as [-> | Hin]);
      try (by apply elem_of_nil in Hin);
      repeat (first [apply list_elem_of_here | apply list_elem_of_further]).
  - intros Hboth Hne Hkeys Hok.
    destruct (on_disk_succeeds _ w true _ rest
                (uniform_batch_succeeds fields data (stem +:+ ".csv") w
                   Hne Hkeys Hok)) as (w1 & Hcsv & Hfs1 & Hok1).
    destruct (on_disk_succeeds _ w1 true _ rest
                (save_to_json_succeeds data (stem +:+ ".json") w1 Hne Hok1))
      as (w2 & Hjson & Hfs2 & _).
    exists w2. split; [| by rewrite Hfs2, Hfs1].
    unfold save_as, ask, input, mbind, prog_bind, mret, prog_ret.
    cbn [console disk]. rewrite Hboth.
    change (bool_decide ("both" ∈ ["csv"; "both"])) with true.
    change (bool_decide ("both" ∈ ["json"; "both"])) with true.
    cbv beta iota. rewrite Hcsv. cbv beta iota. by rewrite Hjson.
Qed.

Lemma save_format_is_taken_literally_witness :
  save_as Samples.two_posts "posts"
    (Samples3.session ["CSV"; "7"] Samples.empty_disk)
  = (inl tt, Samples3.session ["7"] Samples.empty_disk).
Proof.
  apply (proj1 (save_format_is_taken_literally Samples.two_posts "posts"
                  "CSV" ["7"] Samples.empty_disk [])).
  apply (bool_decide_unpack _). vm_compute. reflexivity.
Defined.

Lemma blank_is_default default raw : strip raw = "" -> str_or default raw = default.
Proof. intros H. unfold str_or. by rewrite H. Qed.

Lemma stem_of_hot_posts subreddit :
  (subreddit +:+ "_" +:+ "hot" +:+ "_posts") +:+ ".csv"
  = subreddit +:+ "_hot_posts.csv".
Proof. by rewrite str_app_assoc. Qed.

(** X25.  Choice 1 answered with blank lines only (sort, number, format)
    fetches the 25 hot posts of the subreddit, without asking for a time
    filter, and, when there are posts and no I/O failure, writes them as
    CSV to [<subreddit>_hot_posts.csv] and writes no JSON file. *)
Theorem choice_1_with_blank_answers sh scraper w rest choice subreddit
    blank1 blank2 blank3 posts :
  strip choice = "1" ->
  strip blank1 = "" -> strip blank2 = "" -> strip blank3 = "" ->
  Reddit.get_subreddit_posts (api scraper) (strip subreddit) "hot" 25 "all"
  = Ret posts ->
  posts <> [] -> io_succeeds w ->
  exists w',
    menu_pass sh scraper
      {| console := choice :: subreddit :: blank1 :: blank2 :: blank3 :: rest;
         disk := w |}
    = (inl true, {| console := rest; disk := w' |})
    /\ files w' = <[strip subreddit +:+ "_hot_posts.csv" :=
                      CsvRow post_fields :: (csv_row_of post_fields <$> posts)]>
                    (files w).
Proof.
  intros Hchoice Hb1 Hb2 Hb3 Hposts Hne Hok.
  assert (Hkeys : Forall (fun d => keys d = post_fields) posts).
  { eapply get_subreddit_posts_Forall; [| exact Hposts]. intros i s d.
    by apply (post_data_built (fun d => keys d = post_fields)). }
  destruct (on_disk_succeeds _ w true _ rest
              (uniform_batch_succeeds post_fields posts
                 ((strip subreddit +:+ "_" +:+ "hot" +:+ "_posts") +:+ ".csv")
                 w Hne Hkeys Hok)) as (w1 & Hcsv & Hfs1 & _).
  exists w1. split; [| by rewrite Hfs1, stem_of_hot_posts].
  unfold menu_pass, choice_1, save_if_any, save_as, ask, ask_int, int_or, input,
    call, mbind, prog_bind, mret, prog_ret.
  cbn [console disk]. rewrite Hchoice.
  cbn [String.eqb Ascii.eqb Bool.eqb console disk].
  rewrite (blank_is_default _ _ Hb1), Hb2. cbn [nonempty console disk].
  change (bool_decide ("hot" ∈ ["top"; "controversial"])) with false.
  cbv beta iota. rewrite Hposts. destruct posts as [| p ps]; [done |].
  cbn [console disk]. rewrite (blank_is_default _ _ Hb3).
  change (bool_decide ("csv" ∈ ["csv"; "both"])) with true.
  change (bool_decide ("csv" ∈ ["json"; "both"])) with false.
  cbv beta iota. by rewrite Hcsv.
Qed.

Lemma choice_1_with_blank_answers_witness :
  exists posts w',
    Reddit.get_subreddit_posts Samples.quiet_api "python" "hot" 25 "all"
    = Ret posts
    /\ menu_pass Samples3.shell
         {| api := Samples.quiet_api; info_api := Samples3.info |}
         (Samples3.session ["1"; " python "; ""; " "; ""; "7"] Samples.empty_disk)
       = (inl true, Samples3.session ["7"] w')
    /\ files w' = <["python_hot_posts.csv" :=
                      CsvRow post_fields :: (csv_row_of post_fields <$> posts)]>
                    (files Samples.empty_disk).
Proof.
  destruct (Reddit.get_subreddit_posts Samples.quiet_api "python" "hot" 25 "all")
    as [posts | e] eqn:Hposts; [| discriminate Hposts].
  destruct (choice_1_with_blank_answers Samples3.shell
              {| api := Samples.quiet_api; info_api := Samples3.info |}
              Samples.empty_disk ["7"] "1" " python " "" " " "" posts)
    as (w' & Hrun & Hfs); try reflexivity; try exact Hposts.
  - intros ->. vm_compute in Hposts. discriminate Hposts.
  - constructor.
  - by exists posts, w'.
Defined.

End MenuSaves.

Section MoreWitnesses.
Import Menu.

Lemma subreddit_info_or_nothing_witness :
  RedditInfo.get_subreddit_info Samples3.info "private" = Ret []
  /\ RedditInfo.get_subreddit_info Samples3.info "nowhere" = Ret []
  /\ exists info,
       RedditInfo.get_subreddit_info Samples3.info "python" = Ret info
       /\ dict_get "description" PyNone info
          = PyStr (str_take 500 (Samples.repeat_char 600 "d")).
Proof.
  destruct (subreddit_info_or_nothing Samples3.info "private")
    as (_ & Hnone & _).
  destruct (subreddit_info_or_nothing Samples3.info "nowhere")
    as (Hfail & _ & _).
  destruct (subreddit_info_or_nothing Samples3.info "python")
    as (_ & _ & Hsome).
  split; [| split].
  - eapply Hnone; [reflexivity | by left].
  - by apply (Hfail PrawcoreException).
  - destruct (Hsome Samples3.python_about _ _ eq_refl eq_refl eq_refl)
      as (info & Hrun & _ & Hd & _).
    by exists info.
Defined.

Lemma harvest_goes_through_all_posts_witness :
  exists posts per_post,
    Reddit.get_subreddit_posts Samples2.dated_api "python" "new" 10 "all"
    = Ret posts
    /\ posts <> []
    /\ harvest_comments Samples2.dated_api posts 20 [] = Ret (concat per_post).
Proof.
  destruct (Reddit.get_subreddit_posts Samples2.dated_api "python" "new" 10 "all")
    as [posts | e] eqn:Hposts; [| discriminate Hposts].
  destruct (harvest_goes_through_all_posts Samples2.dated_api "python" "new"
              10 "all" posts 20) as (per_post & _ & Hrun); [| exact Hposts |].
  - split.
    + intros g e Hg Herr.
      destruct Hg as
        [ (n & l & ->) | [ (n & l & ->) | [ (n & l & ->)
        | [ (n & l & t & ->) | [ (n & l & t & ->)
        | [ (n & q & so & t & l & ->) | [ (n & l & ->) | [ (n & l & ->)
        | [ (n & l & ->) | (n & l & ->) ]]]]]]]]];
        cbn in Herr; by inversion Herr.
    + intros post_id e. discriminate.
  - exists posts, per_post. split; [done |]. split; [| done].
    intros ->. vm_compute in Hposts. discriminate Hposts.
Defined.

Lemma statistics_add_up_witness :
  let stats := ToiReport.display_statistics
                 [Samples.tennis_article; Samples.sports_india_article] in
  ("Sports", 1%nat) ∈ ToiReport.shown_categories stats.
Proof.
  intros stats.
  destruct (statistics_add_up
              [Samples.tennis_article; Samples.sports_india_article])
    as (_ & _ & Hcat & _).
  apply Hcat. split; [reflexivity | lia].
Defined.

Lemma dedupe_fixes_exactly_the_duplicate_free_witness :
  Toi.dedupe [Samples.tennis_article; Samples.sports_india_article]
  = [Samples.tennis_article; Samples.sports_india_article].
Proof.
  apply dedupe_fixes_exactly_the_duplicate_free.
  apply (bool_decide_unpack _). vm_compute. reflexivity.
Defined.

End MoreWitnesses.

Section Sample.
Import Toi ToiReport.

Lemma imap_numbered {A} (l : list A) start :
  imap (fun i a => (start + i, a)%nat) l = zip (seq start (length l)) l.
Proof.
  revert start. induction l as [| a l IH]; intros start; [done |].
  rewrite imap_cons. cbn [length seq zip zip_with]. rewrite Nat.add_0_r.
  f_equal. rewrite <- IH. apply imap_ext. intros i x _. cbn. f_equal. lia.
Qed.

(** X26.  [display_sample_articles] shows the first [count] articles of
    the batch, or all of them when there are fewer, in batch order and
    numbered from 1. *)
Theorem sample_shows_the_first_articles (articles : list article) count :
  0 <= count ->
  let shown := Nat.min (Z.to_nat count) (length articles) in
  display_sample_articles articles count
  = zip (seq 1 shown) (take (Z.to_nat count) articles).
Proof.
  intros Hpos shown. unfold display_sample_articles, slice_to.
  rewrite (proj2 (Z.leb_le 0 count) Hpos).
  rewrite (imap_ext _ (fun i a => (1 + i, a)%nat)) by done.
  by rewrite imap_numbered, length_take.
Qed.

Lemma sample_shows_the_first_articles_witness :
  display_sample_articles
    [Samples.tennis_article; Samples.sports_india_article;
     Samples.tennis_article] 2
  = [(1%nat, Samples.tennis_article); (2%nat, Samples.sports_india_article)].
Proof.
  apply (sample_shows_the_first_articles
           [Samples.tennis_article; Samples.sports_india_article;
            Samples.tennis_article] 2). lia.
Defined.

End Sample.
